(** * Swap-quote plugins of edge-exchange-plugins: godex and totle

    A shallow embedding of

    - the current godex plugin, the second file of [src/index.ts]
      ([asApiInfo], [asQuoteInfo], [call], [fetchSwapQuoteInner],
      [fetchSwapQuote]), with [asNumberString] of [src/swap/types.ts],
    - the earlier godex plugin, [unnamed/part_000]
      ([asApiInfo], [asQuoteInfo], [getAddress], [call], [fetchSwapQuote]),
    - [src/swap/totle.js] ([checkSwapReply], [fetchSwapReply],
      [fetchTokens], [fetchSwapQuote], [makeTotleSwapPluginQuote],
      [approve]),

    together with the parts of their collaborators that the properties
    below depend on: biggystring's [lt] and [floor] on decimal strings, the
    cleaners that validate backend replies, the wallet runtime and the
    network.  Replies that no cleaner validates (totle's) have the types
    the plugin declares for them.  Calls to [log] have no effect on any
    result and are left out. *)

From Stdlib Require Import ZArith NArith QArith Qround String Ascii List Lia.
From stdpp Require Import base option list strings gmap.

Set Warnings "-register-all".
Close Scope Q_scope.
Open Scope string_scope.
Open Scope Z_scope.

(* ================================================================== *)
(** * JavaScript values shared by the plugins                          *)
(* ================================================================== *)

(** ['from' | 'to'], the side a limit error refers to. *)
Inductive SwapDirection := DirFrom | DirTo.

(** [quoteFor: 'from' | 'max' | 'to'] of a swap request. *)
Inductive QuoteFor := QuoteFrom | QuoteMax | QuoteTo.

Record EdgeSwapInfo := {
  pluginId : string;
  isDex : option bool;
  displayName : string;
  orderUri : option string;
  supportEmail : string
}.

(** The exceptions the plugins throw or let through.  A
    [SwapCurrencyError] is built either from the two currency codes
    (earlier API) or from the request (current API); in both cases we keep
    the pair of currency codes of the request it was raised for. *)
Inductive JsError :=
| SwapCurrencyError (info : EdgeSwapInfo) (fromCurrencyCode toCurrencyCode : string)
| SwapBelowLimitError (info : EdgeSwapInfo) (nativeMin : string) (direction : SwapDirection)
| SwapAboveLimitError (info : EdgeSwapInfo) (nativeMax : string) (direction : SwapDirection)
| InsufficientFundsError
| NoAmountSpecifiedError
| Error (message : string)
| TypeError (message : string).

(** [new SwapBelowLimitError(swapInfo, nativeMin, direction = 'from')]. *)
Definition new_SwapBelowLimitError (info : EdgeSwapInfo) (nativeMin : string)
    (direction : option SwapDirection) : JsError :=
  SwapBelowLimitError info nativeMin (default DirFrom direction).

(** The outcome of an expression that may throw. *)
Inductive result (A : Type) :=
| Ok (a : A)
| Throw (e : JsError).
Arguments Ok {A} a.
Arguments Throw {A} e.

Definition result_bind {A B} (r : result A) (k : A -> result B) : result B :=
  match r with
  | Ok a => k a
  | Throw e => Throw e
  end.

(** ** Promises over an explicit world

    An [async] function is a state transformer over the state it can
    observe or change (the backend, the wallet, the list of calls made so
    far) that ends with a value or with a rejection; [await] is [bind]. *)
Definition M (St A : Type) : Type := St -> result A * St.

Definition ret {St A} (a : A) : M St A := fun s => (Ok a, s).
Definition throw {St A} (e : JsError) : M St A := fun s => (Throw e, s).
Definition lift {St A} (r : result A) : M St A := fun s => (r, s).
Definition bind {St A B} (m : M St A) (k : A -> M St B) : M St B :=
  fun s =>
    match m s with
    | (Ok a, s') => k a s'
    | (Throw e, s') => (Throw e, s')
    end.

Declare Scope js_scope.
Delimit Scope js_scope with js.
Notation "'let*' x ':=' m 'in' k" := (bind m (fun x => k))
  (at level 10, x name, m at level 100, k at level 200) : js_scope.
Notation "'do*' m 'in' k" := (bind m (fun _ => k))
  (at level 10, m at level 100, k at level 200) : js_scope.
Notation "'let?' x ':=' r 'in' k" := (result_bind r (fun x => k))
  (at level 10, x name, r at level 100, k at level 200) : js_scope.

(** [String.prototype.toUpperCase] on ASCII text. *)
Definition upper_ascii (c : ascii) : ascii :=
  let n := nat_of_ascii c in
  if (97 <=? n)%nat && (n <=? 122)%nat then ascii_of_nat (n - 32) else c.

Fixpoint toUpperCase (s : string) : string :=
  match s with
  | EmptyString => EmptyString
  | String c s' => String (upper_ascii c) (toUpperCase s')
  end.

(** String concatenation, one character at a time. *)
Lemma app_nil_string (t : string) : "" ++ t = t.
Proof. reflexivity. Qed.

Lemma app_cons_string c (s t : string) : String c s ++ t = String c (s ++ t).
Proof. reflexivity. Qed.

Lemma app_empty_string (s : string) : s ++ "" = s.
Proof.
  induction s as [|c s IH]; [reflexivity|].
  now rewrite app_cons_string, IH.
Qed.

(* ================================================================== *)
(** * biggystring: exact arithmetic on decimal strings                 *)
(* ================================================================== *)

Module biggystring.

(** A decimal number [mant * 10^(-scale)]. *)
Record dec := mkDec { mant : Z; scale : nat }.

Definition pow10 (k : nat) : Z := 10 ^ Z.of_nat k.

(** The rational a decimal denotes. *)
Definition value (d : dec) : Q := Qmake (mant d) (Z.to_pos (pow10 (scale d))).

Definition digit_of_ascii (c : ascii) : option N :=
  let n := nat_of_ascii c in
  if (48 <=? n)%nat && (n <=? 57)%nat then Some (N.of_nat (n - 48)) else None.

Definition ascii_of_digit (d : N) : ascii := ascii_of_nat (48 + N.to_nat d).

(** Reads a run of digits, most significant first, onto [acc]. *)
Fixpoint digits_acc (s : string) (acc : N) : option N :=
  match s with
  | EmptyString => Some acc
  | String c s' =>
      match digit_of_ascii c with
      | Some d => digits_acc s' (acc * 10 + d)%N
      | None => None
      end
  end.

(** Splits at the first ['.']. *)
Fixpoint split_dot (s : string) : string * option string :=
  match s with
  | EmptyString => (EmptyString, None)
  | String c s' =>
      if Ascii.eqb c "." then (EmptyString, Some s')
      else let (a, b) := split_dot s' in (String c a, b)
  end.

(** Digits with an optional point.  A side of the point without digits
    counts for nothing, so the empty string reads as zero, as in the
    library, which hands the digits to its big-number constructor. *)
Definition parse_unsigned (s : string) : option dec :=
  let (ip, fp) := split_dot s in
  let f := match fp with Some f => f | None => EmptyString end in
  match digits_acc ip 0%N with
  | Some a =>
      match digits_acc f a with
      | Some m => Some (mkDec (Z.of_N m) (String.length f))
      | None => None
      end
  | None => None
  end.

(** The numbers the plugins hand to the library are decimal strings,
    [-]digits[.digits]; other notations the library reads (hexadecimal,
    exponents) do not occur and are treated like text that is no number. *)
Definition parse (s : string) : option dec :=
  match s with
  | String "-" s' =>
      match parse_unsigned s' with
      | Some d => Some (mkDec (- mant d) (scale d))
      | None => None
      end
  | _ => parse_unsigned s
  end.

(** [k] digits of [n], most significant first (n taken modulo 10^k). *)
Fixpoint fixed_digits (k : nat) (n : N) : string :=
  match k with
  | O => EmptyString
  | S k' => fixed_digits k' (n / 10)%N ++ String (ascii_of_digit (n mod 10)%N) EmptyString
  end.

Fixpoint num_digits_fuel (fuel : nat) (n : N) : nat :=
  match fuel with
  | O => 1
  | S f => if (n <? 10)%N then 1%nat else S (num_digits_fuel f (n / 10)%N)
  end.

(** Number of decimal digits of [n] (one for zero). *)
Definition num_digits (n : N) : nat := num_digits_fuel (N.to_nat (N.size n)) n.

Definition print_N (n : N) : string := fixed_digits (num_digits n) n.

(** An integer as the library prints it: digits, with ['-'] when negative. *)
Definition print_int (z : Z) : string :=
  if z <? 0 then String "-" (print_N (Z.abs_N z)) else print_N (Z.abs_N z).

(** A decimal with exactly [scale] digits after the point. *)
Definition print_dec (d : dec) : string :=
  let m := Z.abs_N (mant d) in
  let p := Z.to_N (pow10 (scale d)) in
  let body :=
    print_N (m / p)%N ++
    match scale d with
    | O => EmptyString
    | S _ => String "." (fixed_digits (scale d) (m mod p)%N)
    end in
  if mant d <? 0 then String "-" body else body.

Definition invalid_number : JsError := Error "Invalid number format".

(** [lt(x1, x2)]: is [x1 < x2]; throws on text that is not a number. *)
Definition lt (x1 x2 : string) : result bool :=
  match parse x1, parse x2 with
  | Some a, Some b =>
      Ok (mant a * pow10 (scale b) <? mant b * pow10 (scale a))
  | _, _ => Throw invalid_number
  end.

(** [floor(x1, 0)]: the library cuts the digits after the point off, so
    the result is [x1] truncated toward zero: ["1.5"] gives ["1"],
    ["-1.5"] gives ["-1"] and ["-0.5"] gives ["0"]. *)
Definition floor0 (x1 : string) : result string :=
  match parse x1 with
  | Some a => Ok (print_int (Z.quot (mant a) (pow10 (scale a))))
  | None => Throw invalid_number
  end.

(** [mul(x1, multiplier)] for a multiplier [10^k]. *)
Definition mul_pow10 (x1 : string) (k : nat) : result string :=
  match parse x1 with
  | Some a =>
      if (scale a <=? k)%nat
      then Ok (print_int (mant a * pow10 (k - scale a)))
      else Ok (print_dec (mkDec (mant a) (scale a - k)))
  | None => Throw invalid_number
  end.

(** [div(x1, multiplier, precision)] for a multiplier [10^k] and enough
    precision to hold the [k] new decimal places. *)
Definition div_pow10 (x1 : string) (k : nat) : result string :=
  match parse x1 with
  | Some a => Ok (print_dec (mkDec (mant a) (scale a + k)))
  | None => Throw invalid_number
  end.

(** ** Facts about the decimal strings *)

Lemma pow10_pos k : 0 < pow10 k.
Proof. unfold pow10. apply Z.pow_pos_nonneg; lia. Qed.

Lemma pow10_S k : pow10 (S k) = 10 * pow10 k.
Proof. unfold pow10. rewrite Nat2Z.inj_succ, Z.pow_succ_r; lia. Qed.

Lemma pow10_add j k : pow10 (j + k) = pow10 j * pow10 k.
Proof. unfold pow10. rewrite Nat2Z.inj_add, Z.pow_add_r; lia. Qed.

Lemma pow10_N k : Z.to_N (pow10 k) = (10 ^ N.of_nat k)%N.
Proof.
  unfold pow10. apply N2Z.inj. rewrite Z2N.id by (apply Z.pow_nonneg; lia).
  rewrite N2Z.inj_pow, nat_N_Z. reflexivity.
Qed.

Lemma digit_of_ascii_of_digit d :
  (d < 10)%N -> digit_of_ascii (ascii_of_digit d) = Some d.
Proof.
  intros Hd.
  assert (Hcases : In d (0 :: 1 :: 2 :: 3 :: 4 :: 5 :: 6 :: 7 :: 8 :: 9 :: nil)%N).
  { destruct d as [|p]; [now left|].
    do 10 (destruct p as [p|p|]; try lia; simpl; auto 20). }
  simpl in Hcases.
  repeat (destruct Hcases as [<- | Hcases]; [reflexivity|]).
  contradiction.
Qed.

Lemma digit_of_ascii_lt c d : digit_of_ascii c = Some d -> (d < 10)%N.
Proof.
  unfold digit_of_ascii.
  destruct (_ && _) eqn:E; [|discriminate].
  intros [= <-]. apply andb_prop in E as [E1 E2].
  apply Nat.leb_le in E1, E2. lia.
Qed.

Lemma digits_acc_app s t acc :
  digits_acc (s ++ t) acc =
  match digits_acc s acc with
  | Some a => digits_acc t a
  | None => None
  end.
Proof.
  revert acc. induction s as [|c s IH]; intros acc; [reflexivity|].
  rewrite app_cons_string. simpl.
  destruct (digit_of_ascii c); [apply IH | reflexivity].
Qed.

Lemma digits_acc_fixed k : forall n acc,
  digits_acc (fixed_digits k n) acc = Some (acc * 10 ^ N.of_nat k + n mod 10 ^ N.of_nat k)%N.
Proof.
  induction k as [|k IH]; intros n acc.
  - simpl. f_equal. rewrite N.mod_1_r. lia.
  - cbn [fixed_digits]. rewrite digits_acc_app, IH. cbn [digits_acc].
    rewrite digit_of_ascii_of_digit by (apply N.mod_lt; lia).
    f_equal. rewrite Nat2N.inj_succ, N.pow_succ_r'.
    rewrite (N.Div0.mod_mul_r n 10 (10 ^ N.of_nat k)). lia.
Qed.

Lemma num_digits_fuel_bound fuel : forall n,
  (n < 2 ^ N.of_nat fuel)%N -> (n < 10 ^ N.of_nat (num_digits_fuel fuel n))%N.
Proof.
  induction fuel as [|f IH]; intros n Hn.
  - simpl in *. lia.
  - cbn [num_digits_fuel]. destruct (N.ltb_spec n 10) as [Hlt | Hge].
    + simpl. lia.
    + rewrite Nat2N.inj_succ, N.pow_succ_r' in *.
      assert (Hdiv : (n / 10 < 2 ^ N.of_nat f)%N).
      { apply N.Div0.div_lt_upper_bound. lia. }
      specialize (IH _ Hdiv).
      pose proof (N.div_mod n 10 ltac:(lia)) as Hdm.
      pose proof (N.mod_lt n 10 ltac:(lia)). lia.
Qed.

Lemma num_digits_bound n : (n < 10 ^ N.of_nat (num_digits n))%N.
Proof.
  apply num_digits_fuel_bound. rewrite N2Nat.id. apply N.size_gt.
Qed.

Lemma digits_acc_print_N n : digits_acc (print_N n) 0%N = Some n.
Proof.
  unfold print_N. rewrite digits_acc_fixed, N.mod_small by apply num_digits_bound.
  reflexivity.
Qed.

(** Every character of the string is a decimal digit. *)
Fixpoint all_digits (s : string) : bool :=
  match s with
  | EmptyString => true
  | String c s' => match digit_of_ascii c with Some _ => all_digits s' | None => false end
  end.

Lemma all_digits_app s t : all_digits (s ++ t) = all_digits s && all_digits t.
Proof.
  induction s as [|c s IH]; [reflexivity|].
  rewrite app_cons_string. simpl.
  destruct (digit_of_ascii c); [exact IH | reflexivity].
Qed.

Lemma all_digits_fixed k : forall n, all_digits (fixed_digits k n) = true.
Proof.
  induction k as [|k IH]; intros n; [reflexivity|].
  cbn [fixed_digits]. rewrite all_digits_app, IH. cbn [all_digits andb].
  rewrite digit_of_ascii_of_digit by (apply N.mod_lt; lia). reflexivity.
Qed.

Lemma length_app_string s t : String.length (s ++ t) = (String.length s + String.length t)%nat.
Proof.
  induction s as [|c s IH]; [reflexivity|].
  rewrite app_cons_string. simpl. now rewrite IH.
Qed.

Lemma length_fixed_digits k : forall n, String.length (fixed_digits k n) = k.
Proof.
  induction k as [|k IH]; intros n; [reflexivity|].
  cbn [fixed_digits]. rewrite length_app_string, IH. simpl. lia.
Qed.

Lemma digit_not_dot c d : digit_of_ascii c = Some d -> Ascii.eqb c "." = false.
Proof.
  intros H. destruct (Ascii.eqb_spec c "."); [subst; discriminate | reflexivity].
Qed.

Lemma digit_not_minus c d : digit_of_ascii c = Some d -> c <> "-"%char.
Proof. intros H ->. discriminate. Qed.

Lemma split_dot_digits s t :
  all_digits s = true ->
  split_dot (s ++ t) = (s ++ fst (split_dot t), snd (split_dot t)).
Proof.
  induction s as [|c s IH]; intros Hs.
  - rewrite !app_nil_string. now destruct (split_dot t).
  - rewrite !app_cons_string. simpl in *.
    destruct (digit_of_ascii c) eqn:Hc; [|discriminate].
    rewrite (digit_not_dot _ _ Hc), (IH Hs). reflexivity.
Qed.

Lemma num_digits_fuel_pos fuel n : (1 <= num_digits_fuel fuel n)%nat.
Proof. destruct fuel; simpl; [lia|]. destruct (n <? 10)%N; lia. Qed.

(** A printed natural number starts with a digit. *)
Lemma print_N_head n :
  exists c d s, print_N n = String c s /\ digit_of_ascii c = Some d.
Proof.
  pose proof (all_digits_fixed (num_digits n) n) as Hall.
  pose proof (length_fixed_digits (num_digits n) n) as Hlen.
  pose proof (num_digits_fuel_pos (N.to_nat (N.size n)) n) as Hpos.
  fold (num_digits n) in Hpos. fold (print_N n) in Hall, Hlen.
  destruct (print_N n) as [|c s]; simpl in *; [lia|].
  destruct (digit_of_ascii c) as [d|] eqn:Hc; [|discriminate].
  now exists c, d, s.
Qed.

Lemma parse_unsigned_print_body (m : N) (k : nat) :
  parse_unsigned
    (print_N (m / 10 ^ N.of_nat k)%N ++
     match k with
     | O => EmptyString
     | S _ => String "." (fixed_digits k (m mod 10 ^ N.of_nat k)%N)
     end) = Some (mkDec (Z.of_N m) k).
Proof.
  unfold parse_unsigned.
  rewrite split_dot_digits by apply all_digits_fixed.
  destruct k as [|k].
  - cbn [split_dot fst snd]. rewrite app_empty_string, digits_acc_print_N.
    cbn. rewrite N.div_1_r. reflexivity.
  - cbn [split_dot]. rewrite Ascii.eqb_refl. cbn [fst snd].
    rewrite app_empty_string, digits_acc_print_N, digits_acc_fixed, length_fixed_digits.
    rewrite N.Div0.mod_mod.
    do 3 f_equal.
    pose proof (N.div_mod m (10 ^ N.of_nat (S k))%N) as Hdm.
    assert (10 ^ N.of_nat (S k) <> 0)%N by (apply N.pow_nonzero; lia).
    lia.
Qed.

Lemma parse_unsigned_print_N n : parse_unsigned (print_N n) = Some (mkDec (Z.of_N n) 0).
Proof.
  pose proof (parse_unsigned_print_body n 0) as H. cbn [N.of_nat] in H.
  rewrite N.pow_0_r, N.div_1_r, app_empty_string in H. exact H.
Qed.

Lemma parse_not_minus c s :
  c <> "-"%char -> parse (String c s) = parse_unsigned (String c s).
Proof.
  intros Hne. unfold parse.
  destruct c as [[] [] [] [] [] [] [] []]; try reflexivity. now elim Hne.
Qed.

(** Printing an integer and reading it back gives the integer. *)
Lemma parse_print_int z : parse (print_int z) = Some (mkDec z 0).
Proof.
  unfold print_int. destruct (Z.ltb_spec z 0) as [Hneg | Hpos].
  - cbn [parse]. rewrite parse_unsigned_print_N. cbn. f_equal. f_equal. lia.
  - destruct (print_N_head (Z.abs_N z)) as (c & d & s & Hp & Hc).
    rewrite Hp, parse_not_minus by (eapply digit_not_minus; eauto).
    rewrite <- Hp, parse_unsigned_print_N. f_equal. f_equal. lia.
Qed.

(** Printing a decimal and reading it back gives the same mantissa and scale. *)
Lemma parse_print_dec d : parse (print_dec d) = Some d.
Proof.
  destruct d as [m k]. unfold print_dec. cbn [mant scale].
  rewrite pow10_N.
  pose proof (parse_unsigned_print_body (Z.abs_N m) k) as Hbody.
  destruct (Z.ltb_spec m 0) as [Hneg | Hpos].
  - cbn [parse]. rewrite Hbody. cbn. f_equal. f_equal. lia.
  - destruct (print_N_head (Z.abs_N m / 10 ^ N.of_nat k)) as (c & dg & s & Hp & Hc).
    revert Hbody. rewrite Hp, app_cons_string. intros Hbody.
    rewrite parse_not_minus by (eapply digit_not_minus; eauto).
    rewrite Hbody. f_equal. f_equal. lia.
Qed.

Lemma value_den d : Z.pos (Qden (value d)) = pow10 (scale d).
Proof. unfold value. cbn. apply Z2Pos.id, pow10_pos. Qed.

(** [lt] compares the numbers the two strings denote. *)
Lemma lt_spec x1 x2 a b :
  parse x1 = Some a -> parse x2 = Some b ->
  lt x1 x2 = Ok (if Qlt_le_dec (value a) (value b) then true else false).
Proof.
  intros Ha Hb. unfold lt. rewrite Ha, Hb. f_equal.
  destruct (Qlt_le_dec (value a) (value b)) as [Hlt | Hle].
  - apply Z.ltb_lt. unfold Qlt in Hlt. rewrite !value_den in Hlt. exact Hlt.
  - apply Z.ltb_ge. unfold Qle in Hle. rewrite !value_den in Hle. exact Hle.
Qed.

Lemma value_nonneg d : (0 <= value d)%Q <-> 0 <= mant d.
Proof. unfold Qle, value. cbn. lia. Qed.

Lemma value_nonpos d : (value d <= 0)%Q <-> mant d <= 0.
Proof. unfold Qle, value. cbn. lia. Qed.

Lemma Qfloor_value d : Qfloor (value d) = mant d / pow10 (scale d).
Proof. unfold Qfloor, value. cbn. now rewrite Z2Pos.id by apply pow10_pos. Qed.

Lemma Qceiling_value d : Qceiling (value d) = - (- mant d / pow10 (scale d)).
Proof.
  unfold Qceiling, Qfloor, Qopp, value. cbn.
  now rewrite Z2Pos.id by apply pow10_pos.
Qed.

(** The integer [floor(x, 0)] prints: the fraction of [a] cut off. *)
Definition trunc (a : dec) : Z := Z.quot (mant a) (pow10 (scale a)).

(** Cutting the fraction off rounds down at and above zero and up at and
    below it. *)
Lemma trunc_nonneg a : (0 <= value a)%Q -> trunc a = Qfloor (value a).
Proof.
  intros H%value_nonneg. unfold trunc. rewrite Qfloor_value.
  apply Z.quot_div_nonneg; [exact H | apply pow10_pos].
Qed.

Lemma trunc_nonpos a : (value a <= 0)%Q -> trunc a = Qceiling (value a).
Proof.
  intros H%value_nonpos. unfold trunc. rewrite Qceiling_value.
  pose proof (pow10_pos (scale a)) as Hp.
  rewrite <- (Z.opp_involutive (mant a)) at 1.
  rewrite Z.quot_opp_l by lia. f_equal.
  apply Z.quot_div_nonneg; lia.
Qed.

(** [floor(x, 0)] prints the number [x] denotes with its fraction cut off. *)
Lemma floor0_spec x a :
  parse x = Some a -> floor0 x = Ok (print_int (trunc a)).
Proof. intros Ha. unfold floor0. now rewrite Ha. Qed.

End biggystring.

(* ================================================================== *)
(** * JSON values and the cleaners that validate them                  *)
(* ================================================================== *)

(** A parsed JSON value.  A JSON number is kept as the text
    [Number.prototype.toString] gives for it, the only thing the plugins
    ever do with one. *)
Inductive json :=
| JNull
| JBool (b : bool)
| JNumber (text : string)
| JString (s : string)
| JArray (items : list json)
| JObject (fields : list (string * json)).

(** [raw[key]] for a key that is neither an index nor a built-in member;
    [None] is [undefined]. *)
Definition get_prop (raw : json) (key : string) : option json :=
  match raw with
  | JObject fields =>
      match find (fun kv => String.eqb (fst kv) key) fields with
      | Some kv => Some (snd kv)
      | None => None
      end
  | _ => None
  end.

(** An object literal as [JSON.stringify] serialises it: members whose
    value is [undefined] are left out. *)
Fixpoint js_object (members : list (string * option json)) : json :=
  match members with
  | nil => JObject nil
  | (k, Some v) :: rest =>
      match js_object rest with
      | JObject fields => JObject ((k, v) :: fields)
      | other => other
      end
  | (_, None) :: rest => js_object rest
  end.

Definition js_string (o : option string) : option json :=
  match o with
  | Some s => Some (JString s)
  | None => None
  end.

Module cleaners.

(** A cleaner takes the raw value ([None] when [undefined]) and returns
    the validated value or throws. *)
Definition Cleaner (A : Type) : Type := option json -> result A.

Definition asString : Cleaner string := fun raw =>
  match raw with
  | Some (JString s) => Ok s
  | _ => Throw (TypeError "Expected a string")
  end.

(** The number is returned as its [toString] text. *)
Definition asNumber : Cleaner string := fun raw =>
  match raw with
  | Some (JNumber text) => Ok text
  | _ => Throw (TypeError "Expected a number")
  end.

Definition asNull : Cleaner unit := fun raw =>
  match raw with
  | Some JNull => Ok tt
  | _ => Throw (TypeError "Expected null")
  end.

Definition asEither {A B} (a : Cleaner A) (b : Cleaner B) : Cleaner (A + B) := fun raw =>
  match a raw with
  | Ok x => Ok (inl x)
  | Throw _ =>
      match b raw with
      | Ok y => Ok (inr y)
      | Throw e => Throw e
      end
  end.

(** [asOptional(cleaner)]: [null] and [undefined] become [undefined]. *)
Definition asOptional {A} (c : Cleaner A) : Cleaner (option A) := fun raw =>
  match raw with
  | None | Some JNull => Ok None
  | _ => match c raw with Ok x => Ok (Some x) | Throw e => Throw e end
  end.

(** [asMaybe(cleaner)]: [undefined] when the cleaner throws. *)
Definition asMaybe {A} (c : Cleaner A) : Cleaner (option A) := fun raw =>
  match c raw with
  | Ok x => Ok (Some x)
  | Throw _ => Ok None
  end.

Fixpoint clean_all {A} (c : Cleaner A) (items : list json) : result (list A) :=
  match items with
  | nil => Ok nil
  | x :: rest =>
      match c (Some x) with
      | Ok y => match clean_all c rest with Ok ys => Ok (y :: ys) | Throw e => Throw e end
      | Throw e => Throw e
      end
  end.

Definition asArray {A} (c : Cleaner A) : Cleaner (list A) := fun raw =>
  match raw with
  | Some (JArray items) => clean_all c items
  | _ => Throw (TypeError "Expected an array")
  end.

(** The guard every [asObject(shape)] starts with: the raw value must be
    a non-null value of type ['object'] (an array is one). *)
Definition asObject_raw : Cleaner json := fun raw =>
  match raw with
  | Some (JObject fields) => Ok (JObject fields)
  | Some (JArray items) => Ok (JArray items)
  | _ => Throw (TypeError "Expected an object")
  end.

(** [asEither(asString, asNull)]: a string or [null]. *)
Definition asStringOrNull : Cleaner (option string) := fun raw =>
  match asEither asString asNull raw with
  | Ok (inl s) => Ok (Some s)
  | Ok (inr _) => Ok None
  | Throw e => Throw e
  end.

End cleaners.

(** [asNumberString] of [src/swap/types.ts]. *)
Definition asNumberString : cleaners.Cleaner string := fun raw =>
  match cleaners.asEither cleaners.asString cleaners.asNumber raw with
  | Ok (inl s) => Ok s
  | Ok (inr text) => Ok text
  | Throw e => Throw e
  end.

(* ================================================================== *)
(** * The wallet runtime and the network, as the plugins see them      *)
(* ================================================================== *)

Record EdgeCurrencyInfo := {
  info_pluginId : string;
  info_currencyCode : string
}.

Record EdgeReceiveAddress := {
  publicAddress : string;
  legacyAddress : option string
}.

(** The wallet methods the godex plugin awaits.  Each answers from the
    wallet's own data, so it is a function that returns or rejects. *)
Record EdgeCurrencyWallet := {
  wallet_id : string;
  currencyInfo : EdgeCurrencyInfo;
  (** [getReceiveAddress({ currencyCode })] *)
  getReceiveAddress : option string -> result EdgeReceiveAddress;
  (** [nativeToDenomination(nativeAmount, currencyCode)] *)
  nativeToDenomination : string -> string -> result string;
  (** [denominationToNative(denominatedAmount, currencyCode)] *)
  denominationToNative : string -> string -> result string
}.

Record FetchOptions := {
  method : string;
  (** the value handed to [JSON.stringify] *)
  body : json;
  headers : list (string * string)
}.

Record FetchResponse := {
  status : N;
  (** [response.json()] *)
  json_body : result json
}.

(** [response.ok]: the status is in the range 200-299 (Fetch standard). *)
Definition ok (r : FetchResponse) : bool :=
  ((200 <=? status r) && (status r <=? 299))%N.

Record FetchCall := { call_url : string; call_opts : FetchOptions }.

(** The options both godex plugins pass to [fetchCors]: a POST of the
    JSON text of [params]. *)
Definition post_json (params : json) : FetchOptions := {|
  method := "POST";
  body := params;
  headers := [("Content-Type", "application/json"); ("Accept", "application/json")]
|}.

(** Is the request an order-creation call, that is, one to the endpoint
    ['transaction'] or ['transaction-revert'] (with or without a promo
    code)? *)
Definition is_order_creation (c : FetchCall) : bool :=
  String.prefix "https://api.godex.io/api/v1/transaction" (call_url c).

Module Io.
Section Io.

(** The world outside the plugin: the backend behind [io.fetchCors] and the
    clock behind [Date.now()]. *)
Variable W : Type.
Variable fetchCors : string -> FetchOptions -> W -> result FetchResponse * W.
Variable dateNow : W -> Z.

(** The world together with the requests sent so far, oldest first. *)
Record State := { world : W; requests : list FetchCall }.

(** [await fetchCors(url, opts)]: one request, recorded. *)
Definition fetch (url : string) (opts : FetchOptions) : M State FetchResponse :=
  fun s =>
    let (r, w') := fetchCors url opts (world s) in
    (r, {| world := w'; requests := (requests s ++ [Build_FetchCall url opts])%list |}).

(** [Date.now()] *)
Definition Date_now : M State Z := fun s => (Ok (dateNow (world s)), s).

End Io.
Arguments world {W} _.
Arguments requests {W} _.
Arguments Build_State {W} _ _.
End Io.

(* ================================================================== *)
(** * godex, current version (second file of [src/index.ts])           *)
(* ================================================================== *)

Module Godex.

Definition pluginId : string := "godex".

(** [{ pluginId, isDex: false, displayName: 'Godex', supportEmail }] *)
Definition swapInfo : EdgeSwapInfo :=
  Build_EdgeSwapInfo pluginId (Some false) "Godex" None "support@godex.io".

(** [asInitOptions]: the plugin's cleaned options. *)
Record InitOptions := { apiKey : option string }.

Definition orderUri : string := "https://godex.io/exchange/waiting/".
Definition uri : string := "https://api.godex.io/api/v1/".

Definition expirationMs : Z := 1000 * 60.

Record NetworkEntry := { network : string }.

Record ApiInfo := {
  min_amount : string;
  networks_from : option (list NetworkEntry);
  networks_to : option (list NetworkEntry)
}.

Definition asNetworkEntry : cleaners.Cleaner NetworkEntry := fun raw =>
  (let? obj := cleaners.asObject_raw raw in
   let? n := cleaners.asString (get_prop obj "network") in
   Ok {| network := n |})%js.

Definition asApiInfo : cleaners.Cleaner ApiInfo := fun raw =>
  (let? obj := cleaners.asObject_raw raw in
   let? min := asNumberString (get_prop obj "min_amount") in
   let? nfrom := cleaners.asMaybe (cleaners.asArray asNetworkEntry) (get_prop obj "networks_from") in
   let? nto := cleaners.asMaybe (cleaners.asArray asNetworkEntry) (get_prop obj "networks_to") in
   Ok {| min_amount := min; networks_from := nfrom; networks_to := nto |})%js.

Record QuoteInfo := {
  transaction_id : string;
  deposit : string;
  deposit_extra_id : option string;
  deposit_amount : string;
  withdrawal : string;
  withdrawal_extra_id : option string;
  withdrawal_amount : string;
  return_ : string;
  return_extra_id : option string
}.

Definition asQuoteInfo : cleaners.Cleaner QuoteInfo := fun raw =>
  (let? obj := cleaners.asObject_raw raw in
   let? tid := cleaners.asString (get_prop obj "transaction_id") in
   let? dep := cleaners.asString (get_prop obj "deposit") in
   let? dep_extra := cleaners.asStringOrNull (get_prop obj "deposit_extra_id") in
   let? dep_amount := cleaners.asString (get_prop obj "deposit_amount") in
   let? wd := cleaners.asString (get_prop obj "withdrawal") in
   let? wd_extra := cleaners.asStringOrNull (get_prop obj "withdrawal_extra_id") in
   let? wd_amount := cleaners.asString (get_prop obj "withdrawal_amount") in
   let? r := cleaners.asString (get_prop obj "return") in
   let? r_extra := cleaners.asStringOrNull (get_prop obj "return_extra_id") in
   Ok {| transaction_id := tid; deposit := dep; deposit_extra_id := dep_extra;
         deposit_amount := dep_amount; withdrawal := wd;
         withdrawal_extra_id := wd_extra; withdrawal_amount := wd_amount;
         return_ := r; return_extra_id := r_extra |})%js.

(** ['allCodes'], ['allTokens'] or a list of currency codes. *)
Inductive InvalidCodes := allCodes | allTokens | codes (l : list string).

Record InvalidCurrencyCodes := {
  from : gmap string InvalidCodes;
  to : gmap string InvalidCodes
}.

Definition INVALID_CURRENCY_CODES : InvalidCurrencyCodes := {|
  from := {[ "digibyte" := allCodes ]};
  to := {[ "zcash" := codes ["ZEC"] ]}
|}.

(** Network names that don't match parent network currency code. *)
Definition MAINNET_CODE_TRANSCRIPTION : gmap string string :=
  list_to_map [
    ("algorand", "ALGO"); ("arbitrum", "ARBITRUM"); ("avalanche", "AVAXC");
    ("binance", "BNB"); ("binancesmartchain", "BSC"); ("bitcoin", "BTC");
    ("bitcoincash", "BCH"); ("cardano", "ADA"); ("celo", "CELO");
    ("cosmoshub", "ATOM"); ("dash", "DASH"); ("digibyte", "DGB");
    ("dogecoin", "DOGE"); ("eos", "EOS"); ("ethereumclassic", "ETC");
    ("ethereum", "ETH"); ("fantom", "FTM"); ("filecoin", "FIL");
    ("hedera", "HBAR"); ("litecoin", "LTC"); ("optimism", "OPTIMISM");
    ("monero", "XMR"); ("polygon", "MATIC"); ("polkadot", "DOT");
    ("qtum", "QTUM"); ("ravencoin", "RVN"); ("rsk", "RSK");
    ("stellar", "XLM"); ("solana", "SOL"); ("tezos", "XTZ");
    ("tron", "TRX"); ("ton", "TON"); ("zcash", "ZEC"); ("zcoin", "FIRO")
  ].

(** [EdgeSwapRequestPlugin] of [src/swap/types.ts]. *)
Record EdgeSwapRequestPlugin := {
  fromWallet : EdgeCurrencyWallet;
  toWallet : EdgeCurrencyWallet;
  fromTokenId : option string;
  toTokenId : option string;
  nativeAmount : string;
  quoteFor : QuoteFor;
  fromCurrencyCode : string;
  toCurrencyCode : string
}.

Record QuoteOpts := { promoCode : option string }.

Record EdgeMemo := { memo_type : string; memo_value : string }.

Record EdgeSpendTarget := {
  target_nativeAmount : string;
  target_publicAddress : string
}.

Record EdgeAssetAmount := {
  asset_pluginId : string;
  asset_tokenId : option string;
  asset_nativeAmount : string
}.

Record EdgeTxActionSwap := {
  actionType : string;
  action_swapInfo : EdgeSwapInfo;
  orderId : string;
  action_orderUri : string;
  isEstimate : bool;
  toAsset : EdgeAssetAmount;
  fromAsset : EdgeAssetAmount;
  payoutAddress : string;
  payoutWalletId : string;
  refundAddress : string
}.

Record EdgeSpendInfo := {
  tokenId : option string;
  spendTargets : list EdgeSpendTarget;
  memos : list EdgeMemo;
  networkFeeOption : string;
  assetActionType : string;
  savedAction : EdgeTxActionSwap
}.

Record SwapOrder := {
  request : EdgeSwapRequestPlugin;
  spendInfo : EdgeSpendInfo;
  order_swapInfo : EdgeSwapInfo;
  fromNativeAmount : string;
  expirationDate : Z
}.

Record MainnetCodes := { fromMainnetCode : string; toMainnetCode : string }.

(** Modelled from the spec: [checkWhitelistedMainnetCodes] of
    [util/swapHelpers], which is not among the sources.  The spec (4.2,
    enforceWhitelistedNetworks) says it signals the unsupported-pair error
    when either leg's network is not present in the transcription table at
    all; the network of a leg is its wallet's plugin id. *)
Definition checkWhitelistedMainnetCodes (whitelist : gmap string string)
    (request : EdgeSwapRequestPlugin) (info : EdgeSwapInfo) : result unit :=
  match whitelist !! info_pluginId (currencyInfo (fromWallet request)),
        whitelist !! info_pluginId (currencyInfo (toWallet request)) with
  | Some _, Some _ => Ok tt
  | _, _ => Throw (SwapCurrencyError info (fromCurrencyCode request) (toCurrencyCode request))
  end.

(** [array?.find(n => n.network === code) == null] *)
Definition network_missing (l : option (list NetworkEntry)) (code : string) : bool :=
  match l with
  | None => true
  | Some entries =>
      match find (fun n => String.eqb (network n) code) entries with
      | Some _ => false
      | None => true
      end
  end.

Section Plugin.

Variable W : Type.
Variable fetchCors : string -> FetchOptions -> W -> result FetchResponse * W.
Variable dateNow : W -> Z.
Variable initOptions : InitOptions.

(** Helpers of [util/utils] and [util/swapHelpers], which are not among
    the sources; the plugin is modelled for any implementation of them. *)
Variable getAddress : EdgeCurrencyWallet -> result string.
Variable memoType : string -> string.
Variable getCodesWithTranscription :
  EdgeSwapRequestPlugin -> gmap string string -> MainnetCodes.
Variable checkInvalidCodes :
  InvalidCurrencyCodes -> EdgeSwapRequestPlugin -> EdgeSwapInfo -> result unit.

#[local] Abbreviation State := (Io.State W).
#[local] Abbreviation fetch := (Io.fetch W fetchCors).
#[local] Abbreviation Date_now := (Io.Date_now W dateNow).

Definition call (url : string) (request : EdgeSwapRequestPlugin)
    (data_params : json) : M State json :=
  (let body := data_params in
   let headers := [("Content-Type", "application/json"); ("Accept", "application/json")] in
   let* response := fetch url {| method := "POST"; body := body; headers := headers |} in
   if negb (ok response) then
     if (status response =? 422)%N then
       throw (SwapCurrencyError swapInfo (fromCurrencyCode request) (toCurrencyCode request))
     else
       throw (Error ("godex returned error code " ++ biggystring.print_N (status response)))
   else lift (json_body response))%js.

(** [Promise.all] of the two address lookups: both are started, the first
    rejection is the one reported. *)
Definition both_addresses (request : EdgeSwapRequestPlugin) : result (string * string) :=
  match getAddress (fromWallet request), getAddress (toWallet request) with
  | Ok a, Ok b => Ok (a, b)
  | Throw e, _ => Throw e
  | Ok _, Throw e => Throw e
  end.

Definition is_from (q : QuoteFor) : bool :=
  match q with QuoteFrom => true | _ => false end.

Definition is_to (q : QuoteFor) : bool :=
  match q with QuoteTo => true | _ => false end.

(** The second half of [fetchSwapQuoteInner], from [const { promoCode } =
    opts] to the end: the order-creation call and the assembly of the
    swap order.  [fromAmount] and [toAmount] are the two variables of that
    name, [None] when still [undefined]. *)
Definition create_order (request : EdgeSwapRequestPlugin) (opts : QuoteOpts)
    (fromAddress toAddress : string) (codes : MainnetCodes)
    (fromAmount toAmount : option string) : M State SwapOrder :=
  (let reverseQuote := is_to (quoteFor request) in
   let endpoint := if reverseQuote then "transaction-revert" else "transaction" in
   let* sendReply :=
     call (uri ++ endpoint ++
           match promoCode opts with Some p => "?promo=" ++ p | None => "" end)
       request
       (js_object [
          ("deposit_amount", if reverseQuote then None else js_string fromAmount);
          ("withdrawal_amount", if reverseQuote then js_string toAmount else None);
          ("coin_from", Some (JString (fromCurrencyCode request)));
          ("coin_to", Some (JString (toCurrencyCode request)));
          ("withdrawal", Some (JString toAddress));
          ("return", Some (JString fromAddress));
          ("return_extra_id", Some JNull);
          ("withdrawal_extra_id", Some JNull);
          ("affiliate_id", js_string (apiKey initOptions));
          ("type", Some (JString "edge"));
          ("isEstimate", Some (JBool false));
          ("coin_from_network", Some (JString (fromMainnetCode codes)));
          ("coin_to_network", Some (JString (toMainnetCode codes))) ]) in
   let* quoteInfo := lift (asQuoteInfo (Some sendReply)) in
   let* fromConverted :=
     lift (denominationToNative (fromWallet request)
             (deposit_amount quoteInfo) (fromCurrencyCode request)) in
   let* fromNativeAmount := lift (biggystring.floor0 fromConverted) in
   let* toConverted :=
     lift (denominationToNative (toWallet request)
             (withdrawal_amount quoteInfo) (toCurrencyCode request)) in
   let* toNativeAmount := lift (biggystring.floor0 toConverted) in
   let memos :=
     match deposit_extra_id quoteInfo with
     | None => []
     | Some extra =>
         [ {| memo_type := memoType (info_pluginId (currencyInfo (fromWallet request)));
              memo_value := extra |} ]
     end in
   (* Make the transaction: *)
   let spendInfo := {|
     tokenId := fromTokenId request;
     spendTargets := [ {| target_nativeAmount := fromNativeAmount;
                          target_publicAddress := deposit quoteInfo |} ];
     memos := memos;
     networkFeeOption :=
       if String.eqb (toUpperCase (fromCurrencyCode request)) "BTC"
       then "high" else "standard";
     assetActionType := "swap";
     savedAction := {|
       actionType := "swap";
       action_swapInfo := swapInfo;
       orderId := transaction_id quoteInfo;
       action_orderUri := orderUri ++ transaction_id quoteInfo;
       isEstimate := false;
       toAsset := {| asset_pluginId := info_pluginId (currencyInfo (toWallet request));
                     asset_tokenId := toTokenId request;
                     asset_nativeAmount := toNativeAmount |};
       fromAsset := {| asset_pluginId := info_pluginId (currencyInfo (fromWallet request));
                       asset_tokenId := fromTokenId request;
                       asset_nativeAmount := fromNativeAmount |};
       payoutAddress := toAddress;
       payoutWalletId := wallet_id (toWallet request);
       refundAddress := fromAddress
     |}
   |} in
   let* now := Date_now in
   ret {| request := request;
          spendInfo := spendInfo;
          order_swapInfo := swapInfo;
          fromNativeAmount := fromNativeAmount;
          expirationDate := now + expirationMs |})%js.

(** [quoteParams] *)
Definition quoteParams (request : EdgeSwapRequestPlugin) (quoteAmount : string) : json :=
  js_object [
    ("from", Some (JString (fromCurrencyCode request)));
    ("to", Some (JString (toCurrencyCode request)));
    ("amount", Some (JString quoteAmount)) ].

Definition fetchSwapQuoteInner (request : EdgeSwapRequestPlugin)
    (opts : QuoteOpts) : M State SwapOrder :=
  (let reverseQuote := is_to (quoteFor request) in
   (* Grab addresses: *)
   let* addresses := lift (both_addresses request) in
   let fromAddress := fst addresses in
   let toAddress := snd addresses in
   let codes := getCodesWithTranscription request MAINNET_CODE_TRANSCRIPTION in
   (* Convert the native amount to a denomination: *)
   let* quoteAmount :=
     lift (if is_from (quoteFor request)
           then nativeToDenomination (fromWallet request)
                  (nativeAmount request) (fromCurrencyCode request)
           else nativeToDenomination (toWallet request)
                  (nativeAmount request) (toCurrencyCode request)) in
   (* Check if we are below the minimum limit: *)
   let fromAmount := if is_from (quoteFor request) then Some quoteAmount else None in
   let toAmount := if is_from (quoteFor request) then None else Some quoteAmount in
   let endpoint := if is_from (quoteFor request) then "info" else "info-revert" in
   let* response := call (uri ++ endpoint) request (quoteParams request quoteAmount) in
   let* reply := lift (asApiInfo (Some response)) in
   (* Check the minimum: *)
   let* nativeMin :=
     lift (if reverseQuote
           then denominationToNative (toWallet request)
                  (min_amount reply) (toCurrencyCode request)
           else denominationToNative (fromWallet request)
                  (min_amount reply) (fromCurrencyCode request)) in
   let* below := lift (biggystring.lt (nativeAmount request) nativeMin) in
   if below : bool then
     throw (new_SwapBelowLimitError swapInfo nativeMin
              (Some (if reverseQuote then DirTo else DirFrom)))
   else
   (* Check the networks. Networks aren't present for disabled assets. *)
   if network_missing (networks_from reply) (fromMainnetCode codes)
      || network_missing (networks_to reply) (toMainnetCode codes) then
     throw (SwapCurrencyError swapInfo (fromCurrencyCode request) (toCurrencyCode request))
   else
     create_order request opts fromAddress toAddress codes fromAmount toAmount)%js.

(** The rest of [util]: the request conversion, the resolver of 'max'
    requests and the quote wrapper. *)
Variable EdgeSwapRequest : Type.
Variable EdgeSwapQuote : Type.
Variable convertRequest : EdgeSwapRequest -> EdgeSwapRequestPlugin.
Variable getMaxSwappable :
  (EdgeSwapRequestPlugin -> QuoteOpts -> M State SwapOrder) ->
  EdgeSwapRequestPlugin -> QuoteOpts -> M State EdgeSwapRequestPlugin.
Variable makeSwapPluginQuote : SwapOrder -> M State EdgeSwapQuote.

Definition fetchSwapQuote (req : EdgeSwapRequest) (opts : QuoteOpts)
    : M State EdgeSwapQuote :=
  (let request := convertRequest req in
   do* lift (checkInvalidCodes INVALID_CURRENCY_CODES request swapInfo) in
   do* lift (checkWhitelistedMainnetCodes MAINNET_CODE_TRANSCRIPTION request swapInfo) in
   let* newRequest := getMaxSwappable fetchSwapQuoteInner request opts in
   let* swapOrder := fetchSwapQuoteInner newRequest opts in
   makeSwapPluginQuote swapOrder)%js.

End Plugin.

End Godex.

(* ================================================================== *)
(** * godex, earlier version ([unnamed/part_000])                      *)
(* ================================================================== *)

(** The members every object literal inherits from [Object.prototype]. *)
Definition Object_prototype_members : list string :=
  [ "constructor"; "__defineGetter__"; "__defineSetter__"; "hasOwnProperty";
    "__lookupGetter__"; "__lookupSetter__"; "isPrototypeOf";
    "propertyIsEnumerable"; "toString"; "valueOf"; "__proto__";
    "toLocaleString" ].

(** Truthiness of [obj[key]] for an object literal [obj] whose own members
    are booleans: an own member counts by its value, an inherited member
    (a function or an object) is truthy, and a missing one is [undefined]. *)
Definition truthy_member (own : gmap string bool) (key : string) : bool :=
  match own !! key with
  | Some b => b
  | None => bool_decide (key ∈ Object_prototype_members)
  end.

Module GodexLegacy.

Definition pluginId : string := "godex".

(** [{ pluginId, displayName: 'Godex', supportEmail }] *)
Definition swapInfo : EdgeSwapInfo :=
  Build_EdgeSwapInfo pluginId None "Godex" None "support@godex.io".

Record InitOptions := { apiKey : option string }.

Definition orderUri : string := "https://godex.io/exchange/waiting/".
Definition uri : string := "https://api.godex.io/api/v1/".

Definition expirationMs : Z := 1000 * 60.

Record ApiInfo := { amount : string; min_amount : string }.

Definition asApiInfo : cleaners.Cleaner ApiInfo := fun raw =>
  (let? obj := cleaners.asObject_raw raw in
   let? a := cleaners.asString (get_prop obj "amount") in
   let? min := cleaners.asString (get_prop obj "min_amount") in
   Ok {| amount := a; min_amount := min |})%js.

Record QuoteInfo := {
  transaction_id : string;
  deposit : string;
  deposit_extra_id : option string;
  withdrawal : string;
  withdrawal_extra_id : option string;
  return_ : string;
  return_extra_id : option string
}.

Definition asQuoteInfo : cleaners.Cleaner QuoteInfo := fun raw =>
  (let? obj := cleaners.asObject_raw raw in
   let? tid := cleaners.asString (get_prop obj "transaction_id") in
   let? dep := cleaners.asString (get_prop obj "deposit") in
   let? dep_extra := cleaners.asStringOrNull (get_prop obj "deposit_extra_id") in
   let? wd := cleaners.asString (get_prop obj "withdrawal") in
   let? wd_extra := cleaners.asStringOrNull (get_prop obj "withdrawal_extra_id") in
   let? r := cleaners.asString (get_prop obj "return") in
   let? r_extra := cleaners.asStringOrNull (get_prop obj "return_extra_id") in
   Ok {| transaction_id := tid; deposit := dep; deposit_extra_id := dep_extra;
         withdrawal := wd; withdrawal_extra_id := wd_extra;
         return_ := r; return_extra_id := r_extra |})%js.

(** [const dontUseLegacy = { DGB: true }] *)
Definition dontUseLegacy : gmap string bool := {[ "DGB" := true ]}.

Definition INVALID_CURRENCY_CODES : Godex.InvalidCurrencyCodes := {|
  Godex.from := list_to_map [
    ("ethereum", Godex.codes ["MATIC"]); ("avalanche", Godex.allTokens);
    ("celo", Godex.allTokens); ("fantom", Godex.allTokens);
    ("polygon", Godex.allCodes); ("digibyte", Godex.allCodes) ];
  Godex.to := list_to_map [
    ("ethereum", Godex.codes ["MATIC"]); ("avalanche", Godex.allTokens);
    ("celo", Godex.allTokens); ("fantom", Godex.allTokens);
    ("polygon", Godex.allCodes); ("zcash", Godex.codes ["ZEC"]) ]
|}.

(** Network names that don't match parent network currency code. *)
Definition MAINNET_CODE_TRANSCRIPTION : gmap string string :=
  list_to_map [ ("rsk", "RSK"); ("binancesmartchain", "BSC"); ("avalanche", "AVAXC") ].

Definition getAddress (wallet : EdgeCurrencyWallet) (currencyCode : string)
    : result string :=
  (let? addressInfo := getReceiveAddress wallet (Some currencyCode) in
   Ok (match legacyAddress addressInfo with
       | Some legacy =>
           if negb (truthy_member dontUseLegacy currencyCode)
           then legacy
           else publicAddress addressInfo
       | None => publicAddress addressInfo
       end))%js.

Record EdgeSwapRequest := {
  fromWallet : EdgeCurrencyWallet;
  toWallet : EdgeCurrencyWallet;
  nativeAmount : string;
  quoteFor : QuoteFor;
  fromCurrencyCode : string;
  toCurrencyCode : string
}.

Record QuoteOpts := { promoCode : option string }.

Record EdgeSpendTarget := {
  target_nativeAmount : string;
  target_publicAddress : string;
  target_uniqueIdentifier : option string
}.

Record EdgeTxSwap := {
  orderId : string;
  swap_orderUri : string;
  isEstimate : bool;
  payoutAddress : string;
  payoutCurrencyCode : string;
  payoutNativeAmount : string;
  payoutWalletId : string;
  plugin : EdgeSwapInfo;
  refundAddress : string
}.

Record EdgeSpendInfo := {
  spend_currencyCode : string;
  spendTargets : list EdgeSpendTarget;
  networkFeeOption : string;
  swapData : EdgeTxSwap
}.

Section Plugin.

Variable W : Type.
Variable fetchCors : string -> FetchOptions -> W -> result FetchResponse * W.
Variable dateNow : W -> Z.
Variable initOptions : InitOptions.

(** [fromWallet.makeSpend], and the helpers of [../swap-helpers], which
    are not among the sources. *)
Variable EdgeTransaction : Type.
Variable EdgeSwapQuote : Type.
Variable makeSpend : EdgeCurrencyWallet -> EdgeSpendInfo -> result EdgeTransaction.
Variable checkInvalidCodes :
  Godex.InvalidCurrencyCodes -> EdgeSwapRequest -> EdgeSwapInfo -> result unit.
Variable getCodesWithTranscription :
  EdgeSwapRequest -> gmap string string -> Godex.MainnetCodes.

(** The arguments [makeSwapPluginQuote] is called with. *)
Record QuoteArgs := {
  arg_request : EdgeSwapRequest;
  arg_fromNativeAmount : string;
  arg_toNativeAmount : string;
  arg_tx : EdgeTransaction;
  arg_toAddress : string;
  arg_pluginId : string;
  arg_isEstimate : bool;
  arg_expirationDate : Z;
  arg_quoteId : string
}.

Variable makeSwapPluginQuote : QuoteArgs -> EdgeSwapQuote.

#[local] Abbreviation State := (Io.State W).
#[local] Abbreviation fetch := (Io.fetch W fetchCors).
#[local] Abbreviation Date_now := (Io.Date_now W dateNow).

Definition call (url : string) (request : EdgeSwapRequest)
    (data_params : json) : M State json :=
  (let body := data_params in
   let headers := [("Content-Type", "application/json"); ("Accept", "application/json")] in
   let* response := fetch url {| method := "POST"; body := body; headers := headers |} in
   if negb (ok response) then
     if (status response =? 422)%N then
       throw (SwapCurrencyError swapInfo (fromCurrencyCode request) (toCurrencyCode request))
     else
       throw (Error ("godex returned error code " ++ biggystring.print_N (status response)))
   else lift (json_body response))%js.

(** [Promise.all] of the two address lookups. *)
Definition both_addresses (request : EdgeSwapRequest) : result (string * string) :=
  match getAddress (fromWallet request) (fromCurrencyCode request),
        getAddress (toWallet request) (toCurrencyCode request) with
  | Ok a, Ok b => Ok (a, b)
  | Throw e, _ => Throw e
  | Ok _, Throw e => Throw e
  end.

(** What the two branches of "Calculate the amounts" leave behind. *)
Record Amounts := {
  fromAmount : string;
  fromNativeAmount : string;
  toNativeAmount : string
}.

(** [quoteParams] *)
Definition quoteParams (request : EdgeSwapRequest) (quoteAmount : string) : json :=
  js_object [
    ("from", Some (JString (fromCurrencyCode request)));
    ("to", Some (JString (toCurrencyCode request)));
    ("amount", Some (JString quoteAmount)) ].

(** The block "Calculate the amounts" of [fetchSwapQuote]: the info call,
    the check of the minimum and the conversion of the quoted amount. *)
Definition calculate_amounts (request : EdgeSwapRequest) (quoteAmount : string)
    : M State Amounts :=
  (if Godex.is_from (quoteFor request) then
     let* response := call (uri ++ "info") request (quoteParams request quoteAmount) in
     let* reply := lift (asApiInfo (Some response)) in
     let fromNativeAmount := nativeAmount request in
     (* Check the minimum: *)
     let* nativeMin :=
       lift (denominationToNative (fromWallet request)
               (min_amount reply) (fromCurrencyCode request)) in
     let* below := lift (biggystring.lt fromNativeAmount nativeMin) in
     if below : bool then throw (new_SwapBelowLimitError swapInfo nativeMin None)
     else
     let fromAmount := quoteAmount in
     let* toNativeAmount :=
       lift (denominationToNative (toWallet request)
               (amount reply) (toCurrencyCode request)) in
     ret {| fromAmount := fromAmount; fromNativeAmount := fromNativeAmount;
            toNativeAmount := toNativeAmount |}
   else
     let* response := call (uri ++ "info-revert") request (quoteParams request quoteAmount) in
     let* reply := lift (asApiInfo (Some response)) in
     let toNativeAmount := nativeAmount request in
     (* Check the minimum: *)
     let* nativeMin :=
       lift (denominationToNative (toWallet request)
               (min_amount reply) (toCurrencyCode request)) in
     let* below := lift (biggystring.lt toNativeAmount nativeMin) in
     if below : bool then
       throw (new_SwapBelowLimitError swapInfo nativeMin (Some DirTo))
     else
     let fromAmount := amount reply in
     let* fromNativeAmount :=
       lift (denominationToNative (fromWallet request)
               fromAmount (fromCurrencyCode request)) in
     ret {| fromAmount := fromAmount; fromNativeAmount := fromNativeAmount;
            toNativeAmount := toNativeAmount |})%js.

Definition fetchSwapQuote (request : EdgeSwapRequest) (opts : QuoteOpts)
    : M State EdgeSwapQuote :=
  (do* lift (checkInvalidCodes INVALID_CURRENCY_CODES request swapInfo) in
   (* Grab addresses: *)
   let* addresses := lift (both_addresses request) in
   let fromAddress := fst addresses in
   let toAddress := snd addresses in
   (* Convert the native amount to a denomination: *)
   let* quoteAmount :=
     lift (if Godex.is_from (quoteFor request)
           then nativeToDenomination (fromWallet request)
                  (nativeAmount request) (fromCurrencyCode request)
           else nativeToDenomination (toWallet request)
                  (nativeAmount request) (toCurrencyCode request)) in
   (* Calculate the amounts: *)
   let* amounts := calculate_amounts request quoteAmount in
   let codes := getCodesWithTranscription request MAINNET_CODE_TRANSCRIPTION in
   let* sendReply :=
     call (uri ++ "transaction" ++
           match promoCode opts with Some p => "?promo=" ++ p | None => "" end)
       request
       (js_object [
          ("deposit_amount", Some (JString (fromAmount amounts)));
          ("coin_from", Some (JString (fromCurrencyCode request)));
          ("coin_to", Some (JString (toCurrencyCode request)));
          ("withdrawal", Some (JString toAddress));
          ("return", Some (JString fromAddress));
          ("return_extra_id", Some JNull);
          ("withdrawal_extra_id", Some JNull);
          ("affiliate_id", js_string (apiKey initOptions));
          ("type", Some (JString "edge"));
          ("isEstimate", Some (JBool false));
          ("coin_from_network", Some (JString (Godex.fromMainnetCode codes)));
          ("coin_to_network", Some (JString (Godex.toMainnetCode codes))) ]) in
   let* quoteInfo := lift (asQuoteInfo (Some sendReply)) in
   (* Make the transaction: *)
   let spendInfo := {|
     spend_currencyCode := fromCurrencyCode request;
     spendTargets := [ {| target_nativeAmount := fromNativeAmount amounts;
                          target_publicAddress := deposit quoteInfo;
                          target_uniqueIdentifier := deposit_extra_id quoteInfo |} ];
     networkFeeOption :=
       if String.eqb (toUpperCase (fromCurrencyCode request)) "BTC"
       then "high" else "standard";
     swapData := {|
       orderId := transaction_id quoteInfo;
       swap_orderUri := orderUri ++ transaction_id quoteInfo;
       isEstimate := false;
       payoutAddress := toAddress;
       payoutCurrencyCode := toCurrencyCode request;
       payoutNativeAmount := toNativeAmount amounts;
       payoutWalletId := wallet_id (toWallet request);
       plugin := swapInfo;
       refundAddress := fromAddress
     |}
   |} in
   let* tx := lift (makeSpend (fromWallet request) spendInfo) in
   (* Convert that to the output format: *)
   let* now := Date_now in
   ret (makeSwapPluginQuote {|
          arg_request := request;
          arg_fromNativeAmount := fromNativeAmount amounts;
          arg_toNativeAmount := toNativeAmount amounts;
          arg_tx := tx;
          arg_toAddress := toAddress;
          arg_pluginId := "godex";
          arg_isEstimate := false;
          arg_expirationDate := now + expirationMs;
          arg_quoteId := transaction_id quoteInfo |}))%js.

End Plugin.

End GodexLegacy.

(* ================================================================== *)
(** * totle ([src/swap/totle.js]): the quote and its execution          *)
(* ================================================================== *)

Module Totle.

Definition pluginId : string := "totle".

(** [{ pluginId, displayName: 'Totle', orderUri, supportEmail }] *)
Definition swapInfo : EdgeSwapInfo :=
  Build_EdgeSwapInfo pluginId None "Totle" (Some "https://api.totle.com/swap")
    "support@totle.com".

Definition expirationMs : Z := 1000 * 60 * 20.

Record EdgeTransaction := {
  txid : string;
  currencyCode : string;
  nativeAmount : string;
  networkFee : string;
  parentNetworkFee : option string;
  signedTx : string
}.

(** [tx.nativeAmount = v] *)
Definition set_nativeAmount (tx : EdgeTransaction) (v : string) : EdgeTransaction :=
  {| txid := txid tx; currencyCode := currencyCode tx; nativeAmount := v;
     networkFee := networkFee tx; parentNetworkFee := parentNetworkFee tx;
     signedTx := signedTx tx |}.

Section Wallet.

(** The state of the wallet and of the network it broadcasts to. *)
Variable W : Type.

(** The wallet methods the quote uses.  Signing, broadcasting and saving
    act on the wallet and the network, so they take and return the world;
    each returns a new object (the runtime passes transactions by value). *)
Record EdgeCurrencyWallet := {
  currencyInfo : EdgeCurrencyInfo;
  signTx : EdgeTransaction -> W -> result EdgeTransaction * W;
  broadcastTx : EdgeTransaction -> W -> result EdgeTransaction * W;
  saveTx : EdgeTransaction -> W -> result unit * W
}.

Record EdgeSwapRequest := {
  fromWallet : EdgeCurrencyWallet;
  toWallet : EdgeCurrencyWallet;
  fromCurrencyCode : string;
  toCurrencyCode : string;
  request_nativeAmount : string;
  quoteFor : QuoteFor
}.

(** A call [approve] made on the wallet: the position in [txs] of the
    transaction it was made for, the argument, and what came back. *)
Inductive WalletCall :=
| SignTx (index : nat) (tx : EdgeTransaction) (outcome : result EdgeTransaction)
| BroadcastTx (index : nat) (signedTransaction : EdgeTransaction)
    (outcome : result EdgeTransaction)
| SaveTx (index : nat) (signedTransaction : EdgeTransaction) (outcome : result unit).

(** What [approve] acts on: the world, the [txs] array the quote closed
    over (its elements are distinct objects, one per [makeSpend]), and the
    wallet calls made so far, oldest first. *)
Record State := {
  world : W;
  txs_now : list EdgeTransaction;
  calls : list WalletCall
}.

Record NetworkFee := { fee_currencyCode : string; fee_nativeAmount : string }.

Record EdgeSwapResult := {
  transaction : EdgeTransaction;
  result_destinationAddress : string;
  orderId : string
}.

(** The quote object.  The last two fields are what the [approve] closure
    captured besides [fromNativeAmount] and [destinationAddress]. *)
Record EdgeSwapQuote := {
  fromNativeAmount : string;
  toNativeAmount : string;
  quote_networkFee : NetworkFee;
  destinationAddress : string;
  quote_pluginId : string;
  expirationDate : option Z;
  isEstimate : bool;
  quote_fromWallet : EdgeCurrencyWallet;
  quote_txs : list EdgeTransaction
}.

Definition makeTotleSwapPluginQuote (request : EdgeSwapRequest)
    (fromNativeAmount toNativeAmount : string) (txs : list EdgeTransaction)
    (destinationAddress : string) (isEstimate : bool)
    (expirationDate : option Z) : result EdgeSwapQuote :=
  let fromWallet := fromWallet request in
  (* const swapTx = txs[txs.length - 1] *)
  match last txs with
  | None => Throw (TypeError "Cannot read property 'parentNetworkFee' of undefined")
  | Some swapTx =>
      Ok {| fromNativeAmount := fromNativeAmount;
            toNativeAmount := toNativeAmount;
            quote_networkFee := {|
              fee_currencyCode := info_currencyCode (currencyInfo fromWallet);
              fee_nativeAmount :=
                match parentNetworkFee swapTx with
                | Some fee => fee
                | None => networkFee swapTx
                end |};
            destinationAddress := destinationAddress;
            quote_pluginId := pluginId;
            expirationDate := expirationDate;
            isEstimate := isEstimate;
            quote_fromWallet := fromWallet;
            quote_txs := txs |}
  end.

(** One awaited wallet call, recorded with its outcome. *)
Definition wallet_call {A} (op : W -> result A * W)
    (record : result A -> WalletCall) : M State A :=
  fun s =>
    let (r, w') := op (world s) in
    (r, {| world := w'; txs_now := txs_now s; calls := (calls s ++ [record r])%list |}).

(** [tx.nativeAmount = v] for the element of [txs] at [index]. *)
Definition assign_nativeAmount (index : nat) (tx : EdgeTransaction) (v : string)
    : M State unit :=
  fun s =>
    (Ok tt, {| world := world s;
               txs_now := <[index := set_nativeAmount tx v]> (txs_now s);
               calls := calls s |}).

(** The body of [for (const tx of txs)], from position [index] on;
    [rest] are the elements still to visit and [len] is [txs.length]. *)
Fixpoint approve_loop (q : EdgeSwapQuote) (len : nat) (rest : list EdgeTransaction)
    (index : nat) (swapTx : option EdgeTransaction) : M State (option EdgeTransaction) :=
  match rest with
  | [] => ret swapTx
  | tx :: rest' =>
      (let* signedTransaction :=
         wallet_call (signTx (quote_fromWallet q) tx) (SignTx index tx) in
       (* NOTE: The swap transaction will always be the last one *)
       let* swapTx' :=
         wallet_call (broadcastTx (quote_fromWallet q) signedTransaction)
           (BroadcastTx index signedTransaction) in
       let lastTransactionIndex := (len - 1)%nat in
       (* if it's the last transaction of the array then assign `nativeAmount` data
          (after signing and broadcasting) for metadata purposes *)
       do* (if (index =? lastTransactionIndex)%nat
            then assign_nativeAmount index tx ("-" ++ fromNativeAmount q)
            else ret tt) in
       do* wallet_call (saveTx (quote_fromWallet q) signedTransaction)
             (SaveTx index signedTransaction) in
       approve_loop q len rest' (S index) (Some swapTx'))%js
  end.

Definition approve (q : EdgeSwapQuote) : M State EdgeSwapResult :=
  fun s =>
    (let* swapTx := approve_loop q (length (txs_now s)) (txs_now s) 0%nat None in
     match swapTx with
     | None => throw (Error "No Totle swapTx")
     | Some swapTx =>
         ret {| transaction := swapTx;
                result_destinationAddress := destinationAddress q;
                orderId := txid swapTx |}
     end)%js s.

(** The state in which a fresh quote is executed. *)
Definition initial_state (q : EdgeSwapQuote) (w : W) : State :=
  {| world := w; txs_now := quote_txs q; calls := [] |}.

End Wallet.

Arguments currencyInfo {W} _.
Arguments signTx {W} _ _ _.
Arguments broadcastTx {W} _ _ _.
Arguments saveTx {W} _ _ _.
Arguments fromWallet {W} _.
Arguments world {W} _.
Arguments txs_now {W} _.
Arguments calls {W} _.
Arguments fromNativeAmount {W} _.
Arguments toNativeAmount {W} _.
Arguments quote_networkFee {W} _.
Arguments destinationAddress {W} _.
Arguments quote_pluginId {W} _.
Arguments expirationDate {W} _.
Arguments isEstimate {W} _.
Arguments quote_fromWallet {W} _.
Arguments quote_txs {W} _.
Arguments makeTotleSwapPluginQuote {W} _ _ _ _ _ _ _.
Arguments approve {W} _ _.
Arguments approve_loop {W} _ _ _ _ _ _.
Arguments initial_state {W} _ _.

End Totle.

(** The three wallet operations of one iteration of [approve]. *)
Inductive CallKind := Signing | Broadcasting | Saving.

Definition call_step (c : Totle.WalletCall) : nat * CallKind :=
  match c with
  | Totle.SignTx i _ _ => (i, Signing)
  | Totle.BroadcastTx i _ _ => (i, Broadcasting)
  | Totle.SaveTx i _ _ => (i, Saving)
  end.

(** The error a wallet call was rejected with, if it was. *)
Definition call_error (c : Totle.WalletCall) : option JsError :=
  match c with
  | Totle.SignTx _ _ (Throw e) | Totle.BroadcastTx _ _ (Throw e)
  | Totle.SaveTx _ _ (Throw e) => Some e
  | _ => None
  end.

(** Sign, broadcast, save for position [index], then for the next, for
    [n] positions. *)
Fixpoint schedule (index n : nat) : list (nat * CallKind) :=
  match n with
  | O => []
  | S n' =>
      (index, Signing) :: (index, Broadcasting) :: (index, Saving) :: schedule (S index) n'
  end.

(* ================================================================== *)
(** * totle ([src/swap/totle.js]): how a quote is fetched               *)
(* ================================================================== *)

Module TotlePlugin.

Definition swapUri : string := "https://api.totle.com/swap".
Definition tokenUri : string := "https://api.totle.com/tokens".

(** [type Token] *)
Record Token := {
  token_name : string;
  symbol : string;
  decimals : nat;
  address : string;
  tradable : bool;
  iconUrl : string
}.

(** [TotleErrorResponse.response] *)
Record TotleErrorDetails := {
  error_id : string;
  code : Z;
  message : string;
  info : string;
  error_name : option string;
  link : option string
}.

(** An element of [response.summary].  The interface declares a single
    summary; the plugin reads [summary[0]], so the reply carries an array
    of them.  These are the fields the plugin reads, and [rate]. *)
Record TotleSummary := {
  sourceAmount : string;
  destinationAmount : string;
  rate : string;
  guaranteedRate : string
}.

(** [transactions[i].tx] *)
Record TotleTx := {
  tx_to : string;
  tx_from : string;
  tx_value : string;
  tx_data : string;
  tx_gasPrice : string;
  tx_gas : string;
  tx_nonce : option string
}.

(** ['swap' | 'approve'] *)
Inductive TotleTransactionType := type_swap | type_approve.

(** [transactions[i]] *)
Record TotleTransaction := {
  tx_type : TotleTransactionType;
  tx_id : string;
  tx : TotleTx
}.

(** [TotleSwapResponse.response] *)
Record TotleSwapDetails := {
  response_id : string;
  summary : list TotleSummary;
  transactions : list TotleTransaction
}.

(** [type TotleSwapReply = TotleSwapResponse | TotleErrorResponse]: the
    member [success] is [true] in the first and [false] in the second. *)
Inductive TotleSwapReply :=
| TotleSwapResponse (response : TotleSwapDetails)
| TotleErrorResponse (response : TotleErrorDetails).

(** What [response.json()] resolves to: a value of one of the two reply
    types the plugin declares, [TotleSwapReply] and [TotleTokensReply]. *)
Inductive Reply :=
| SwapReply (reply : TotleSwapReply)
| TokensReply (tokens : list Token).

(** The options of a request; [body] is the value handed to
    [JSON.stringify], [None] when the request has no body. *)
Record FetchOptions := {
  method : string;
  body : option json;
  headers : list (string * string)
}.

Record Response := {
  status : N;
  (** [response.json()] *)
  json_body : result Reply
}.

(** [response.ok]: the status is in the range 200-299 (Fetch standard). *)
Definition ok (r : Response) : bool :=
  ((200 <=? status r) && (status r <=? 299))%N.

Record FetchCall := { call_url : string; call_opts : FetchOptions }.

(** [{ ...members, key: v }]: the member is replaced where it stands, or
    added at the end. *)
Fixpoint js_set (members : list (string * option json)) (key : string) (v : option json)
    : list (string * option json) :=
  match members with
  | [] => [(key, v)]
  | (k, old) :: rest =>
      if String.eqb k key then (k, v) :: rest else (k, old) :: js_set rest key v
  end.

(** [s.repeat(n)] *)
Fixpoint repeat_string (s : string) (n : nat) : string :=
  match n with
  | O => ""
  | S n' => s ++ repeat_string s n'
  end.

(** Spend information as [fetchSwapQuote] builds it. *)
Record EdgeSpendTarget := {
  target_nativeAmount : string;
  target_publicAddress : string;
  target_uniqueIdentifier : string;
  (** [otherParams: { data }] *)
  target_data : string
}.

Record CustomNetworkFee := { gasLimit : string; gasPrice : string }.

Record EdgeTxSwap := {
  swap_isEstimate : bool;
  payoutAddress : string;
  payoutCurrencyCode : string;
  payoutNativeAmount : string;
  payoutWalletId : string;
  plugin : EdgeSwapInfo
}.

Record EdgeSpendInfo := {
  spend_currencyCode : string;
  spendTargets : list EdgeSpendTarget;
  networkFeeOption : string;
  customNetworkFee : CustomNetworkFee;
  swapData : EdgeTxSwap
}.

Section Plugin.

(** The world outside the plugin: the backend behind [io.fetchCors], the
    wallets and the clock. *)
Variable W : Type.
Variable fetchCors : string -> FetchOptions -> W -> result Response * W.
Variable dateNow : W -> Z.

(** [const { partnerContract, apiKey } = initOptions]: whatever the
    options hold, [None] when [undefined]. *)
Variable partnerContract : option json.
Variable apiKey : option json.

(** The wallet members [fetchSwapQuote] uses besides those of the quote:
    [getReceiveAddress({})], [id] and [makeSpend(spendInfo)]. *)
Variable getReceiveAddress : Totle.EdgeCurrencyWallet W -> W -> result EdgeReceiveAddress * W.
Variable wallet_id : Totle.EdgeCurrencyWallet W -> string.
Variable makeSpend :
  Totle.EdgeCurrencyWallet W -> EdgeSpendInfo -> W -> result Totle.EdgeTransaction * W.

(** biggystring's [div(x, y, precision)] and [mul(x, y)], and the
    floating-point expression [String(parseInt(gasPrice) / 1000000000)];
    the plugin is modelled for any implementation of them. *)
Variable div : string -> string -> nat -> result string.
Variable mul : string -> string -> result string.
Variable gasPriceGwei : string -> string.

(** The world together with the requests sent so far, oldest first. *)
Record State := { world : W; requests : list FetchCall }.

(** [await fetchCors(url, opts)]: one request, recorded. *)
Definition fetch (url : string) (opts : FetchOptions) : M State Response :=
  fun s =>
    let (r, w') := fetchCors url opts (world s) in
    (r, {| world := w'; requests := (requests s ++ [Build_FetchCall url opts])%list |}).

(** An awaited wallet method. *)
Definition wallet_op {A} (op : W -> result A * W) : M State A :=
  fun s =>
    let (r, w') := op (world s) in
    (r, {| world := w'; requests := requests s |}).

(** [Date.now()] *)
Definition Date_now : M State Z := fun s => (Ok (dateNow (world s)), s).

Definition checkSwapReply (reply : Reply) (request : Totle.EdgeSwapRequest W)
    : result Reply :=
  match reply with
  (* Handle error response *)
  | SwapReply (TotleErrorResponse response) =>
      let code := code response in
      if code =? 1203 then (* TokenNotFoundError *)
        Throw (SwapCurrencyError Totle.swapInfo
                 (Totle.fromCurrencyCode W request) (Totle.toCurrencyCode W request))
      else if code =? 3100 then (* InsufficientFundsError *)
        Throw InsufficientFundsError
      else if code =? 1201 then (* AmountError *)
        Throw NoAmountSpecifiedError
      else Throw (Error ("Totle API Error: " ++ message response))
  (* Return swap response *)
  | _ => Ok reply
  end.

Definition fetchSwapReply (json : list (string * option json)) : M State Reply :=
  (let body :=
     js_object (js_set (js_set json "partnerContract" partnerContract) "apiKey" apiKey) in
   let headers := [("Content-Type", "application/json")] in
   let* response :=
     fetch swapUri {| method := "POST"; body := Some body; headers := headers |} in
   if negb (ok response) then
     throw (Error ("Totle returned error code " ++ biggystring.print_N (status response)))
   else
     let* reply := lift (json_body response) in
     ret reply)%js.

(** The result is [None] when the reply has no member [tokens]. *)
Definition fetchTokens : M State (option (list Token)) :=
  (let* response := fetch tokenUri {| method := "GET"; body := None; headers := [] |} in
   if negb (ok response) then
     throw (Error ("Totle returned error code " ++ biggystring.print_N (status response)))
   else
     let* reply := lift (json_body response) in
     let tokens :=
       match reply with
       | TokensReply tokens => Some tokens
       | SwapReply _ => None
       end in
     ret tokens)%js.

(** The spend information of one iteration of [for (const tx of
    transactions)]. *)
Definition spendInfo_of (request : Totle.EdgeSwapRequest W) (userToAddress : string)
    (toNativeAmount : string) (tx : TotleTransaction) : EdgeSpendInfo := {|
  spend_currencyCode := Totle.fromCurrencyCode W request;
  spendTargets := [ {| target_nativeAmount := tx_value (TotlePlugin.tx tx);
                       target_publicAddress := tx_to (TotlePlugin.tx tx);
                       target_uniqueIdentifier := tx_id tx;
                       target_data := tx_data (TotlePlugin.tx tx) |} ];
  networkFeeOption := "custom";
  customNetworkFee := {| gasLimit := tx_gas (TotlePlugin.tx tx);
                         gasPrice := gasPriceGwei (tx_gasPrice (TotlePlugin.tx tx)) |};
  swapData := {|
    swap_isEstimate := false;
    payoutAddress := userToAddress;
    payoutCurrencyCode := Totle.toCurrencyCode W request;
    payoutNativeAmount := toNativeAmount;
    payoutWalletId := wallet_id (Totle.toWallet W request);
    plugin := Totle.swapInfo
  |}
|}.

(** The loop [for (const tx of transactions)]: the transactions made, in
    the order of the reply. *)
Fixpoint make_txs (request : Totle.EdgeSwapRequest W) (userToAddress : string)
    (toNativeAmount : string) (transactions : list TotleTransaction)
    : M State (list Totle.EdgeTransaction) :=
  match transactions with
  | [] => ret []
  | tx :: rest =>
      (* Make the transaction: *)
      (let spendInfo := spendInfo_of request userToAddress toNativeAmount tx in
       let* transaction :=
         wallet_op (makeSpend (Totle.fromWallet request) spendInfo) in
       let* txs := make_txs request userToAddress toNativeAmount rest in
       ret (transaction :: txs))%js
  end.

(** The pair [fromNativeAmount], [toNativeAmount] after the adjustment of
    the side that was not requested. *)
Definition adjusted_amounts (request : Totle.EdgeSwapRequest W)
    (fromToken toToken : Token) (first : TotleSummary) : result (string * string) :=
  (let fromNativeAmount := sourceAmount first in (* string with many zeroes *)
   let toNativeAmount := destinationAmount first in (* string with many zeroes *)
   let fromMultiplier := "1" ++ repeat_string "0" (decimals fromToken) in
   let toMultiplier := "1" ++ repeat_string "0" (decimals toToken) in
   let isSourceRequest := Godex.is_from (Totle.quoteFor W request) in
   if isSourceRequest then
     let? fromExchangeAmount := div fromNativeAmount fromMultiplier 10 in
     let? toExchangeAmount := mul fromExchangeAmount (guaranteedRate first) in
     let? toNativeAmount' := mul toExchangeAmount toMultiplier in
     Ok (fromNativeAmount, toNativeAmount')
   else
     let? toExchangeAmount := div toNativeAmount toMultiplier 10 in
     let? fromExchangeAmount := mul toExchangeAmount (guaranteedRate first) in
     let? fromNativeAmount' := mul fromExchangeAmount fromMultiplier in
     Ok (fromNativeAmount', toNativeAmount))%js.

(** The second half of [fetchSwapQuote], from [const swapResponse =
    checkSwapReply(reply, request)] to the end. *)
Definition quote_of_reply (request : Totle.EdgeSwapRequest W)
    (fromToken toToken : Token) (userToAddress : string) (reply : Reply)
    : M State (Totle.EdgeSwapQuote W) :=
  (let* swapResponse := lift (checkSwapReply reply request) in
   (* const { summary, transactions } = swapResponse.response *)
   match swapResponse with
   | TokensReply _ =>
       throw (TypeError "Cannot destructure property 'summary' of 'undefined'")
   | SwapReply (TotleErrorResponse _) =>
       throw (TypeError "Cannot read property '0' of undefined")
   | SwapReply (TotleSwapResponse response) =>
       let summary := summary response in
       let transactions := transactions response in
       match summary with
       | [] => throw (TypeError "Cannot read property 'sourceAmount' of undefined")
       | first :: _ =>
           let* amounts := lift (adjusted_amounts request fromToken toToken first) in
           let fromNativeAmount := fst amounts in
           let toNativeAmount := snd amounts in
           let* txs := make_txs request userToAddress toNativeAmount transactions in
           let* now := Date_now in
           let* quote :=
             lift (Totle.makeTotleSwapPluginQuote request fromNativeAmount toNativeAmount
                     txs userToAddress false (Some (now + Totle.expirationMs))) in
           ret quote
       end
   end)%js.

(** The argument of [fetchSwapReply]. *)
Definition swap_request (request : Totle.EdgeSwapRequest W) (fromToken toToken : Token)
    (userFromAddress userToAddress : string) : list (string * option json) :=
  [ ("address", Some (JString userFromAddress));
    ("config", Some (JObject [ ("transactions", JBool true) ]));
    ("swap", Some (js_object [
       ("sourceAsset", Some (JString (address fromToken)));
       ("destinationAsset", Some (JString (address toToken)));
       (if Godex.is_from (Totle.quoteFor W request)
        then "sourceAmount" else "destinationAmount",
        Some (JString (Totle.request_nativeAmount W request)));
       (* strictDestination: request.quoteFor === 'to', *)
       ("destinationAddress", Some (JString userToAddress)) ])) ].

Definition fetchSwapQuote (request : Totle.EdgeSwapRequest W)
    : M State (Totle.EdgeSwapQuote W) :=
  (let* tokens := fetchTokens in
   match tokens with
   | None => throw (TypeError "Cannot read property 'find' of undefined")
   | Some tokens =>
       let fromToken :=
         find (fun t => String.eqb (symbol t) (Totle.fromCurrencyCode W request)) tokens in
       let toToken :=
         find (fun t => String.eqb (symbol t) (Totle.toCurrencyCode W request)) tokens in
       match fromToken, toToken with
       | Some fromToken, Some toToken =>
           if String.eqb (symbol fromToken) (symbol toToken) then
             throw (SwapCurrencyError Totle.swapInfo
                      (Totle.fromCurrencyCode W request) (Totle.toCurrencyCode W request))
           else
             (* Grab addresses: *)
             let* fromInfo := wallet_op (getReceiveAddress (Totle.fromWallet request)) in
             let userFromAddress := publicAddress fromInfo in
             let* toInfo := wallet_op (getReceiveAddress (Totle.toWallet W request)) in
             let userToAddress := publicAddress toInfo in
             (* Get the estimate from the server: *)
             let* reply :=
               fetchSwapReply
                 (swap_request request fromToken toToken userFromAddress userToAddress) in
             quote_of_reply request fromToken toToken userToAddress reply
       | _, _ =>
           throw (SwapCurrencyError Totle.swapInfo
                    (Totle.fromCurrencyCode W request) (Totle.toCurrencyCode W request))
       end
   end)%js.

End Plugin.

Arguments world {W} _.
Arguments requests {W} _.
Arguments Build_State {W} _ _.

End TotlePlugin.

(* ================================================================== *)
(** * The Amount Converter of the specification                        *)
(* ================================================================== *)

Module AmountConverter.

(** Modelled from the spec: the wallet runtime's [nativeToDenomination]
    (spec 4.1, [toDenomination]) belongs to edge-core-js and is not among
    the sources.  The spec says it converts a native integer amount to its
    decimal denomination with exact decimal arithmetic keyed by the
    asset's decimal-place count: the amount divided by [10^decimals]. *)
Definition toDenomination (nativeAmount : string) (decimals : nat) : result string :=
  biggystring.div_pow10 nativeAmount decimals.

(** Modelled from the spec: the wallet runtime's [denominationToNative],
    not among the sources: the decimal amount times [10^decimals], exactly. *)
Definition denominationToNative (decimalAmount : string) (decimals : nat)
    : result string :=
  biggystring.mul_pow10 decimalAmount decimals.

(** Modelled from the spec: [toNative] (spec 4.1) truncates the exact
    conversion to an integer; in the plugin this is [floor] applied to the
    result of [denominationToNative]. *)
Definition toNative (decimalAmount : string) (decimals : nat) : result string :=
  (let? converted := denominationToNative decimalAmount decimals in
   biggystring.floor0 converted)%js.

End AmountConverter.

(* ================================================================== *)
(** * A concrete wallet runtime and backend                             *)
(* ================================================================== *)

(** Wallets whose conversions are those of the Amount Converter, and a
    backend that answers the godex endpoints from fixed replies.  They are
    the inputs of the examples below. *)
Module Scenario.

Definition wallet (id plugin code : string) (decimals : nat)
    (address : EdgeReceiveAddress) : EdgeCurrencyWallet := {|
  wallet_id := id;
  currencyInfo := {| info_pluginId := plugin; info_currencyCode := code |};
  getReceiveAddress := fun _ => Ok address;
  nativeToDenomination := fun n _ => AmountConverter.toDenomination n decimals;
  denominationToNative := fun d _ => AmountConverter.denominationToNative d decimals
|}.

Definition btc : EdgeCurrencyWallet :=
  wallet "wallet-btc" "bitcoin" "BTC" 8
    {| publicAddress := "bc1qfrom"; legacyAddress := Some "1LegacyFrom" |}.

Definition eth : EdgeCurrencyWallet :=
  wallet "wallet-eth" "ethereum" "ETH" 18
    {| publicAddress := "0xto"; legacyAddress := None |}.

(** The reply of [info] and [info-revert]: a minimum of 0.001, a maximum
    of 10 (which the plugin's cleaner does not keep) and the networks. *)
Definition info_reply (networks : bool) : json :=
  JObject ([ ("min_amount", JString "0.001");
             ("max_amount", JString "10");
             ("amount", JString "15.5") ] ++
           if networks
           then [ ("networks_from", JArray [ JObject [ ("network", JString "BTC") ] ]);
                  ("networks_to", JArray [ JObject [ ("network", JString "ETH") ] ]) ]
           else [])%list.

Definition order_reply : json :=
  JObject [ ("transaction_id", JString "order-1");
            ("deposit", JString "bc1qdeposit");
            ("deposit_extra_id", JNull);
            ("deposit_amount", JString "1");
            ("withdrawal", JString "0xto");
            ("withdrawal_extra_id", JNull);
            ("withdrawal_amount", JString "15.1234567890123456789");
            ("return", JString "bc1qfrom");
            ("return_extra_id", JNull) ].

(** The backend counts the requests it has served. *)
Definition backend (networks : bool) (url : string) (opts : FetchOptions) (served : nat)
    : result FetchResponse * nat :=
  if String.prefix (Godex.uri ++ "info") url then
    (Ok {| status := 200; json_body := Ok (info_reply networks) |}, S served)
  else if String.prefix (Godex.uri ++ "transaction") url then
    (Ok {| status := 200; json_body := Ok order_reply |}, S served)
  else
    (Ok {| status := 404; json_body := Throw (Error "Unexpected token") |}, S served).

(** A backend that answers every request with the same status and no body. *)
Definition backend_status (st : N) (url : string) (opts : FetchOptions) (served : nat)
    : result FetchResponse * nat :=
  (Ok {| status := st; json_body := Throw (Error "Unexpected end of JSON input") |},
   S served).

(** A backend whose every answer is a rejection with an above-limit
    error of its own making. *)
Definition backend_refusing (url : string) (opts : FetchOptions) (served : nat)
    : result FetchResponse * nat :=
  (Throw (SwapAboveLimitError Godex.swapInfo "1000000000" DirFrom), S served).

Definition dateNow (served : nat) : Z := 1700000000000.

Definition start : Io.State nat := Io.Build_State 0%nat [].

Definition getAddress (w : EdgeCurrencyWallet) : result string :=
  (let? a := getReceiveAddress w None in Ok (publicAddress a))%js.

Definition memoType (plugin : string) : string := "text".

Definition getCodesWithTranscription (request : Godex.EdgeSwapRequestPlugin)
    (table : gmap string string) : Godex.MainnetCodes :=
  let code w :=
    default (info_currencyCode (currencyInfo w))
            (table !! info_pluginId (currencyInfo w)) in
  {| Godex.fromMainnetCode := code (Godex.fromWallet request);
     Godex.toMainnetCode := code (Godex.toWallet request) |}.

(** 1 BTC to ETH, quoted on the 'from' side. *)
Definition request (amount : string) : Godex.EdgeSwapRequestPlugin := {|
  Godex.fromWallet := btc;
  Godex.toWallet := eth;
  Godex.fromTokenId := None;
  Godex.toTokenId := None;
  Godex.nativeAmount := amount;
  Godex.quoteFor := QuoteFrom;
  Godex.fromCurrencyCode := "BTC";
  Godex.toCurrencyCode := "ETH"
|}.



Definition opts : Godex.QuoteOpts := {| Godex.promoCode := None |}.

Definition initOptions : Godex.InitOptions := {| Godex.apiKey := Some "key" |}.

(** [fetchSwapQuoteInner] of the current plugin on this runtime. *)
Definition quote (networks : bool) (amount : string)
    : result Godex.SwapOrder * Io.State nat :=
  Godex.fetchSwapQuoteInner nat (backend networks) dateNow initOptions
    getAddress memoType getCodesWithTranscription (request amount) opts start.

(** Did the run end with a value? *)
Definition is_ok {A} (r : result A) : bool :=
  match r with Ok _ => true | Throw _ => false end.

(** The amounts of a swap order: what is sent and what is received. *)
Definition amounts (r : result Godex.SwapOrder) : option (string * string) :=
  match r with
  | Ok o => Some (Godex.fromNativeAmount o,
                  Godex.asset_nativeAmount
                    (Godex.toAsset (Godex.savedAction (Godex.spendInfo o))))
  | Throw _ => None
  end.

Definition legacyOptions : GodexLegacy.InitOptions := {| GodexLegacy.apiKey := None |}.

Definition makeSpend (w : EdgeCurrencyWallet) (spend : GodexLegacy.EdgeSpendInfo)
    : result string := Ok "unsigned-tx".


Definition checkInvalidCodes (table : Godex.InvalidCurrencyCodes)
    (r : GodexLegacy.EdgeSwapRequest) (info : EdgeSwapInfo) : result unit := Ok tt.

Definition legacyCodes (r : GodexLegacy.EdgeSwapRequest) (table : gmap string string)
    : Godex.MainnetCodes :=
  {| Godex.fromMainnetCode := GodexLegacy.fromCurrencyCode r;
     Godex.toMainnetCode := GodexLegacy.toCurrencyCode r |}.

Definition makeSwapPluginQuote (args : GodexLegacy.QuoteArgs string)
    : GodexLegacy.QuoteArgs string := args.


End Scenario.

(* ================================================================== *)
(** * A concrete totle quote: an approval followed by the swap          *)
(* ================================================================== *)

Module TotleScenario.

(** The wallet's world: the time and the txids broadcast so far. *)
Record World := { clock : Z; broadcasts : list string }.

Definition signed (tx : Totle.EdgeTransaction) : Totle.EdgeTransaction :=
  {| Totle.txid := Totle.txid tx; Totle.currencyCode := Totle.currencyCode tx;
     Totle.nativeAmount := Totle.nativeAmount tx; Totle.networkFee := Totle.networkFee tx;
     Totle.parentNetworkFee := Totle.parentNetworkFee tx;
     Totle.signedTx := "f86c" |}.

(** A wallet that signs and saves anything and broadcasts anything but
    the transaction whose txid is [rejected]. *)
Definition wallet (rejected : string) : Totle.EdgeCurrencyWallet World := {|
  Totle.currencyInfo := {| info_pluginId := "ethereum"; info_currencyCode := "ETH" |};
  Totle.signTx := fun tx w => (Ok (signed tx), w);
  Totle.broadcastTx := fun tx w =>
    if String.eqb (Totle.txid tx) rejected
    then (Throw (Error "transaction underpriced"), w)
    else (Ok tx, {| clock := clock w; broadcasts := (broadcasts w ++ [Totle.txid tx])%list |});
  Totle.saveTx := fun tx w => (Ok tt, w)
|}.

Definition approveTx : Totle.EdgeTransaction :=
  {| Totle.txid := "0xapprove"; Totle.currencyCode := "DAI"; Totle.nativeAmount := "0";
     Totle.networkFee := "0"; Totle.parentNetworkFee := Some "21000";
     Totle.signedTx := "" |}.

Definition swapTx : Totle.EdgeTransaction :=
  {| Totle.txid := "0xswap"; Totle.currencyCode := "DAI"; Totle.nativeAmount := "0";
     Totle.networkFee := "0"; Totle.parentNetworkFee := Some "60000";
     Totle.signedTx := "" |}.

Definition request (rejected : string) : Totle.EdgeSwapRequest World := {|
  Totle.fromWallet := wallet rejected;
  Totle.toWallet := wallet rejected;
  Totle.fromCurrencyCode := "DAI";
  Totle.toCurrencyCode := "ETH";
  Totle.request_nativeAmount := "1000";
  Totle.quoteFor := QuoteFrom
|}.

(** The quote for the two transactions; it expires at time 1000. *)
Definition quote (rejected : string) : Totle.EdgeSwapQuote World := {|
  Totle.fromNativeAmount := "1000";
  Totle.toNativeAmount := "2000";
  Totle.quote_networkFee := {| Totle.fee_currencyCode := "ETH"; Totle.fee_nativeAmount := "60000" |};
  Totle.destinationAddress := "0xdestination";
  Totle.quote_pluginId := "totle";
  Totle.expirationDate := Some 1000;
  Totle.isEstimate := false;
  Totle.quote_fromWallet := wallet rejected;
  Totle.quote_txs := [approveTx; swapTx]
|}.

(** Execution is attempted at time 2000. *)
Definition start (rejected : string) : Totle.State World :=
  Totle.initial_state (quote rejected) {| clock := 2000; broadcasts := [] |}.

(** The outcome of [approve]: the order id or the error, the steps taken
    and the txids broadcast. *)
Definition outcome (rejected : string)
    : (string + JsError) * list (nat * CallKind) * list string :=
  let res := Totle.approve (quote rejected) (start rejected) in
  (match fst res with Ok r => inl (Totle.orderId r) | Throw e => inr e end,
   map call_step (Totle.calls (snd res)),
   broadcasts (Totle.world (snd res))).

End TotleScenario.

(* ================================================================== *)
(** * A concrete totle backend                                          *)
(* ================================================================== *)

(** A token list, a swap endpoint that answers with a fixed reply, and a
    wallet that makes a transaction for every spend; the inputs of the
    examples of the totle plugin. *)
Module TotlePluginScenario.

Definition dai : TotlePlugin.Token := {|
  TotlePlugin.token_name := "Dai Stablecoin";
  TotlePlugin.symbol := "DAI";
  TotlePlugin.decimals := 18;
  TotlePlugin.address := "0x6b175474e89094c44da98b954eedeac495271d0f";
  TotlePlugin.tradable := true;
  TotlePlugin.iconUrl := ""
|}.

Definition eth : TotlePlugin.Token := {|
  TotlePlugin.token_name := "Ether";
  TotlePlugin.symbol := "ETH";
  TotlePlugin.decimals := 18;
  TotlePlugin.address := "0x0000000000000000000000000000000000000000";
  TotlePlugin.tradable := true;
  TotlePlugin.iconUrl := ""
|}.

Definition tokens : list TotlePlugin.Token := [dai; eth].

Definition approveTx : TotlePlugin.TotleTransaction := {|
  TotlePlugin.tx_type := TotlePlugin.type_approve;
  TotlePlugin.tx_id := "0xapprove";
  TotlePlugin.tx := {|
    TotlePlugin.tx_to := "0x6b175474e89094c44da98b954eedeac495271d0f";
    TotlePlugin.tx_from := "0xuser";
    TotlePlugin.tx_value := "0";
    TotlePlugin.tx_data := "0x095ea7b3";
    TotlePlugin.tx_gasPrice := "20000000000";
    TotlePlugin.tx_gas := "21000";
    TotlePlugin.tx_nonce := None |}
|}.

Definition swapTx : TotlePlugin.TotleTransaction := {|
  TotlePlugin.tx_type := TotlePlugin.type_swap;
  TotlePlugin.tx_id := "0xswap";
  TotlePlugin.tx := {|
    TotlePlugin.tx_to := "0x74758acfce059f503a7e6b0fc2c8737600f9f2c4";
    TotlePlugin.tx_from := "0xuser";
    TotlePlugin.tx_value := "0";
    TotlePlugin.tx_data := "0x4a7d20b4";
    TotlePlugin.tx_gasPrice := "20000000000";
    TotlePlugin.tx_gas := "60000";
    TotlePlugin.tx_nonce := None |}
|}.

(** One DAI for 0.002 ETH at a guaranteed rate of 0.0019. *)
Definition details (transactions : list TotlePlugin.TotleTransaction)
    : TotlePlugin.TotleSwapDetails := {|
  TotlePlugin.response_id := "0xresponse";
  TotlePlugin.summary :=
    [ {| TotlePlugin.sourceAmount := "1000000000000000000";
         TotlePlugin.destinationAmount := "2000000000000000";
         TotlePlugin.rate := "0.002";
         TotlePlugin.guaranteedRate := "0.0019" |} ];
  TotlePlugin.transactions := transactions
|}.

Definition swapped : TotlePlugin.Reply :=
  TotlePlugin.SwapReply (TotlePlugin.TotleSwapResponse (details [approveTx; swapTx])).

Definition failed (code : Z) : TotlePlugin.Reply :=
  TotlePlugin.SwapReply (TotlePlugin.TotleErrorResponse {|
    TotlePlugin.error_id := "0xerror";
    TotlePlugin.code := code;
    TotlePlugin.message := "Not enough liquidity";
    TotlePlugin.info := "";
    TotlePlugin.error_name := None;
    TotlePlugin.link := None |}).

(** The backend: the token list, and [reply] from the swap endpoint. *)
Definition backend (reply : TotlePlugin.Reply) (url : string)
    (opts : TotlePlugin.FetchOptions) (w : TotleScenario.World)
    : result TotlePlugin.Response * TotleScenario.World :=
  if String.eqb url TotlePlugin.tokenUri then
    (Ok {| TotlePlugin.status := 200;
           TotlePlugin.json_body := Ok (TotlePlugin.TokensReply tokens) |}, w)
  else if String.eqb url TotlePlugin.swapUri then
    (Ok {| TotlePlugin.status := 200; TotlePlugin.json_body := Ok reply |}, w)
  else
    (Ok {| TotlePlugin.status := 404;
           TotlePlugin.json_body := Throw (Error "Unexpected token") |}, w).

(** A backend that answers every request with the same status and no body. *)
Definition backend_status (st : N) (url : string) (opts : TotlePlugin.FetchOptions)
    (w : TotleScenario.World) : result TotlePlugin.Response * TotleScenario.World :=
  (Ok {| TotlePlugin.status := st;
         TotlePlugin.json_body := Throw (Error "Unexpected end of JSON input") |}, w).

Definition dateNow (w : TotleScenario.World) : Z := TotleScenario.clock w.

Definition getReceiveAddress (wallet : Totle.EdgeCurrencyWallet TotleScenario.World)
    (w : TotleScenario.World) : result EdgeReceiveAddress * TotleScenario.World :=
  (Ok {| publicAddress := "0xuser"; legacyAddress := None |}, w).

Definition wallet_id (wallet : Totle.EdgeCurrencyWallet TotleScenario.World) : string :=
  "wallet-eth".

(** The wallet makes a transaction whose txid is the identifier of the
    spend target and whose parent network fee is the gas limit. *)
Definition makeSpend (wallet : Totle.EdgeCurrencyWallet TotleScenario.World)
    (spend : TotlePlugin.EdgeSpendInfo) (w : TotleScenario.World)
    : result Totle.EdgeTransaction * TotleScenario.World :=
  match TotlePlugin.spendTargets spend with
  | target :: _ =>
      (Ok {| Totle.txid := TotlePlugin.target_uniqueIdentifier target;
             Totle.currencyCode := TotlePlugin.spend_currencyCode spend;
             Totle.nativeAmount := TotlePlugin.target_nativeAmount target;
             Totle.networkFee := "0";
             Totle.parentNetworkFee :=
               Some (TotlePlugin.gasLimit (TotlePlugin.customNetworkFee spend));
             Totle.signedTx := "" |}, w)
  | [] => (Throw NoAmountSpecifiedError, w)
  end.

(** Decimal arithmetic for the scenario: exact products, quotients cut
    off after [precision] decimal places, and no zeros at the end of the
    fraction. *)
Fixpoint trimmed (k : nat) (m : Z) : biggystring.dec :=
  match k with
  | O => biggystring.mkDec m 0
  | S k' => if m mod 10 =? 0 then trimmed k' (m / 10) else biggystring.mkDec m k
  end.

Definition mul (x y : string) : result string :=
  match biggystring.parse x, biggystring.parse y with
  | Some a, Some b =>
      Ok (biggystring.print_dec
            (trimmed (biggystring.scale a + biggystring.scale b)
               (biggystring.mant a * biggystring.mant b)))
  | _, _ => Throw biggystring.invalid_number
  end.

Definition div (x y : string) (precision : nat) : result string :=
  match biggystring.parse x, biggystring.parse y with
  | Some a, Some b =>
      if biggystring.mant b =? 0 then Throw (Error "Division by zero")
      else
        Ok (biggystring.print_dec
              (trimmed precision
                 (Z.quot (biggystring.mant a
                          * biggystring.pow10 (biggystring.scale b + precision))
                    (biggystring.mant b * biggystring.pow10 (biggystring.scale a)))))
  | _, _ => Throw biggystring.invalid_number
  end.

(** The gas price in gwei, by exact division.  This is what
    [String(parseInt(gasPrice) / 1000000000)] gives for a price written as
    a decimal integer of at least 1000 wei and at most fifteen digits, such
    as the 20 gwei of the scenario; for a smaller price JavaScript prints
    the quotient with an exponent (["1e-9"] for 1 wei), and [parseInt]
    reads only the integer at the start of a text, neither of which is
    followed here. *)
Definition gasPriceGwei (gasPrice : string) : string :=
  match div gasPrice "1000000000" 9 with
  | Ok text => text
  | Throw _ => "NaN"
  end.

(** A wallet that is short of funds for the transaction [short]. *)
Definition makeSpend_short (short : string)
    (wallet : Totle.EdgeCurrencyWallet TotleScenario.World)
    (spend : TotlePlugin.EdgeSpendInfo) (w : TotleScenario.World)
    : result Totle.EdgeTransaction * TotleScenario.World :=
  match TotlePlugin.spendTargets spend with
  | target :: _ =>
      if String.eqb (TotlePlugin.target_uniqueIdentifier target) short
      then (Throw InsufficientFundsError, w)
      else makeSpend wallet spend w
  | [] => makeSpend wallet spend w
  end.

Definition partnerContract : option json := Some (JString "0xpartner").
Definition apiKey : option json := None.

(** One DAI to the currency [to], quoted on the side [side]. *)
Definition request (to : string) (side : QuoteFor)
    : Totle.EdgeSwapRequest TotleScenario.World := {|
  Totle.fromWallet := TotleScenario.wallet "";
  Totle.toWallet := TotleScenario.wallet "";
  Totle.fromCurrencyCode := "DAI";
  Totle.toCurrencyCode := to;
  Totle.request_nativeAmount := "1000000000000000000";
  Totle.quoteFor := side
|}.

Definition start : TotlePlugin.State TotleScenario.World :=
  TotlePlugin.Build_State
    {| TotleScenario.clock := 2000; TotleScenario.broadcasts := [] |} [].

(** [fetchSwapQuote] on this backend and wallet. *)
Definition quote (reply : TotlePlugin.Reply) (to : string) (side : QuoteFor)
    : result (Totle.EdgeSwapQuote TotleScenario.World)
      * TotlePlugin.State TotleScenario.World :=
  TotlePlugin.fetchSwapQuote TotleScenario.World (backend reply) dateNow
    partnerContract apiKey getReceiveAddress wallet_id makeSpend div mul gasPriceGwei
    (request to side) start.

(** What a quote shows: its two amounts, the txids of its transactions,
    its fee and its expiration. *)
Definition view (r : result (Totle.EdgeSwapQuote TotleScenario.World))
    : option (string * string * list string * string * option Z) :=
  match r with
  | Ok q => Some (Totle.fromNativeAmount q, Totle.toNativeAmount q,
                  map Totle.txid (Totle.quote_txs q),
                  Totle.fee_nativeAmount (Totle.quote_networkFee q),
                  Totle.expirationDate q)
  | Throw _ => None
  end.

(** The error of a rejected run. *)
Definition error_of {A} (r : result A) : option JsError :=
  match r with
  | Ok _ => None
  | Throw e => Some e
  end.

End TotlePluginScenario.

(* ================================================================== *)
(** * Properties of the current godex plugin                            *)
(* ================================================================== *)

(** The state after one more request. *)
Definition sent {W} (s : Io.State W) (w' : W) (url : string) (params : json) : Io.State W :=
  Io.Build_State w' (Io.requests s ++ [Build_FetchCall url (post_json params)]).

(** The order-creation calls among the requests sent so far. *)
Definition order_calls {W} (s : Io.State W) : list FetchCall :=
  List.filter is_order_creation (Io.requests s).

(** The contract of the fetch helper [call], for a helper [callf] and the
    error [unsupported] it raises on status 422: one request is sent
    whatever the outcome; a transport failure is passed on; a reply with
    status 422 raises [unsupported]; any other reply that is not OK raises
    an [Error] whose message ends with the digits of the status; an OK
    reply gives the parsed body. *)
Definition classifies_reply {W}
    (fetchCors : string -> FetchOptions -> W -> result FetchResponse * W)
    (callf : string -> json -> M (Io.State W) json) (unsupported : JsError) : Prop :=
  forall url params s,
    let out := fetchCors url (post_json params) (Io.world s) in
    let res := callf url params s in
    Io.requests (snd res) = (Io.requests s ++ [Build_FetchCall url (post_json params)])%list /\
    Io.world (snd res) = snd out /\
    (forall e, fst out = Throw e -> fst res = Throw e) /\
    (forall r, fst out = Ok r ->
       (status r = 422%N -> fst res = Throw unsupported) /\
       (ok r = false -> status r <> 422%N ->
        fst res = Throw (Error ("godex returned error code " ++ biggystring.print_N (status r))) /\
        biggystring.digits_acc (biggystring.print_N (status r)) 0 = Some (status r)) /\
       (ok r = true -> fst res = json_body r)).

Section GodexFacts.

Context (W : Type)
  (fetchCors : string -> FetchOptions -> W -> result FetchResponse * W)
  (dateNow : W -> Z)
  (initOptions : Godex.InitOptions)
  (getAddress : EdgeCurrencyWallet -> result string)
  (memoType : string -> string)
  (getCodesWithTranscription :
     Godex.EdgeSwapRequestPlugin -> gmap string string -> Godex.MainnetCodes).

#[local] Abbreviation call := (Godex.call W fetchCors).
#[local] Abbreviation create_order :=
  (Godex.create_order W fetchCors dateNow initOptions memoType).
#[local] Abbreviation fetchSwapQuoteInner :=
  (Godex.fetchSwapQuoteInner W fetchCors dateNow initOptions getAddress memoType
     getCodesWithTranscription).

(** What [call] does with the outcome of its request. *)
Lemma call_run url request params s :
  call url request params s =
  (match fst (fetchCors url (post_json params) (Io.world s)) with
   | Throw e => Throw e
   | Ok r =>
       if negb (ok r) then
         if (status r =? 422)%N then
           Throw (SwapCurrencyError Godex.swapInfo
                    (Godex.fromCurrencyCode request) (Godex.toCurrencyCode request))
         else Throw (Error ("godex returned error code " ++ biggystring.print_N (status r)))
       else json_body r
   end,
   sent s (snd (fetchCors url (post_json params) (Io.world s))) url params).
Proof.
  unfold Godex.call, bind, Io.fetch, throw, lift, sent, post_json.
  destruct (fetchCors _ _ _) as [[r | e] w']; cbn [fst snd]; [|reflexivity].
  destruct (negb (ok r)); [|reflexivity].
  destruct (status r =? 422)%N; reflexivity.
Qed.

(** The endpoint of the first request. *)
Definition info_url (request : Godex.EdgeSwapRequestPlugin) : string :=
  Godex.uri ++ (if Godex.is_from (Godex.quoteFor request) then "info" else "info-revert").

(** The wallet whose units the quoted amount is in, as the minimum check
    chooses it. *)
Definition quoted_side (request : Godex.EdgeSwapRequestPlugin) : SwapDirection :=
  if Godex.is_to (Godex.quoteFor request) then DirTo else DirFrom.

(** The conversion of the declared minimum to native units. *)
Definition native_minimum (request : Godex.EdgeSwapRequestPlugin) (reply : Godex.ApiInfo)
    : result string :=
  if Godex.is_to (Godex.quoteFor request)
  then denominationToNative (Godex.toWallet request)
         (Godex.min_amount reply) (Godex.toCurrencyCode request)
  else denominationToNative (Godex.fromWallet request)
         (Godex.min_amount reply) (Godex.fromCurrencyCode request).

(** The backend declared [reply]: the addresses were resolved, the amount
    was converted to [quoteAmount], and the request to [info] or
    [info-revert] was answered with an OK response whose body cleans to
    [reply], leaving the world in [w1]. *)
Definition info_declared (request : Godex.EdgeSwapRequestPlugin) (s : Io.State W)
    (addresses : string * string) (quoteAmount : string)
    (reply : Godex.ApiInfo) (w1 : W) : Prop :=
  Godex.both_addresses getAddress request = Ok addresses /\
  (if Godex.is_from (Godex.quoteFor request)
   then nativeToDenomination (Godex.fromWallet request)
          (Godex.nativeAmount request) (Godex.fromCurrencyCode request)
   else nativeToDenomination (Godex.toWallet request)
          (Godex.nativeAmount request) (Godex.toCurrencyCode request)) = Ok quoteAmount /\
  exists r raw,
    fetchCors (info_url request) (post_json (Godex.quoteParams request quoteAmount))
      (Io.world s) = (Ok r, w1) /\
    ok r = true /\ json_body r = Ok raw /\ Godex.asApiInfo (Some raw) = Ok reply.

(** [fetchSwapQuoteInner] from the point where the backend's reply is
    known: the minimum check, then the network check, then the order. *)
Lemma inner_after_info request opts s addresses quoteAmount reply w1 :
  info_declared request s addresses quoteAmount reply w1 ->
  let s1 := sent s w1 (info_url request) (Godex.quoteParams request quoteAmount) in
  let codes := getCodesWithTranscription request Godex.MAINNET_CODE_TRANSCRIPTION in
  fetchSwapQuoteInner request opts s =
  match native_minimum request reply with
  | Throw e => (Throw e, s1)
  | Ok nativeMin =>
      match biggystring.lt (Godex.nativeAmount request) nativeMin with
      | Throw e => (Throw e, s1)
      | Ok true =>
          (Throw (SwapBelowLimitError Godex.swapInfo nativeMin (quoted_side request)), s1)
      | Ok false =>
          if Godex.network_missing (Godex.networks_from reply) (Godex.fromMainnetCode codes)
             || Godex.network_missing (Godex.networks_to reply) (Godex.toMainnetCode codes)
          then (Throw (SwapCurrencyError Godex.swapInfo
                         (Godex.fromCurrencyCode request) (Godex.toCurrencyCode request)), s1)
          else create_order request opts (fst addresses) (snd addresses) codes
                 (if Godex.is_from (Godex.quoteFor request) then Some quoteAmount else None)
                 (if Godex.is_from (Godex.quoteFor request) then None else Some quoteAmount)
                 s1
      end
  end.
Proof.
  intros (Haddr & Hden & r & raw & Hfetch & Hok & Hjson & Hclean) s1 codes.
  unfold Godex.fetchSwapQuoteInner.
  unfold bind at 1. unfold lift at 1. rewrite Haddr.
  unfold bind at 1. unfold lift at 1. rewrite Hden.
  unfold bind at 1. rewrite call_run. fold (info_url request).
  rewrite Hfetch. cbn [fst snd]. rewrite Hok, Hjson. cbn [negb].
  unfold bind at 1. unfold lift at 1. rewrite Hclean.
  unfold bind at 1. unfold lift at 1. fold (native_minimum request reply).
  fold s1.
  destruct (native_minimum request reply) as [nativeMin | e]; [|reflexivity].
  unfold bind at 1. unfold lift at 1.
  destruct (biggystring.lt _ nativeMin) as [[|] | e]; try reflexivity.
  destruct (_ || _); reflexivity.
Qed.

End GodexFacts.

(* ================================================================== *)
(** * Properties of the earlier godex plugin                            *)
(* ================================================================== *)

Section GodexLegacyFacts.

Context (W : Type)
  (fetchCors : string -> FetchOptions -> W -> result FetchResponse * W)
  (dateNow : W -> Z)
  (initOptions : GodexLegacy.InitOptions)
  (EdgeTransaction EdgeSwapQuote : Type)
  (makeSpend : EdgeCurrencyWallet -> GodexLegacy.EdgeSpendInfo -> result EdgeTransaction)
  (checkInvalidCodes :
     Godex.InvalidCurrencyCodes -> GodexLegacy.EdgeSwapRequest -> EdgeSwapInfo -> result unit)
  (getCodesWithTranscription :
     GodexLegacy.EdgeSwapRequest -> gmap string string -> Godex.MainnetCodes)
  (makeSwapPluginQuote : GodexLegacy.QuoteArgs EdgeTransaction -> EdgeSwapQuote).

#[local] Abbreviation legacy_call := (GodexLegacy.call W fetchCors).
#[local] Abbreviation calculate_amounts := (GodexLegacy.calculate_amounts W fetchCors).
#[local] Abbreviation legacy_fetchSwapQuote :=
  (GodexLegacy.fetchSwapQuote W fetchCors dateNow initOptions EdgeTransaction
     EdgeSwapQuote makeSpend checkInvalidCodes getCodesWithTranscription
     makeSwapPluginQuote).

Lemma legacy_call_run url request params s :
  legacy_call url request params s =
  (match fst (fetchCors url (post_json params) (Io.world s)) with
   | Throw e => Throw e
   | Ok r =>
       if negb (ok r) then
         if (status r =? 422)%N then
           Throw (SwapCurrencyError GodexLegacy.swapInfo
                    (GodexLegacy.fromCurrencyCode request)
                    (GodexLegacy.toCurrencyCode request))
         else Throw (Error ("godex returned error code " ++ biggystring.print_N (status r)))
       else json_body r
   end,
   sent s (snd (fetchCors url (post_json params) (Io.world s))) url params).
Proof.
  unfold GodexLegacy.call, bind, Io.fetch, throw, lift, sent, post_json.
  destruct (fetchCors _ _ _) as [[r | e] w']; cbn [fst snd]; [|reflexivity].
  destruct (negb (ok r)); [|reflexivity].
  destruct (status r =? 422)%N; reflexivity.
Qed.

Definition legacy_info_url (request : GodexLegacy.EdgeSwapRequest) : string :=
  GodexLegacy.uri ++
  (if Godex.is_from (GodexLegacy.quoteFor request) then "info" else "info-revert").

(** The earlier plugin treats every request that is not quoted on the
    'from' side as a reverse quote. *)
Definition legacy_quoted_side (request : GodexLegacy.EdgeSwapRequest) : SwapDirection :=
  if Godex.is_from (GodexLegacy.quoteFor request) then DirFrom else DirTo.

Definition legacy_native_minimum (request : GodexLegacy.EdgeSwapRequest)
    (reply : GodexLegacy.ApiInfo) : result string :=
  if Godex.is_from (GodexLegacy.quoteFor request)
  then denominationToNative (GodexLegacy.fromWallet request)
         (GodexLegacy.min_amount reply) (GodexLegacy.fromCurrencyCode request)
  else denominationToNative (GodexLegacy.toWallet request)
         (GodexLegacy.min_amount reply) (GodexLegacy.toCurrencyCode request).

(** The amounts the block "Calculate the amounts" ends with once the
    minimum check has passed. *)
Definition legacy_amounts (request : GodexLegacy.EdgeSwapRequest) (quoteAmount : string)
    (reply : GodexLegacy.ApiInfo) : result GodexLegacy.Amounts :=
  if Godex.is_from (GodexLegacy.quoteFor request) then
    match denominationToNative (GodexLegacy.toWallet request)
            (GodexLegacy.amount reply) (GodexLegacy.toCurrencyCode request) with
    | Ok toNative =>
        Ok {| GodexLegacy.fromAmount := quoteAmount;
              GodexLegacy.fromNativeAmount := GodexLegacy.nativeAmount request;
              GodexLegacy.toNativeAmount := toNative |}
    | Throw e => Throw e
    end
  else
    match denominationToNative (GodexLegacy.fromWallet request)
            (GodexLegacy.amount reply) (GodexLegacy.fromCurrencyCode request) with
    | Ok fromNative =>
        Ok {| GodexLegacy.fromAmount := GodexLegacy.amount reply;
              GodexLegacy.fromNativeAmount := fromNative;
              GodexLegacy.toNativeAmount := GodexLegacy.nativeAmount request |}
    | Throw e => Throw e
    end.

(** The backend declared [reply] to the earlier plugin: the currency
    check passed, the addresses were resolved, the amount was converted to
    [quoteAmount], and the request to [info] or [info-revert] was answered
    with an OK response whose body cleans to [reply]. *)
Definition legacy_info_declared (request : GodexLegacy.EdgeSwapRequest) (s : Io.State W)
    (quoteAmount : string) (reply : GodexLegacy.ApiInfo) (w1 : W) : Prop :=
  checkInvalidCodes GodexLegacy.INVALID_CURRENCY_CODES request GodexLegacy.swapInfo = Ok tt /\
  (exists addresses, GodexLegacy.both_addresses request = Ok addresses) /\
  (if Godex.is_from (GodexLegacy.quoteFor request)
   then nativeToDenomination (GodexLegacy.fromWallet request)
          (GodexLegacy.nativeAmount request) (GodexLegacy.fromCurrencyCode request)
   else nativeToDenomination (GodexLegacy.toWallet request)
          (GodexLegacy.nativeAmount request) (GodexLegacy.toCurrencyCode request))
    = Ok quoteAmount /\
  exists r raw,
    fetchCors (legacy_info_url request)
      (post_json (GodexLegacy.quoteParams request quoteAmount)) (Io.world s) = (Ok r, w1) /\
    ok r = true /\ json_body r = Ok raw /\ GodexLegacy.asApiInfo (Some raw) = Ok reply.

Lemma calculate_amounts_after_info request s quoteAmount reply w1 :
  legacy_info_declared request s quoteAmount reply w1 ->
  let s1 := sent s w1 (legacy_info_url request)
              (GodexLegacy.quoteParams request quoteAmount) in
  calculate_amounts request quoteAmount s =
  match legacy_native_minimum request reply with
  | Throw e => (Throw e, s1)
  | Ok nativeMin =>
      match biggystring.lt (GodexLegacy.nativeAmount request) nativeMin with
      | Throw e => (Throw e, s1)
      | Ok true =>
          (Throw (SwapBelowLimitError GodexLegacy.swapInfo nativeMin
                    (legacy_quoted_side request)), s1)
      | Ok false => (legacy_amounts request quoteAmount reply, s1)
      end
  end.
Proof.
  intros (_ & _ & _ & r & raw & Hfetch & Hok & Hjson & Hclean) s1.
  unfold GodexLegacy.calculate_amounts, legacy_native_minimum, legacy_quoted_side,
    legacy_amounts, legacy_info_url in *.
  destruct (Godex.is_from (GodexLegacy.quoteFor request)).
  - unfold bind at 1. rewrite legacy_call_run, Hfetch. cbn [fst snd].
    rewrite Hok, Hjson. cbn [negb].
    unfold bind at 1. unfold lift at 1. rewrite Hclean.
    unfold bind at 1. unfold lift at 1. fold s1.
    destruct (denominationToNative _ (GodexLegacy.min_amount reply) _)
      as [nativeMin | e]; [|reflexivity].
    unfold bind at 1. unfold lift at 1.
    destruct (biggystring.lt _ nativeMin) as [[|] | e]; try reflexivity.
    unfold bind, lift, ret.
    destruct (denominationToNative _ (GodexLegacy.amount reply) _); reflexivity.
  - unfold bind at 1. rewrite legacy_call_run, Hfetch. cbn [fst snd].
    rewrite Hok, Hjson. cbn [negb].
    unfold bind at 1. unfold lift at 1. rewrite Hclean.
    unfold bind at 1. unfold lift at 1. fold s1.
    destruct (denominationToNative _ (GodexLegacy.min_amount reply) _)
      as [nativeMin | e]; [|reflexivity].
    unfold bind at 1. unfold lift at 1.
    destruct (biggystring.lt _ nativeMin) as [[|] | e]; try reflexivity.
    unfold bind, lift, ret.
    destruct (denominationToNative _ (GodexLegacy.amount reply) _); reflexivity.
Qed.

(** A rejection in "Calculate the amounts" is the rejection of
    [fetchSwapQuote], and nothing is sent after it. *)
Lemma legacy_rejection_propagates request opts s quoteAmount reply w1 e s1 :
  legacy_info_declared request s quoteAmount reply w1 ->
  calculate_amounts request quoteAmount s = (Throw e, s1) ->
  legacy_fetchSwapQuote request opts s = (Throw e, s1).
Proof.
  intros (Hcodes & (addresses & Haddr) & Hden & _) Hcalc.
  unfold GodexLegacy.fetchSwapQuote.
  unfold bind at 1. unfold lift at 1. rewrite Hcodes.
  unfold bind at 1. unfold lift at 1. rewrite Haddr.
  unfold bind at 1. unfold lift at 1. rewrite Hden.
  unfold bind at 1. rewrite Hcalc. reflexivity.
Qed.

End GodexLegacyFacts.

(* ================================================================== *)
(** * The minimum check and the fetch helper, in both versions          *)
(* ================================================================== *)

Lemma lt_below x1 x2 a b :
  biggystring.parse x1 = Some a -> biggystring.parse x2 = Some b ->
  (biggystring.value a < biggystring.value b)%Q ->
  biggystring.lt x1 x2 = Ok true.
Proof.
  intros Ha Hb Hlt. rewrite (biggystring.lt_spec _ _ _ _ Ha Hb).
  destruct (Qlt_le_dec _ _) as [_ | Hle]; [reflexivity|].
  exfalso. exact (Qlt_not_le _ _ Hlt Hle).
Qed.

Lemma lt_not_below x1 x2 a b :
  biggystring.parse x1 = Some a -> biggystring.parse x2 = Some b ->
  (biggystring.value b <= biggystring.value a)%Q ->
  biggystring.lt x1 x2 = Ok false.
Proof.
  intros Ha Hb Hle. rewrite (biggystring.lt_spec _ _ _ _ Ha Hb).
  destruct (Qlt_le_dec _ _) as [Hlt | _]; [|reflexivity].
  exfalso. exact (Qlt_not_le _ _ Hlt Hle).
Qed.

(** Neither [info] nor [info-revert] is an order-creation call. *)
Lemma order_calls_sent_info {W} (s : Io.State W) w1 (from : bool) params :
  order_calls (sent s w1 (Godex.uri ++ (if from then "info" else "info-revert")) params)
  = order_calls s.
Proof.
  unfold order_calls, sent. cbn [Io.requests].
  rewrite List.filter_app.
  replace (List.filter is_order_creation [_]) with (@nil FetchCall).
  - apply app_nil_r.
  - destruct from; vm_compute; reflexivity.
Qed.

Section BothVersions.

Context (W : Type)
  (fetchCors : string -> FetchOptions -> W -> result FetchResponse * W)
  (dateNow : W -> Z).

(** Collaborators of the current plugin. *)
Context (initOptions : Godex.InitOptions)
  (getAddress : EdgeCurrencyWallet -> result string)
  (memoType : string -> string)
  (getCodesWithTranscription :
     Godex.EdgeSwapRequestPlugin -> gmap string string -> Godex.MainnetCodes).

(** Collaborators of the earlier plugin. *)
Context (legacyOptions : GodexLegacy.InitOptions)
  (EdgeTransaction EdgeSwapQuote : Type)
  (makeSpend : EdgeCurrencyWallet -> GodexLegacy.EdgeSpendInfo -> result EdgeTransaction)
  (checkInvalidCodes :
     Godex.InvalidCurrencyCodes -> GodexLegacy.EdgeSwapRequest -> EdgeSwapInfo -> result unit)
  (legacyCodes :
     GodexLegacy.EdgeSwapRequest -> gmap string string -> Godex.MainnetCodes)
  (makeSwapPluginQuote : GodexLegacy.QuoteArgs EdgeTransaction -> EdgeSwapQuote).

#[local] Abbreviation fetchSwapQuoteInner :=
  (Godex.fetchSwapQuoteInner W fetchCors dateNow initOptions getAddress memoType
     getCodesWithTranscription).
#[local] Abbreviation create_order :=
  (Godex.create_order W fetchCors dateNow initOptions memoType).
#[local] Abbreviation legacy_fetchSwapQuote :=
  (GodexLegacy.fetchSwapQuote W fetchCors dateNow legacyOptions EdgeTransaction
     EdgeSwapQuote makeSpend checkInvalidCodes legacyCodes makeSwapPluginQuote).

(** C1.  Once the backend has declared a minimum and the wallet has
    converted it to [nativeMin], a request whose native amount is strictly
    below it is rejected with [SwapBelowLimitError] carrying [nativeMin]
    and the quoted side, and no order-creation request is sent; a request
    whose amount equals the minimum goes on to the next step (the network
    check and the order in the current plugin, the conversion of the quoted
    amount in the earlier one).  First conjunct: [fetchSwapQuoteInner] of
    the current plugin; second conjunct: [fetchSwapQuote] of the earlier
    one. *)
Theorem below_minimum_is_rejected :
  (forall request opts s addresses quoteAmount reply w1 nativeMin amount minimum,
     info_declared W fetchCors getAddress request s addresses quoteAmount reply w1 ->
     native_minimum request reply = Ok nativeMin ->
     biggystring.parse (Godex.nativeAmount request) = Some amount ->
     biggystring.parse nativeMin = Some minimum ->
     let run := fetchSwapQuoteInner request opts s in
     let s1 := sent s w1 (info_url request) (Godex.quoteParams request quoteAmount) in
     let codes := getCodesWithTranscription request Godex.MAINNET_CODE_TRANSCRIPTION in
     ((biggystring.value amount < biggystring.value minimum)%Q ->
      fst run = Throw (SwapBelowLimitError Godex.swapInfo nativeMin (quoted_side request)) /\
      order_calls (snd run) = order_calls s) /\
     ((biggystring.value amount == biggystring.value minimum)%Q ->
      run =
      if Godex.network_missing (Godex.networks_from reply) (Godex.fromMainnetCode codes)
         || Godex.network_missing (Godex.networks_to reply) (Godex.toMainnetCode codes)
      then (Throw (SwapCurrencyError Godex.swapInfo
                     (Godex.fromCurrencyCode request) (Godex.toCurrencyCode request)), s1)
      else create_order request opts (fst addresses) (snd addresses) codes
             (if Godex.is_from (Godex.quoteFor request) then Some quoteAmount else None)
             (if Godex.is_from (Godex.quoteFor request) then None else Some quoteAmount)
             s1))
  /\
  (forall request opts s quoteAmount reply w1 nativeMin amount minimum,
     legacy_info_declared W fetchCors checkInvalidCodes request s quoteAmount reply w1 ->
     legacy_native_minimum request reply = Ok nativeMin ->
     biggystring.parse (GodexLegacy.nativeAmount request) = Some amount ->
     biggystring.parse nativeMin = Some minimum ->
     let run := legacy_fetchSwapQuote request opts s in
     let s1 := sent s w1 (legacy_info_url request)
                 (GodexLegacy.quoteParams request quoteAmount) in
     ((biggystring.value amount < biggystring.value minimum)%Q ->
      fst run = Throw (SwapBelowLimitError GodexLegacy.swapInfo nativeMin
                         (legacy_quoted_side request)) /\
      order_calls (snd run) = order_calls s) /\
     ((biggystring.value amount == biggystring.value minimum)%Q ->
      GodexLegacy.calculate_amounts W fetchCors request quoteAmount s =
      (legacy_amounts request quoteAmount reply, s1))).
Proof.
  split.
  - intros request opts s addresses quoteAmount reply w1 nativeMin amount minimum
      Hinfo Hmin Hamount Hminimum run s1 codes.
    pose proof (inner_after_info W fetchCors dateNow initOptions getAddress memoType
                  getCodesWithTranscription request opts s addresses quoteAmount
                  reply w1 Hinfo) as Hrun.
    cbv zeta in Hrun. fold run in Hrun. rewrite Hmin in Hrun. split.
    + intros Hlt. rewrite (lt_below _ _ _ _ Hamount Hminimum Hlt) in Hrun.
      rewrite Hrun. cbn [fst snd]. split; [reflexivity|].
      unfold info_url. apply order_calls_sent_info.
    + intros Heq.
      rewrite (lt_not_below _ _ amount minimum) in Hrun; auto.
      rewrite Heq. apply Qle_refl.
  - intros request opts s quoteAmount reply w1 nativeMin amount minimum
      Hinfo Hmin Hamount Hminimum run s1.
    pose proof (calculate_amounts_after_info W fetchCors checkInvalidCodes
                  request s quoteAmount reply w1 Hinfo) as Hcalc.
    cbv zeta in Hcalc. rewrite Hmin in Hcalc. split.
    + intros Hlt. rewrite (lt_below _ _ _ _ Hamount Hminimum Hlt) in Hcalc.
      subst run.
      rewrite (legacy_rejection_propagates W fetchCors dateNow legacyOptions
                 EdgeTransaction EdgeSwapQuote makeSpend checkInvalidCodes legacyCodes
                 makeSwapPluginQuote request opts s quoteAmount reply w1 _ _ Hinfo Hcalc).
      cbn [fst snd]. split; [reflexivity|].
      unfold legacy_info_url. apply order_calls_sent_info.
    + intros Heq.
      rewrite (lt_not_below _ _ amount minimum) in Hcalc; auto.
      rewrite Heq. apply Qle_refl.
Qed.

(** C2.  In both versions the fetch helper [call] sends exactly one
    request per invocation and classifies its outcome: status 422 raises
    [SwapCurrencyError], any other reply that is not OK raises an [Error]
    whose message carries the status code, an OK reply gives the parsed
    body (see [classifies_reply]). *)
Theorem call_classifies_every_reply :
  (forall request,
     classifies_reply fetchCors
       (fun url params => Godex.call W fetchCors url request params)
       (SwapCurrencyError Godex.swapInfo
          (Godex.fromCurrencyCode request) (Godex.toCurrencyCode request)))
  /\
  (forall request,
     classifies_reply fetchCors
       (fun url params => GodexLegacy.call W fetchCors url request params)
       (SwapCurrencyError GodexLegacy.swapInfo
          (GodexLegacy.fromCurrencyCode request) (GodexLegacy.toCurrencyCode request))).
Proof.
  split; intros request url params s out res; subst res.
  - rewrite call_run. fold out. cbn [fst snd sent Io.requests Io.world].
    split; [reflexivity|]. split; [reflexivity|]. split.
    + intros e ->. reflexivity.
    + intros r ->. split; [|split].
      * intros Hst. unfold ok. rewrite Hst. reflexivity.
      * intros Hok Hst. rewrite Hok. cbn [negb].
        apply N.eqb_neq in Hst. rewrite Hst.
        split; [reflexivity | apply biggystring.digits_acc_print_N].
      * intros Hok. now rewrite Hok.
  - rewrite legacy_call_run. fold out. cbn [fst snd sent Io.requests Io.world].
    split; [reflexivity|]. split; [reflexivity|]. split.
    + intros e ->. reflexivity.
    + intros r ->. split; [|split].
      * intros Hst. unfold ok. rewrite Hst. reflexivity.
      * intros Hok Hst. rewrite Hok. cbn [negb].
        apply N.eqb_neq in Hst. rewrite Hst.
        split; [reflexivity | apply biggystring.digits_acc_print_N].
      * intros Hok. now rewrite Hok.
Qed.

End BothVersions.

(* ================================================================== *)
(** * The assembled amounts, the missing maximum and the network check  *)
(* ================================================================== *)

Lemma bind_ok_inv {St A B} (m : M St A) (k : A -> M St B) s b s' :
  bind m k s = (Ok b, s') ->
  exists a s1, m s = (Ok a, s1) /\ k a s1 = (Ok b, s').
Proof.
  unfold bind. destruct (m s) as [[a | e] s1]; [|discriminate].
  intros H. now exists a, s1.
Qed.

Lemma lift_bind_ok_inv {St A B} (r : result A) (k : A -> M St B) s b s' :
  bind (lift r) k s = (Ok b, s') ->
  exists a, r = Ok a /\ k a s = (Ok b, s').
Proof.
  unfold bind, lift. destruct r as [a | e]; [|discriminate].
  intros H. now exists a.
Qed.

(** The text [text] is the decimal [x] with its fraction cut off: an
    integer string that lies between zero and [x].  For an amount that is
    not negative this is the floor: not above [x] and less than one below
    it.  For a negative number, which no amount of the data model is, it
    is the ceiling: not below [x] and less than one above it. *)
Definition truncated (text : string) (x : biggystring.dec) : Prop :=
  exists n : Z,
    text = biggystring.print_int n /\
    biggystring.parse text = Some (biggystring.mkDec n 0) /\
    ((0 <= biggystring.value x)%Q ->
     0 <= n /\
     (inject_Z n <= biggystring.value x)%Q /\
     (biggystring.value x < inject_Z (n + 1))%Q) /\
    ((biggystring.value x <= 0)%Q ->
     n <= 0 /\
     (biggystring.value x <= inject_Z n)%Q /\
     (inject_Z (n - 1) < biggystring.value x)%Q).

Lemma floor0_truncated converted text :
  biggystring.floor0 converted = Ok text ->
  exists x, biggystring.parse converted = Some x /\ truncated text x.
Proof.
  intros H. destruct (biggystring.parse converted) as [x|] eqn:Hx.
  - rewrite (biggystring.floor0_spec _ _ Hx) in H. injection H as <-.
    exists x. split; [reflexivity|]. exists (biggystring.trunc x).
    split; [reflexivity|]. split; [apply biggystring.parse_print_int|]. split.
    + intros Hpos. rewrite (biggystring.trunc_nonneg _ Hpos).
      split; [|split; [apply Qfloor_le | apply Qlt_floor]].
      change 0 with (Qfloor 0). now apply Qfloor_resp_le.
    + intros Hneg. rewrite (biggystring.trunc_nonpos _ Hneg).
      split; [|split; [apply Qle_ceiling | apply Qceiling_lt]].
      change 0 with (Qceiling 0). now apply Qceiling_resp_le.
  - unfold biggystring.floor0 in H. rewrite Hx in H. discriminate.
Qed.

Section Assembly.

Context (W : Type)
  (fetchCors : string -> FetchOptions -> W -> result FetchResponse * W)
  (dateNow : W -> Z)
  (initOptions : Godex.InitOptions)
  (getAddress : EdgeCurrencyWallet -> result string)
  (memoType : string -> string)
  (getCodesWithTranscription :
     Godex.EdgeSwapRequestPlugin -> gmap string string -> Godex.MainnetCodes).

#[local] Abbreviation call := (Godex.call W fetchCors).
#[local] Abbreviation create_order :=
  (Godex.create_order W fetchCors dateNow initOptions memoType).
#[local] Abbreviation fetchSwapQuoteInner :=
  (Godex.fetchSwapQuoteInner W fetchCors dateNow initOptions getAddress memoType
     getCodesWithTranscription).

(** A swap order can only come out of the second half of
    [fetchSwapQuoteInner]. *)
Lemma inner_ok_inv request opts s order s' :
  fetchSwapQuoteInner request opts s = (Ok order, s') ->
  exists fromAddress toAddress codes fromAmount toAmount s1,
    create_order request opts fromAddress toAddress codes fromAmount toAmount s1
    = (Ok order, s').
Proof.
  unfold Godex.fetchSwapQuoteInner. intros H.
  apply lift_bind_ok_inv in H as (addresses & _ & H).
  apply lift_bind_ok_inv in H as (quoteAmount & _ & H).
  apply bind_ok_inv in H as (response & s1 & _ & H).
  apply lift_bind_ok_inv in H as (reply & _ & H).
  apply lift_bind_ok_inv in H as (nativeMin & _ & H).
  apply lift_bind_ok_inv in H as (below & _ & H).
  destruct below; [discriminate|].
  destruct (_ || _); [discriminate|].
  eauto 10.
Qed.

Lemma create_order_ok_inv request opts fromAddress toAddress codes fromAmount toAmount
    s order s' :
  create_order request opts fromAddress toAddress codes fromAmount toAmount s
  = (Ok order, s') ->
  exists url params sendReply quoteInfo fromConverted toConverted,
    call url request params s = (Ok sendReply, s') /\
    Godex.asQuoteInfo (Some sendReply) = Ok quoteInfo /\
    denominationToNative (Godex.fromWallet request)
      (Godex.deposit_amount quoteInfo) (Godex.fromCurrencyCode request) = Ok fromConverted /\
    denominationToNative (Godex.toWallet request)
      (Godex.withdrawal_amount quoteInfo) (Godex.toCurrencyCode request) = Ok toConverted /\
    biggystring.floor0 fromConverted = Ok (Godex.fromNativeAmount order) /\
    biggystring.floor0 toConverted
    = Ok (Godex.asset_nativeAmount
            (Godex.toAsset (Godex.savedAction (Godex.spendInfo order)))) /\
    Godex.spendTargets (Godex.spendInfo order)
    = [ {| Godex.target_nativeAmount := Godex.fromNativeAmount order;
           Godex.target_publicAddress := Godex.deposit quoteInfo |} ] /\
    Godex.asset_nativeAmount (Godex.fromAsset (Godex.savedAction (Godex.spendInfo order)))
    = Godex.fromNativeAmount order.
Proof.
  unfold Godex.create_order. intros H.
  apply bind_ok_inv in H as (sendReply & s2 & Hcall & H).
  apply lift_bind_ok_inv in H as (quoteInfo & Hclean & H).
  apply lift_bind_ok_inv in H as (fromConverted & Hfrom & H).
  apply lift_bind_ok_inv in H as (fromNative & Hffloor & H).
  apply lift_bind_ok_inv in H as (toConverted & Hto & H).
  apply lift_bind_ok_inv in H as (toNative & Htfloor & H).
  unfold bind, Io.Date_now, ret in H. injection H as <- <-.
  eexists _, _, sendReply, quoteInfo, fromConverted, toConverted.
  cbn. repeat split; eauto.
Qed.

(** C3.  Whenever [fetchSwapQuoteInner] returns a swap order, its amounts
    are the wallet runtime's conversions of the backend's [deposit_amount]
    and [withdrawal_amount] with the fraction cut off: [quoteInfo] is the
    cleaned reply of the order-creation call, [fromConverted] and
    [toConverted] are what [denominationToNative] made of the two amounts,
    and the order's [fromNativeAmount] (also the amount of its spend
    target) and the [toAsset] amount are the integer strings [truncated]
    from them.  For the non-negative amounts of the data model the result
    is never above the converted value and less than one unit below it;
    the cleaner accepts any string, and a converted value below zero is
    cut toward zero as well, which there means upward. *)
Theorem quote_amounts_are_truncated request opts s order s' :
  fetchSwapQuoteInner request opts s = (Ok order, s') ->
  exists url params s1 sendReply quoteInfo fromConverted toConverted x y,
    call url request params s1 = (Ok sendReply, s') /\
    Godex.asQuoteInfo (Some sendReply) = Ok quoteInfo /\
    denominationToNative (Godex.fromWallet request)
      (Godex.deposit_amount quoteInfo) (Godex.fromCurrencyCode request) = Ok fromConverted /\
    denominationToNative (Godex.toWallet request)
      (Godex.withdrawal_amount quoteInfo) (Godex.toCurrencyCode request) = Ok toConverted /\
    biggystring.parse fromConverted = Some x /\
    biggystring.parse toConverted = Some y /\
    truncated (Godex.fromNativeAmount order) x /\
    truncated (Godex.asset_nativeAmount
                 (Godex.toAsset (Godex.savedAction (Godex.spendInfo order)))) y /\
    map Godex.target_nativeAmount (Godex.spendTargets (Godex.spendInfo order))
    = [Godex.fromNativeAmount order].
Proof.
  intros H.
  apply inner_ok_inv in H as (fromAddress & toAddress & codes & fromAmount & toAmount & s1 & H).
  apply create_order_ok_inv in H
    as (url & params & sendReply & quoteInfo & fromConverted & toConverted
        & Hcall & Hclean & Hfrom & Hto & Hffloor & Htfloor & Htargets & _).
  apply floor0_truncated in Hffloor as (x & Hx & Hfx).
  apply floor0_truncated in Htfloor as (y & Hy & Hfy).
  exists url, params, s1, sendReply, quoteInfo, fromConverted, toConverted, x, y.
  rewrite Htargets. do 8 (split; [assumption|]). reflexivity.
Qed.

End Assembly.

(** A computation that leaves the world and the list of requests as
    they are. *)
Definition preserves {St A} (m : M St A) : Prop := forall s, snd (m s) = s.

Lemma preserves_lift {St A} (r : result A) : preserves (St := St) (lift r).
Proof. intros s. reflexivity. Qed.

Lemma preserves_ret {St A} (a : A) : preserves (St := St) (ret a).
Proof. intros s. reflexivity. Qed.

Lemma preserves_bind {St A B} (m : M St A) (k : A -> M St B) :
  preserves m -> (forall a, preserves (k a)) -> preserves (bind m k).
Proof.
  intros Hm Hk s. unfold bind. specialize (Hm s).
  destruct (m s) as [[a | e] s1]; cbn in *; subst; [apply Hk | reflexivity].
Qed.

Lemma bind_snd {St A B} (m : M St A) (k : A -> M St B) s :
  (forall a, preserves (k a)) -> snd (bind m k s) = snd (m s).
Proof.
  intros Hk. unfold bind. destruct (m s) as [[a | e] s1]; cbn; [apply Hk | reflexivity].
Qed.

Lemma network_missing_spec l code :
  Godex.network_missing l code = true <->
  forall entries, l = Some entries -> ~ In code (map Godex.network entries).
Proof.
  unfold Godex.network_missing. destruct l as [entries|].
  - destruct (find _ entries) as [n|] eqn:Hfind.
    + split; [discriminate|]. intros H. exfalso.
      apply find_some in Hfind as [Hin Heq]. apply String.eqb_eq in Heq.
      apply (H entries eq_refl). rewrite <- Heq. now apply in_map.
    + split; [|reflexivity]. intros _ entries' [= <-] Hin.
      apply in_map_iff in Hin as (n & Hn & Hin).
      pose proof (find_none _ _ Hfind n Hin) as Hneq. cbn in Hneq.
      rewrite Hn, String.eqb_refl in Hneq. discriminate.
  - split; [|reflexivity]. intros _ entries [=].
Qed.

Lemma bind_throw_inv {St A B} (m : M St A) (k : A -> M St B) s e :
  fst (bind m k s) = Throw e ->
  fst (m s) = Throw e \/ exists a, fst (m s) = Ok a /\ fst (k a (snd (m s))) = Throw e.
Proof.
  unfold bind. destruct (m s) as [[a | e0] s1]; cbn; intros H;
    [right; eauto | left; congruence].
Qed.

Lemma lift_bind_throw_inv {St A B} (r : result A) (k : A -> M St B) s e :
  fst (bind (lift r) k s) = Throw e ->
  r = Throw e \/ exists a, r = Ok a /\ fst (k a s) = Throw e.
Proof.
  unfold bind, lift. destruct r as [a | e0]; cbn; intros H;
    [right; eauto | left; congruence].
Qed.

(** The cleaners reject with a [TypeError] and with nothing else. *)
Lemma asObject_raw_throws raw e :
  cleaners.asObject_raw raw = Throw e -> exists msg, e = TypeError msg.
Proof. unfold cleaners.asObject_raw. destruct raw as [[]|]; intros [= <-]; eauto. Qed.

Lemma asString_throws raw e :
  cleaners.asString raw = Throw e -> exists msg, e = TypeError msg.
Proof. unfold cleaners.asString. destruct raw as [[]|]; intros [= <-]; eauto. Qed.

Lemma asNumberString_throws raw e :
  asNumberString raw = Throw e -> exists msg, e = TypeError msg.
Proof.
  unfold asNumberString, cleaners.asEither, cleaners.asString, cleaners.asNumber.
  destruct raw as [[]|]; intros [= <-]; eauto.
Qed.

Lemma asStringOrNull_throws raw e :
  cleaners.asStringOrNull raw = Throw e -> exists msg, e = TypeError msg.
Proof.
  unfold cleaners.asStringOrNull, cleaners.asEither, cleaners.asString, cleaners.asNull.
  destruct raw as [[]|]; intros [= <-]; eauto.
Qed.

Ltac cleaner_throws :=
  repeat match goal with
    | |- result_bind ?r _ = Throw _ -> _ =>
        let H := fresh "H" in
        destruct r eqn:H; cbn [result_bind];
        [| intros [= <-];
           eauto using asObject_raw_throws, asString_throws, asNumberString_throws,
             asStringOrNull_throws ]
    end.

Lemma asApiInfo_throws raw e :
  Godex.asApiInfo raw = Throw e -> exists msg, e = TypeError msg.
Proof.
  unfold Godex.asApiInfo. cleaner_throws.
  - discriminate.
  - unfold cleaners.asMaybe in *.
    match goal with H : match ?c with _ => _ end = Throw _ |- _ => now destruct c end.
  - unfold cleaners.asMaybe in *.
    match goal with H : match ?c with _ => _ end = Throw _ |- _ => now destruct c end.
Qed.

Lemma asQuoteInfo_throws raw e :
  Godex.asQuoteInfo raw = Throw e -> exists msg, e = TypeError msg.
Proof. unfold Godex.asQuoteInfo. cleaner_throws. discriminate. Qed.

Lemma lt_throws x1 x2 e :
  biggystring.lt x1 x2 = Throw e -> e = biggystring.invalid_number.
Proof.
  unfold biggystring.lt.
  destruct (biggystring.parse x1), (biggystring.parse x2); now intros [= <-].
Qed.

Lemma floor0_throws x1 e :
  biggystring.floor0 x1 = Throw e -> e = biggystring.invalid_number.
Proof. unfold biggystring.floor0. destruct (biggystring.parse x1); now intros [= <-]. Qed.

Section LimitsAndNetworks.

Context (W : Type)
  (fetchCors : string -> FetchOptions -> W -> result FetchResponse * W)
  (dateNow : W -> Z)
  (initOptions : Godex.InitOptions)
  (getAddress : EdgeCurrencyWallet -> result string)
  (memoType : string -> string)
  (getCodesWithTranscription :
     Godex.EdgeSwapRequestPlugin -> gmap string string -> Godex.MainnetCodes)
  (checkInvalidCodes :
     Godex.InvalidCurrencyCodes -> Godex.EdgeSwapRequestPlugin -> EdgeSwapInfo -> result unit)
  (EdgeSwapRequest EdgeSwapQuote : Type)
  (convertRequest : EdgeSwapRequest -> Godex.EdgeSwapRequestPlugin)
  (getMaxSwappable :
     (Godex.EdgeSwapRequestPlugin -> Godex.QuoteOpts -> M (Io.State W) Godex.SwapOrder) ->
     Godex.EdgeSwapRequestPlugin -> Godex.QuoteOpts ->
     M (Io.State W) Godex.EdgeSwapRequestPlugin)
  (makeSwapPluginQuote : Godex.SwapOrder -> M (Io.State W) EdgeSwapQuote).

#[local] Abbreviation create_order :=
  (Godex.create_order W fetchCors dateNow initOptions memoType).
#[local] Abbreviation fetchSwapQuoteInner :=
  (Godex.fetchSwapQuoteInner W fetchCors dateNow initOptions getAddress memoType
     getCodesWithTranscription).
#[local] Abbreviation fetchSwapQuote :=
  (Godex.fetchSwapQuote W fetchCors dateNow initOptions getAddress memoType
     getCodesWithTranscription checkInvalidCodes EdgeSwapRequest EdgeSwapQuote
     convertRequest getMaxSwappable makeSwapPluginQuote).

(** The second half of [fetchSwapQuoteInner] sends exactly one request,
    the order-creation call. *)
Lemma create_order_sends request opts fromAddress toAddress codes fromAmount toAmount s :
  exists c,
    is_order_creation c = true /\
    Io.requests (snd (create_order request opts fromAddress toAddress codes
                        fromAmount toAmount s))
    = (Io.requests s ++ [c])%list.
Proof.
  unfold Godex.create_order.
  rewrite bind_snd.
  - rewrite call_run. cbn [snd sent Io.requests].
    eexists. split; [|reflexivity].
    unfold is_order_creation. cbn [call_url].
    destruct (Godex.is_to (Godex.quoteFor request)), (Godex.promoCode opts);
      vm_compute; reflexivity.
  - intros sendReply.
    repeat (apply preserves_bind; [apply preserves_lift | intros ?]).
    apply preserves_bind; [intros s0; reflexivity | intros now].
    apply preserves_ret.
Qed.

(** The rejections [fetchSwapQuoteInner] and the libraries it calls make
    themselves: the limit error of the minimum check, the unsupported-pair
    error of [call] and of the network check, the error of [call] for any
    other status, the [TypeError] of a cleaner and the number-format error
    of biggystring.  The only limit violation among them is
    [SwapBelowLimitError]. *)
Definition plugin_rejection (request : Godex.EdgeSwapRequestPlugin) (e : JsError) : Prop :=
  (exists nativeMin,
     e = SwapBelowLimitError Godex.swapInfo nativeMin (quoted_side request)) \/
  e = SwapCurrencyError Godex.swapInfo
        (Godex.fromCurrencyCode request) (Godex.toCurrencyCode request) \/
  (exists status, e = Error ("godex returned error code " ++ biggystring.print_N status)) \/
  (exists msg, e = TypeError msg) \/
  e = biggystring.invalid_number.

(** The error [e] was raised by a collaborator: by [getAddress] or a
    conversion of one of the two wallets, by [fetchCors], or by the
    [json()] of a response. *)
Definition raised_outside (request : Godex.EdgeSwapRequestPlugin) (e : JsError) : Prop :=
  (exists wallet,
     (wallet = Godex.fromWallet request \/ wallet = Godex.toWallet request) /\
     (getAddress wallet = Throw e \/
      (exists amount code, nativeToDenomination wallet amount code = Throw e) \/
      (exists amount code, denominationToNative wallet amount code = Throw e))) \/
  (exists url options w,
     fst (fetchCors url options w) = Throw e \/
     exists response,
       fst (fetchCors url options w) = Ok response /\ json_body response = Throw e).

Lemma call_rejection url request params s e :
  fst (Godex.call W fetchCors url request params s) = Throw e ->
  plugin_rejection request e \/ raised_outside request e.
Proof.
  rewrite call_run. cbn [fst].
  destruct (fetchCors url (post_json params) (Io.world s)) as [[r | e0] w'] eqn:Hfetch;
    cbn [fst].
  - destruct (negb (ok r)).
    + destruct (status r =? 422)%N; intros [= <-]; left.
      * right. now left.
      * right. right. left. now exists (status r).
    + intros Hjson. right. right.
      exists url, (post_json params), (Io.world s). right.
      exists r. now rewrite Hfetch.
  - intros [= <-]. right. right.
    exists url, (post_json params), (Io.world s). left. now rewrite Hfetch.
Qed.

Lemma create_order_rejection request opts fromAddress toAddress codes fromAmount toAmount
    s e :
  fst (create_order request opts fromAddress toAddress codes fromAmount toAmount s)
  = Throw e ->
  plugin_rejection request e \/ raised_outside request e.
Proof.
  unfold Godex.create_order. intros H.
  apply bind_throw_inv in H as [H | (sendReply & _ & H)];
    [now apply call_rejection in H|].
  apply lift_bind_throw_inv in H as [H | (quoteInfo & _ & H)].
  { left. do 3 right. left. now apply asQuoteInfo_throws in H. }
  apply lift_bind_throw_inv in H as [H | (fromConverted & _ & H)].
  { right. left. exists (Godex.fromWallet request). split; [now left|]. right. right. eauto. }
  apply lift_bind_throw_inv in H as [H | (fromNative & _ & H)].
  { left. do 4 right. now apply floor0_throws in H. }
  apply lift_bind_throw_inv in H as [H | (toConverted & _ & H)].
  { right. left. exists (Godex.toWallet request). split; [now right|]. right. right. eauto. }
  apply lift_bind_throw_inv in H as [H | (toNative & _ & H)].
  { left. do 4 right. now apply floor0_throws in H. }
  unfold bind, Io.Date_now, ret in H. cbn in H. discriminate.
Qed.

(** Every rejection of [fetchSwapQuoteInner] is one of its own or was
    raised by a collaborator. *)
Lemma inner_rejection request opts s e :
  fst (fetchSwapQuoteInner request opts s) = Throw e ->
  plugin_rejection request e \/ raised_outside request e.
Proof.
  unfold Godex.fetchSwapQuoteInner. intros H.
  apply lift_bind_throw_inv in H as [H | (addresses & _ & H)].
  { right. left. unfold Godex.both_addresses in H.
    destruct (getAddress (Godex.fromWallet request)) as [a | e1] eqn:Hfrom.
    - destruct (getAddress (Godex.toWallet request)) as [b | e2] eqn:Hto; [discriminate|].
      injection H as <-. exists (Godex.toWallet request). split; [now right | now left].
    - injection H as <-. exists (Godex.fromWallet request). split; [now left | now left]. }
  apply lift_bind_throw_inv in H as [H | (quoteAmount & _ & H)].
  { right. left. destruct (Godex.is_from (Godex.quoteFor request)).
    - exists (Godex.fromWallet request). split; [now left|]. right. left. eauto.
    - exists (Godex.toWallet request). split; [now right|]. right. left. eauto. }
  apply bind_throw_inv in H as [H | (response & _ & H)];
    [now apply call_rejection in H|].
  apply lift_bind_throw_inv in H as [H | (reply & _ & H)].
  { left. do 3 right. left. now apply asApiInfo_throws in H. }
  apply lift_bind_throw_inv in H as [H | (nativeMin & _ & H)].
  { right. left. destruct (Godex.is_to (Godex.quoteFor request)).
    - exists (Godex.toWallet request). split; [now right|]. right. right. eauto.
    - exists (Godex.fromWallet request). split; [now left|]. right. right. eauto. }
  apply lift_bind_throw_inv in H as [H | (below & _ & H)].
  { left. do 4 right. now apply lt_throws in H. }
  destruct below.
  { left. left. exists nativeMin. unfold throw in H. cbn in H. injection H as <-.
    unfold quoted_side. now destruct (Godex.is_to (Godex.quoteFor request)). }
  destruct (_ || _).
  { left. right. left. unfold throw in H. cbn in H. now injection H as <-. }
  now apply create_order_rejection in H.
Qed.

(** C6, as amended.  godex declares no maximum to the plugin.
    - The cleaner of the info reply reads [min_amount] and the two network
      lists and nothing else: two replies that agree on these three members
      clean alike, whatever else they carry, a maximum included.
    - A request whose amount is not below the minimum is never rejected for
      its size: the run goes on to the network check and, when the networks
      are listed, sends the order-creation call.
    - Every rejection of [fetchSwapQuoteInner] was raised by a collaborator
      and passed on, or is a [plugin_rejection], of which
      [SwapBelowLimitError] is the only limit violation.
    - So a run that ends in [SwapAboveLimitError] has received that error
      from a collaborator. *)
Theorem only_the_minimum_is_enforced :
  (forall fields1 fields2,
     get_prop (JObject fields1) "min_amount" = get_prop (JObject fields2) "min_amount" ->
     get_prop (JObject fields1) "networks_from"
     = get_prop (JObject fields2) "networks_from" ->
     get_prop (JObject fields1) "networks_to" = get_prop (JObject fields2) "networks_to" ->
     Godex.asApiInfo (Some (JObject fields1)) = Godex.asApiInfo (Some (JObject fields2)))
  /\
  (forall request opts s addresses quoteAmount reply w1 nativeMin amount minimum,
     info_declared W fetchCors getAddress request s addresses quoteAmount reply w1 ->
     native_minimum request reply = Ok nativeMin ->
     biggystring.parse (Godex.nativeAmount request) = Some amount ->
     biggystring.parse nativeMin = Some minimum ->
     (biggystring.value minimum <= biggystring.value amount)%Q ->
     let run := fetchSwapQuoteInner request opts s in
     let s1 := sent s w1 (info_url request) (Godex.quoteParams request quoteAmount) in
     let codes := getCodesWithTranscription request Godex.MAINNET_CODE_TRANSCRIPTION in
     let listed :=
       negb (Godex.network_missing (Godex.networks_from reply) (Godex.fromMainnetCode codes)
             || Godex.network_missing (Godex.networks_to reply) (Godex.toMainnetCode codes)) in
     run =
     (if listed
      then create_order request opts (fst addresses) (snd addresses) codes
             (if Godex.is_from (Godex.quoteFor request) then Some quoteAmount else None)
             (if Godex.is_from (Godex.quoteFor request) then None else Some quoteAmount)
             s1
      else (Throw (SwapCurrencyError Godex.swapInfo
                     (Godex.fromCurrencyCode request) (Godex.toCurrencyCode request)), s1)) /\
     (listed = true ->
      exists c, is_order_creation c = true /\
                Io.requests (snd run) = (Io.requests s1 ++ [c])%list))
  /\
  (forall request opts s e,
     fst (fetchSwapQuoteInner request opts s) = Throw e ->
     plugin_rejection request e \/ raised_outside request e)
  /\
  (forall request opts s info nativeMax direction,
     fst (fetchSwapQuoteInner request opts s)
     = Throw (SwapAboveLimitError info nativeMax direction) ->
     raised_outside request (SwapAboveLimitError info nativeMax direction)).
Proof.
  split; [|split; [|split]].
  - intros fields1 fields2 Hmin Hfrom Hto.
    unfold Godex.asApiInfo. cbn [cleaners.asObject_raw result_bind].
    now rewrite Hmin, Hfrom, Hto.
  - intros request opts s addresses quoteAmount reply w1 nativeMin amount minimum
      Hinfo Hmin Hamount Hminimum Hle run s1 codes listed.
    pose proof (inner_after_info W fetchCors dateNow initOptions getAddress memoType
                  getCodesWithTranscription request opts s addresses quoteAmount
                  reply w1 Hinfo) as Hrun.
    cbv zeta in Hrun. fold run in Hrun.
    rewrite Hmin, (lt_not_below _ _ _ _ Hamount Hminimum Hle) in Hrun.
    fold codes s1 in Hrun.
    assert (Hrun' : run =
      if listed
      then create_order request opts (fst addresses) (snd addresses) codes
             (if Godex.is_from (Godex.quoteFor request) then Some quoteAmount else None)
             (if Godex.is_from (Godex.quoteFor request) then None else Some quoteAmount)
             s1
      else (Throw (SwapCurrencyError Godex.swapInfo
                     (Godex.fromCurrencyCode request) (Godex.toCurrencyCode request)), s1)).
    { rewrite Hrun. subst listed. now destruct (_ || _). }
    split; [exact Hrun'|].
    intros Hlisted. rewrite Hrun', Hlisted. apply create_order_sends.
  - exact inner_rejection.
  - intros request opts s info nativeMax direction Hrun.
    destruct (inner_rejection _ _ _ _ Hrun)
      as [[(nativeMin & H) | [H | [(status & H) | [(msg & H) | H]]]] | H];
      try discriminate H.
    exact H.
Qed.


(** Once the two currency checks have passed and the resolver of 'max'
    requests has returned the request to quote, a rejection of
    [fetchSwapQuoteInner] is the rejection of [fetchSwapQuote]. *)
Lemma fetchSwapQuote_rejection req opts s newRequest s0 e s1 :
  let request := convertRequest req in
  checkInvalidCodes Godex.INVALID_CURRENCY_CODES request Godex.swapInfo = Ok tt ->
  Godex.checkWhitelistedMainnetCodes Godex.MAINNET_CODE_TRANSCRIPTION request Godex.swapInfo
    = Ok tt ->
  getMaxSwappable fetchSwapQuoteInner request opts s = (Ok newRequest, s0) ->
  fetchSwapQuoteInner newRequest opts s0 = (Throw e, s1) ->
  fetchSwapQuote req opts s = (Throw e, s1).
Proof.
  intros request Hcodes Hlisted Hmax Hinner.
  unfold Godex.fetchSwapQuote. fold request.
  unfold bind at 1. unfold lift at 1. rewrite Hcodes.
  unfold bind at 1. unfold lift at 1. rewrite Hlisted.
  unfold bind at 1. rewrite Hmax.
  unfold bind at 1. rewrite Hinner. reflexivity.
Qed.

End LimitsAndNetworks.

(* ================================================================== *)
(** * Properties of the earlier plugin's address helper                 *)
(* ================================================================== *)

(** [getAddress] for every currency code that is not the name of a member
    of [Object.prototype]: the legacy address when the wallet gives one and
    the code is not DGB, the public address otherwise. *)
Lemma getAddress_spec wallet currencyCode info :
  getReceiveAddress wallet (Some currencyCode) = Ok info ->
  currencyCode ∉ Object_prototype_members ->
  GodexLegacy.getAddress wallet currencyCode =
  Ok (match legacyAddress info with
      | Some legacy => if decide (currencyCode = "DGB") then publicAddress info else legacy
      | None => publicAddress info
      end).
Proof.
  intros Hinfo Hname. unfold GodexLegacy.getAddress, result_bind. rewrite Hinfo.
  destruct (legacyAddress info) as [legacy|]; [|reflexivity].
  unfold truthy_member, GodexLegacy.dontUseLegacy.
  destruct (decide (currencyCode = "DGB")) as [-> | Hne].
  - reflexivity.
  - rewrite lookup_singleton_ne by congruence.
    now rewrite bool_decide_eq_false_2.
Qed.

(** [getAddress] on the bitcoin wallet of the scenario. *)
Lemma getAddress_scenario :
  GodexLegacy.getAddress Scenario.btc "BTC" = Ok "1LegacyFrom".
Proof.
  apply (getAddress_spec Scenario.btc "BTC"
           {| publicAddress := "bc1qfrom"; legacyAddress := Some "1LegacyFrom" |}).
  - reflexivity.
  - apply (bool_decide_unpack _). vm_compute. exact I.
Defined.

(** C10 fails on a currency code that names a member of
    [Object.prototype]: [dontUseLegacy] has no own member 'constructor',
    the wallet supplies a legacy address, and [getAddress] returns the
    public address, because [dontUseLegacy['constructor']] is the inherited
    constructor function, which is truthy. *)
Lemma getAddress_inherited_member :
  GodexLegacy.dontUseLegacy !! "constructor" = None /\
  getReceiveAddress Scenario.btc (Some "constructor")
    = Ok {| publicAddress := "bc1qfrom"; legacyAddress := Some "1LegacyFrom" |} /\
  GodexLegacy.getAddress Scenario.btc "constructor" = Ok "bc1qfrom" /\
  GodexLegacy.getAddress Scenario.btc "BTC" = Ok "1LegacyFrom" /\
  GodexLegacy.getAddress Scenario.btc "DGB" = Ok "bc1qfrom".
Proof. repeat split; vm_compute; reflexivity. Qed.

(* ================================================================== *)
(** * Round trip of the Amount Converter                                *)
(* ================================================================== *)

Lemma print_int_of_N n : biggystring.print_int (Z.of_N n) = biggystring.print_N n.
Proof.
  unfold biggystring.print_int.
  destruct (Z.ltb_spec (Z.of_N n) 0) as [Hneg | _]; [lia|].
  f_equal. lia.
Qed.

Lemma parse_print_N n :
  biggystring.parse (biggystring.print_N n) = Some (biggystring.mkDec (Z.of_N n) 0).
Proof. rewrite <- print_int_of_N. apply biggystring.parse_print_int. Qed.

(** C4.  For every non-negative native amount and every number of
    decimal places, converting the amount to its denomination and the
    denomination back to native units gives the amount again: the
    denomination denotes exactly [amount / 10^decimals], and nothing is
    lost on the way back. *)
Theorem conversion_round_trip (amount : N) (decimals : nat) :
  exists denomination,
    AmountConverter.toDenomination (biggystring.print_N amount) decimals = Ok denomination /\
    biggystring.parse denomination = Some (biggystring.mkDec (Z.of_N amount) decimals) /\
    AmountConverter.denominationToNative denomination decimals
      = Ok (biggystring.print_N amount) /\
    AmountConverter.toNative denomination decimals = Ok (biggystring.print_N amount).
Proof.
  exists (biggystring.print_dec (biggystring.mkDec (Z.of_N amount) decimals)).
  assert (Hback : AmountConverter.denominationToNative
                    (biggystring.print_dec (biggystring.mkDec (Z.of_N amount) decimals))
                    decimals = Ok (biggystring.print_N amount)).
  { unfold AmountConverter.denominationToNative, biggystring.mul_pow10.
    rewrite biggystring.parse_print_dec. cbn [biggystring.scale biggystring.mant].
    rewrite Nat.leb_refl, Nat.sub_diag. unfold biggystring.pow10. cbn [Z.of_nat Z.pow].
    now rewrite Z.mul_1_r, print_int_of_N. }
  split; [|split; [|split]].
  - unfold AmountConverter.toDenomination, biggystring.div_pow10.
    now rewrite parse_print_N.
  - apply biggystring.parse_print_dec.
  - exact Hback.
  - unfold AmountConverter.toNative, result_bind. rewrite Hback.
    unfold biggystring.floor0. rewrite parse_print_N.
    cbn [biggystring.scale biggystring.mant]. unfold biggystring.pow10.
    cbn [Z.of_nat Z.pow]. now rewrite Z.quot_1_r, print_int_of_N.
Qed.

(** One bitcoin: 100000000 native units are 1.00000000 BTC and back. *)
Example one_bitcoin :
  AmountConverter.toDenomination "100000000" 8 = Ok "1.00000000" /\
  AmountConverter.toNative "1.00000000" 8 = Ok "100000000".
Proof. split; reflexivity. Qed.

(* ================================================================== *)
(** * Properties of the totle quote and of its execution                *)
(* ================================================================== *)

(** The wallet calls of an execution that handles the transactions of
    [txs] in order from position [i] on: each transaction is signed, the
    signed transaction is broadcast and then saved, and only then is the
    next one taken up; the first call that is rejected is the last call. *)
Inductive in_order (txs : list Totle.EdgeTransaction) : nat -> list Totle.WalletCall -> Prop :=
| in_order_done i :
    (length txs <= i)%nat -> in_order txs i []
| in_order_sign_rejected i tx e :
    txs !! i = Some tx ->
    in_order txs i [Totle.SignTx i tx (Throw e)]
| in_order_broadcast_rejected i tx signed e :
    txs !! i = Some tx ->
    in_order txs i [Totle.SignTx i tx (Ok signed); Totle.BroadcastTx i signed (Throw e)]
| in_order_save_rejected i tx signed swapTx e :
    txs !! i = Some tx ->
    in_order txs i [Totle.SignTx i tx (Ok signed); Totle.BroadcastTx i signed (Ok swapTx);
                    Totle.SaveTx i signed (Throw e)]
| in_order_next i tx signed swapTx rest :
    txs !! i = Some tx ->
    in_order txs (S i) rest ->
    in_order txs i (Totle.SignTx i tx (Ok signed) :: Totle.BroadcastTx i signed (Ok swapTx)
                    :: Totle.SaveTx i signed (Ok tt) :: rest).

Lemma in_order_schedule txs i new :
  in_order txs i new -> map call_step new `prefix_of` schedule i (length txs - i).
Proof.
  induction 1 as [i Hi | i tx e Hi | i tx signed e Hi | i tx signed swapTx e Hi
                  | i tx signed swapTx rest Hi _ IH].
  - apply prefix_nil.
  - apply lookup_lt_Some in Hi.
    replace (length txs - i)%nat with (S (length txs - S i)) by lia. cbn.
    apply prefix_cons, prefix_nil.
  - apply lookup_lt_Some in Hi.
    replace (length txs - i)%nat with (S (length txs - S i)) by lia. cbn.
    do 2 apply prefix_cons. apply prefix_nil.
  - apply lookup_lt_Some in Hi.
    replace (length txs - i)%nat with (S (length txs - S i)) by lia. cbn.
    do 3 apply prefix_cons. apply prefix_nil.
  - apply lookup_lt_Some in Hi.
    replace (length txs - i)%nat with (S (length txs - S i)) by lia. cbn.
    do 3 apply prefix_cons. exact IH.
Qed.

Lemma in_order_rejected_last txs i new :
  in_order txs i new ->
  forall pre c post e, new = (pre ++ c :: post)%list -> call_error c = Some e -> post = [].
Proof.
  induction 1 as [i Hi | i tx e0 Hi | i tx signed e0 Hi | i tx signed swapTx e0 Hi
                  | i tx signed swapTx rest Hi _ IH];
    intros pre c post e Hnew Herr.
  - now destruct pre.
  - destruct pre as [|c0 pre]; [now injection Hnew as <- <- |].
    injection Hnew as _ Hnew. now destruct pre.
  - destruct pre as [|c0 pre]; [injection Hnew as <- _; discriminate|].
    injection Hnew as _ Hnew.
    destruct pre as [|c1 pre]; [now injection Hnew as <- <- |].
    injection Hnew as _ Hnew. now destruct pre.
  - destruct pre as [|c0 pre]; [injection Hnew as <- _; discriminate|].
    injection Hnew as _ Hnew.
    destruct pre as [|c1 pre]; [injection Hnew as <- _; discriminate|].
    injection Hnew as _ Hnew.
    destruct pre as [|c2 pre]; [now injection Hnew as <- <- |].
    injection Hnew as _ Hnew. now destruct pre.
  - destruct pre as [|c0 pre]; [injection Hnew as <- _; discriminate|].
    injection Hnew as _ Hnew.
    destruct pre as [|c1 pre]; [injection Hnew as <- _; discriminate|].
    injection Hnew as _ Hnew.
    destruct pre as [|c2 pre]; [injection Hnew as <- _; discriminate|].
    injection Hnew as _ Hnew.
    exact (IH pre c post e Hnew Herr).
Qed.

Section TotleFacts.

Context {W : Type}.
Implicit Types (q : Totle.EdgeSwapQuote W) (s : Totle.State W).

(** The state after one more wallet call. *)
Definition logged s (w' : W) (c : Totle.WalletCall) : Totle.State W :=
  {| Totle.world := w'; Totle.txs_now := Totle.txs_now s;
     Totle.calls := (Totle.calls s ++ [c])%list |}.

(** The state after the assignment to [nativeAmount], made only at the
    last position. *)
Definition assigned q (len index : nat) (tx : Totle.EdgeTransaction) s : Totle.State W :=
  if (index =? len - 1)%nat
  then {| Totle.world := Totle.world s;
          Totle.txs_now :=
            <[index := Totle.set_nativeAmount tx ("-" ++ Totle.fromNativeAmount q)]>
              (Totle.txs_now s);
          Totle.calls := Totle.calls s |}
  else s.

(** One iteration of the loop of [approve]. *)
Lemma approve_loop_cons q len tx rest index swapTx s :
  Totle.approve_loop q len (tx :: rest) index swapTx s =
  let wallet := Totle.quote_fromWallet q in
  let r1 := Totle.signTx wallet tx (Totle.world s) in
  let s1 := logged s (snd r1) (Totle.SignTx index tx (fst r1)) in
  match fst r1 with
  | Throw e => (Throw e, s1)
  | Ok signed =>
      let r2 := Totle.broadcastTx wallet signed (Totle.world s1) in
      let s2 := logged s1 (snd r2) (Totle.BroadcastTx index signed (fst r2)) in
      match fst r2 with
      | Throw e => (Throw e, s2)
      | Ok swapTx' =>
          let s3 := assigned q len index tx s2 in
          let r3 := Totle.saveTx wallet signed (Totle.world s3) in
          let s4 := logged s3 (snd r3) (Totle.SaveTx index signed (fst r3)) in
          match fst r3 with
          | Throw e => (Throw e, s4)
          | Ok _ => Totle.approve_loop q len rest (S index) (Some swapTx') s4
          end
      end
  end.
Proof.
  cbn [Totle.approve_loop].
  unfold bind, Totle.wallet_call, logged, assigned, Totle.assign_nativeAmount, ret.
  cbv zeta. cbn [Totle.world Totle.txs_now Totle.calls].
  destruct (Totle.signTx _ tx _) as [[signed | e] w1];
    cbn [fst snd Totle.world Totle.txs_now Totle.calls]; [|reflexivity].
  destruct (Totle.broadcastTx _ signed w1) as [[swapTx' | e] w2];
    cbn [fst snd Totle.world Totle.txs_now Totle.calls]; [|reflexivity].
  destruct (index =? len - 1)%nat; cbn [fst snd Totle.world Totle.txs_now Totle.calls];
    destruct (Totle.saveTx _ signed w2) as [[[] | e] w3]; reflexivity.
Qed.

Lemma assigned_calls q len index tx s :
  Totle.calls (assigned q len index tx s) = Totle.calls s.
Proof. unfold assigned. now destruct (index =? len - 1)%nat. Qed.

Lemma assigned_world q len index tx s :
  Totle.world (assigned q len index tx s) = Totle.world s.
Proof. unfold assigned. now destruct (index =? len - 1)%nat. Qed.

(** The calls of the loop are those of an in-order execution of the
    transactions it iterates over; when one is rejected, the loop ends
    with that rejection. *)
Lemma approve_loop_in_order q len txs : forall rest index swapTx s,
  drop index txs = rest ->
  let res := Totle.approve_loop q len rest index swapTx s in
  exists new,
    Totle.calls (snd res) = (Totle.calls s ++ new)%list /\
    in_order txs index new /\
    (forall c e, c ∈ new -> call_error c = Some e -> fst res = Throw e).
Proof.
  induction rest as [|tx rest IH]; intros index swapTx s Hdrop res.
  - exists []. subst res. cbn. rewrite app_nil_r. split; [reflexivity|]. split.
    + constructor. destruct (decide (length txs <= index)%nat) as [|Hlt]; [assumption|].
      exfalso. apply (f_equal length) in Hdrop. rewrite length_drop in Hdrop. cbn in Hdrop. lia.
    + intros c e Hin. now apply elem_of_nil in Hin.
  - assert (Htx : txs !! index = Some tx).
    { rewrite <- (Nat.add_0_r index), <- lookup_drop, Hdrop. reflexivity. }
    assert (Hrest : drop (S index) txs = rest).
    { replace (S index) with (index + 1)%nat by lia.
      rewrite <- drop_drop, Hdrop. reflexivity. }
    subst res. rewrite approve_loop_cons. cbv zeta.
    destruct (Totle.signTx _ tx _) as [[signed | e1] w1]; cbn [fst snd].
    2:{ eexists [_]. cbn. split; [reflexivity|]. split; [now constructor|].
        intros c e Hin Herr. apply list_elem_of_singleton in Hin. subst c.
        cbn in Herr. congruence. }
    destruct (Totle.broadcastTx _ signed _) as [[swapTx' | e2] w2]; cbn [fst snd].
    2:{ eexists [_; _]. cbn. rewrite <- app_assoc. split; [reflexivity|].
        split; [now constructor|].
        intros c e Hin Herr. apply elem_of_cons in Hin as [-> | Hin]; [discriminate|].
        apply list_elem_of_singleton in Hin. subst c. cbn in Herr. congruence. }
    destruct (Totle.saveTx _ signed _) as [[[] | e3] w3]; cbn [fst snd].
    2:{ eexists [_; _; _]. cbn. rewrite assigned_calls. cbn.
        rewrite <- !app_assoc. split; [reflexivity|].
        split; [now constructor|].
        intros c e Hin Herr. apply elem_of_cons in Hin as [-> | Hin]; [discriminate|].
        apply elem_of_cons in Hin as [-> | Hin]; [discriminate|].
        apply list_elem_of_singleton in Hin. subst c. cbn in Herr. congruence. }
    match goal with
    | |- context [Totle.approve_loop q len rest (S index) ?sw ?st] =>
        destruct (IH (S index) sw st Hrest) as (new & Hcalls & Horder & Herrs)
    end.
    eexists (_ :: _ :: _ :: new). split; [|split].
    + rewrite Hcalls. cbn. rewrite assigned_calls. cbn. rewrite <- !app_assoc. reflexivity.
    + now constructor.
    + intros c e Hin Herr.
      apply elem_of_cons in Hin as [-> | Hin]; [discriminate|].
      apply elem_of_cons in Hin as [-> | Hin]; [discriminate|].
      apply elem_of_cons in Hin as [-> | Hin]; [discriminate|].
      exact (Herrs c e Hin Herr).
Qed.

(** A run of the loop that ends well has signed, broadcast and saved
    the last transaction it iterated over, and returns what the broadcast
    of that transaction returned. *)
Lemma approve_loop_ok q len : forall rest index swapTx s out s',
  Totle.approve_loop q len rest index swapTx s = (Ok out, s') ->
  match last rest with
  | None => out = swapTx /\ s' = s
  | Some tx =>
      exists signed swapTx' pre,
        let j := (index + length rest - 1)%nat in
        out = Some swapTx' /\
        Totle.calls s' =
        (Totle.calls s ++ pre ++
         [Totle.SignTx j tx (Ok signed); Totle.BroadcastTx j signed (Ok swapTx');
          Totle.SaveTx j signed (Ok tt)])%list
  end.
Proof.
  induction rest as [|tx rest IH]; intros index swapTx s out s' Hrun.
  - cbn in *. unfold ret in Hrun. now injection Hrun as <- <-.
  - rewrite approve_loop_cons in Hrun. cbv zeta in Hrun.
    destruct (Totle.signTx _ tx _) as [[signed | e1] w1]; cbn [fst snd] in Hrun;
      [|discriminate].
    destruct (Totle.broadcastTx _ signed _) as [[swapTx' | e2] w2]; cbn [fst snd] in Hrun;
      [|discriminate].
    destruct (Totle.saveTx _ signed _) as [[[] | e3] w3]; cbn [fst snd] in Hrun;
      [|discriminate].
    apply IH in Hrun. destruct rest as [|tx2 rest].
    + cbn in Hrun. destruct Hrun as [-> ->]. cbn [last].
      exists signed, swapTx', []. cbv zeta. split; [reflexivity|].
      cbn [logged Totle.calls length]. rewrite assigned_calls. cbn [logged Totle.calls].
      replace (index + 1 - 1)%nat with index by lia.
      rewrite <- !app_assoc. reflexivity.
    + change (last (tx :: tx2 :: rest)) with (last (tx2 :: rest)).
      destruct (last (tx2 :: rest)) as [lastTx|] eqn:Hlast.
      * destruct Hrun as (signed' & out' & pre & -> & Hcalls).
        exists signed', out',
          (Totle.SignTx index tx (Ok signed) :: Totle.BroadcastTx index signed (Ok swapTx')
           :: Totle.SaveTx index signed (Ok tt) :: pre).
        cbv zeta. split; [reflexivity|]. rewrite Hcalls.
        cbn [logged Totle.calls]. rewrite assigned_calls. cbn [logged Totle.calls length].
        replace (S index + S (length rest) - 1)%nat
          with (index + S (S (length rest)) - 1)%nat by lia.
        rewrite <- !app_assoc. reflexivity.
      * exfalso. clear -Hlast. revert tx2 Hlast.
        induction rest as [|tx3 rest IHr]; intros tx2 Hlast; [discriminate|].
        exact (IHr tx3 Hlast).
Qed.



(** C5.  The wallet calls of [approve] are those of an in-order execution
    of the transactions ([in_order]): they follow the schedule sign,
    broadcast, save for position 0, then for position 1, and so on; a call
    that is rejected is the last call made, so no later transaction is
    signed or broadcast, and [approve] is rejected with the same error. *)
Theorem approve_runs_in_order q s :
  let res := Totle.approve q s in
  exists new,
    Totle.calls (snd res) = (Totle.calls s ++ new)%list /\
    in_order (Totle.txs_now s) 0 new /\
    map call_step new `prefix_of` schedule 0 (length (Totle.txs_now s)) /\
    (forall pre c post e,
       new = (pre ++ c :: post)%list -> call_error c = Some e ->
       post = [] /\ fst res = Throw e).
Proof.
  intros res.
  destruct (approve_loop_in_order q (length (Totle.txs_now s)) (Totle.txs_now s)
              (Totle.txs_now s) 0%nat None s eq_refl)
    as (new & Hcalls & Horder & Herrs).
  cbv zeta in Hcalls, Herrs.
  assert (Hres : snd res = snd (Totle.approve_loop q (length (Totle.txs_now s))
                                  (Totle.txs_now s) 0 None s) /\
                 forall e, fst (Totle.approve_loop q (length (Totle.txs_now s))
                                  (Totle.txs_now s) 0 None s) = Throw e ->
                           fst res = Throw e).
  { subst res. unfold Totle.approve, bind.
    destruct (Totle.approve_loop _ _ _ _ _ _) as [[[swapTx|] | e] s1]; cbn;
      split; try reflexivity; intros e0 [=]. now subst. }
  destruct Hres as [Hsnd Hfst].
  exists new. rewrite Hsnd. split; [exact Hcalls|]. split; [exact Horder|]. split.
  - pose proof (in_order_schedule _ _ _ Horder) as Hsched.
    now rewrite Nat.sub_0_r in Hsched.
  - intros pre c post e Hnew Herr. split.
    + exact (in_order_rejected_last _ _ _ Horder pre c post e Hnew Herr).
    + apply Hfst, (Herrs c e); [|exact Herr].
      rewrite Hnew. apply elem_of_app. right. apply elem_of_cons. now left.
Qed.

(** [q] with another expiration date. *)
Definition with_expiration q (expirationDate : option Z) : Totle.EdgeSwapQuote W :=
  {| Totle.fromNativeAmount := Totle.fromNativeAmount q;
     Totle.toNativeAmount := Totle.toNativeAmount q;
     Totle.quote_networkFee := Totle.quote_networkFee q;
     Totle.destinationAddress := Totle.destinationAddress q;
     Totle.quote_pluginId := Totle.quote_pluginId q;
     Totle.expirationDate := expirationDate;
     Totle.isEstimate := Totle.isEstimate q;
     Totle.quote_fromWallet := Totle.quote_fromWallet q;
     Totle.quote_txs := Totle.quote_txs q |}.

Lemma approve_loop_with_expiration q expirationDate len : forall rest index swapTx s,
  Totle.approve_loop (with_expiration q expirationDate) len rest index swapTx s
  = Totle.approve_loop q len rest index swapTx s.
Proof.
  induction rest as [|tx rest IH]; intros index swapTx s; [reflexivity|].
  rewrite !approve_loop_cons. cbv zeta. cbn [with_expiration Totle.quote_fromWallet].
  destruct (Totle.signTx _ tx _) as [[signed | e1] w1]; cbn [fst snd]; [|reflexivity].
  destruct (Totle.broadcastTx _ signed _) as [[swapTx' | e2] w2]; cbn [fst snd];
    [|reflexivity].
  change (assigned (with_expiration q expirationDate) len index tx)
    with (assigned q len index tx).
  destruct (Totle.saveTx _ signed _) as [[[] | e3] w3]; cbn [fst snd]; [|reflexivity].
  apply IH.
Qed.

(** [approve] ends in the state in which its loop ends. *)
Lemma approve_snd q s :
  snd (Totle.approve q s)
  = snd (Totle.approve_loop q (length (Totle.txs_now s)) (Totle.txs_now s) 0 None s).
Proof.
  unfold Totle.approve, bind.
  now destruct (Totle.approve_loop _ _ _ _ _ _) as [[[swapTx|] | e] s1].
Qed.

Lemma approve_loop_extends q len : forall rest index swapTx s,
  exists new,
    Totle.calls (snd (Totle.approve_loop q len rest index swapTx s))
    = (Totle.calls s ++ new)%list.
Proof.
  induction rest as [|tx rest IH]; intros index swapTx s.
  - exists []. cbn. now rewrite app_nil_r.
  - rewrite approve_loop_cons. cbv zeta.
    destruct (Totle.signTx _ tx _) as [[signed | e1] w1]; cbn [fst snd].
    2:{ eexists [_]. reflexivity. }
    destruct (Totle.broadcastTx _ signed _) as [[swapTx' | e2] w2]; cbn [fst snd].
    2:{ eexists [_; _]. cbn. now rewrite <- app_assoc. }
    destruct (Totle.saveTx _ signed _) as [[[] | e3] w3]; cbn [fst snd].
    2:{ eexists [_; _; _]. cbn. rewrite assigned_calls. cbn. now rewrite <- !app_assoc. }
    match goal with
    | |- context [Totle.approve_loop q len rest (S index) ?sw ?st] =>
        destruct (IH (S index) sw st) as (new & Hcalls)
    end.
    rewrite Hcalls. eexists (_ :: _ :: _ :: new). cbn. rewrite assigned_calls. cbn.
    now rewrite <- !app_assoc.
Qed.

(** C7, as amended.  [approve] does not look at the expiration date of
    the quote: a quote with transactions to execute starts by signing the
    first of them whatever its expiration date and whatever the time, and
    its execution is the same for every expiration date. *)
Theorem approve_ignores_expiration q s tx rest :
  Totle.txs_now s = tx :: rest ->
  (exists more,
     Totle.calls (snd (Totle.approve q s)) =
     (Totle.calls s ++
      Totle.SignTx 0 tx (fst (Totle.signTx (Totle.quote_fromWallet q) tx (Totle.world s)))
      :: more)%list) /\
  (forall expirationDate,
     Totle.approve (with_expiration q expirationDate) s = Totle.approve q s).
Proof.
  intros Htxs. split.
  - rewrite approve_snd, Htxs, approve_loop_cons. cbv zeta.
    destruct (Totle.signTx _ tx _) as [[signed | e1] w1]; cbn [fst snd].
    2:{ exists []. reflexivity. }
    destruct (Totle.broadcastTx _ signed _) as [[swapTx' | e2] w2]; cbn [fst snd].
    2:{ eexists [_]. cbn. now rewrite <- app_assoc. }
    destruct (Totle.saveTx _ signed _) as [[[] | e3] w3]; cbn [fst snd].
    2:{ eexists [_; _]. cbn. rewrite assigned_calls. cbn. now rewrite <- !app_assoc. }
    match goal with
    | |- context [Totle.approve_loop q ?len rest 1 ?sw ?st] =>
        destruct (approve_loop_extends q len rest 1%nat sw st) as (new & Hcalls)
    end.
    rewrite Hcalls. eexists (_ :: _ :: new). cbn. rewrite assigned_calls. cbn.
    now rewrite <- !app_assoc.
  - intros expirationDate. unfold Totle.approve, bind.
    rewrite approve_loop_with_expiration.
    destruct (Totle.approve_loop _ _ _ _ _ _) as [[[swapTx|] | e] s1]; reflexivity.
Qed.


(** A run of the loop that is rejected ends on the wallet call that was
    rejected, with its error; the calls before it were all granted. *)
Lemma approve_loop_rejected q len : forall rest index swapTx s e s',
  Totle.approve_loop q len rest index swapTx s = (Throw e, s') ->
  exists pre c,
    Totle.calls s' = (Totle.calls s ++ pre ++ [c])%list /\
    call_error c = Some e /\
    Forall (fun c0 => call_error c0 = None) pre.
Proof.
  induction rest as [|tx rest IH]; intros index swapTx s e s' Hrun.
  - cbn in Hrun. unfold ret in Hrun. discriminate.
  - rewrite approve_loop_cons in Hrun. cbv zeta in Hrun.
    destruct (Totle.signTx _ tx _) as [[signed | e1] w1]; cbn [fst snd] in Hrun.
    2:{ injection Hrun as <- <-. exists [], (Totle.SignTx index tx (Throw e1)).
        repeat split. constructor. }
    destruct (Totle.broadcastTx _ signed _) as [[swapTx' | e2] w2]; cbn [fst snd] in Hrun.
    2:{ injection Hrun as <- <-.
        exists [Totle.SignTx index tx (Ok signed)],
          (Totle.BroadcastTx index signed (Throw e2)).
        cbn. rewrite <- !app_assoc. repeat split. repeat constructor. }
    destruct (Totle.saveTx _ signed _) as [[[] | e3] w3]; cbn [fst snd] in Hrun.
    2:{ injection Hrun as <- <-.
        exists [Totle.SignTx index tx (Ok signed);
                Totle.BroadcastTx index signed (Ok swapTx')],
          (Totle.SaveTx index signed (Throw e3)).
        cbn. rewrite assigned_calls. cbn. rewrite <- !app_assoc.
        repeat split. repeat constructor. }
    apply IH in Hrun as (pre & c & Hcalls & Herr & Hpre).
    exists (Totle.SignTx index tx (Ok signed) :: Totle.BroadcastTx index signed (Ok swapTx')
            :: Totle.SaveTx index signed (Ok tt) :: pre), c.
    split; [|split; [exact Herr | repeat constructor; exact Hpre]].
    rewrite Hcalls. cbn [logged Totle.calls]. rewrite assigned_calls.
    cbn [logged Totle.calls]. rewrite <- !app_assoc. reflexivity.
Qed.

(** The execution of a quote fails only when the wallet does.  A quote
    that [makeTotleSwapPluginQuote] built has at least one transaction, so
    when [approve] is run on it and rejected, the last wallet call made
    was rejected, with the error [approve] is rejected with, and every
    call before it was granted: the rejection with ['No Totle swapTx']
    is never the plugin's own. *)
Theorem approve_fails_only_with_the_wallet request fromNativeAmount toNativeAmount txs
    destinationAddress isEstimate expirationDate q w e s' :
  Totle.makeTotleSwapPluginQuote (W := W) request fromNativeAmount toNativeAmount txs
    destinationAddress isEstimate expirationDate = Ok q ->
  Totle.approve q (Totle.initial_state q w) = (Throw e, s') ->
  exists pre c,
    Totle.calls s' = (pre ++ [c])%list /\
    call_error c = Some e /\
    Forall (fun c0 => call_error c0 = None) pre.
Proof.
  intros Hq Hrun.
  assert (Hlast : exists swapTx, last (Totle.quote_txs q) = Some swapTx).
  { unfold Totle.makeTotleSwapPluginQuote in Hq.
    destruct (last txs) as [swapTx|] eqn:Hlast; [|discriminate].
    injection Hq as <-. now exists swapTx. }
  destruct Hlast as (swapTx & Hlast).
  unfold Totle.approve, bind in Hrun.
  cbn [Totle.initial_state Totle.txs_now] in Hrun.
  destruct (Totle.approve_loop q _ _ _ _ _) as [[out | e0] s1] eqn:Hloop.
  - pose proof (approve_loop_ok _ _ _ _ _ _ _ _ Hloop) as Hok.
    rewrite Hlast in Hok. destruct Hok as (signed & swapTx' & pre & -> & _).
    unfold ret in Hrun. discriminate.
  - injection Hrun as <- <-.
    apply approve_loop_rejected in Hloop as (pre & c & Hcalls & Herr & Hpre).
    now exists pre, c.
Qed.

End TotleFacts.

(** C1 on the scenario of the specification: 0.0001 BTC against a declared
    minimum of 0.001 BTC is rejected with the bound "100000", and no order
    is created. *)
Lemma below_minimum_scenario :
  fst (Scenario.quote true "10000")
    = Throw (SwapBelowLimitError Godex.swapInfo "100000" DirFrom) /\
  order_calls (snd (Scenario.quote true "10000")) = [].
Proof.
  pose proof (proj1 (below_minimum_is_rejected nat (Scenario.backend true)
    Scenario.dateNow Scenario.initOptions Scenario.getAddress Scenario.memoType
    Scenario.getCodesWithTranscription Scenario.legacyOptions string
    (GodexLegacy.QuoteArgs string) Scenario.makeSpend Scenario.checkInvalidCodes
    Scenario.legacyCodes Scenario.makeSwapPluginQuote)
    (Scenario.request "10000") Scenario.opts Scenario.start
    ("bc1qfrom", "0xto") "0.00010000"
    {| Godex.min_amount := "0.001";
       Godex.networks_from := Some [ {| Godex.network := "BTC" |} ];
       Godex.networks_to := Some [ {| Godex.network := "ETH" |} ] |}
    1%nat "100000"
    (biggystring.mkDec 10000 0) (biggystring.mkDec 100000 0)) as H.
  apply H.
  - split; [reflexivity|]. split; [reflexivity|].
    exists {| status := 200; json_body := Ok (Scenario.info_reply true) |},
      (Scenario.info_reply true).
    repeat split; reflexivity.
  - reflexivity.
  - reflexivity.
  - reflexivity.
  - reflexivity.
Defined.

(** C2 on a backend that answers 422, and on one that answers 500. *)
Lemma call_scenario :
  fst (Godex.call nat (Scenario.backend_status 422) (Godex.uri ++ "info")
         (Scenario.request "1") JNull Scenario.start)
    = Throw (SwapCurrencyError Godex.swapInfo "BTC" "ETH") /\
  fst (Godex.call nat (Scenario.backend_status 500) (Godex.uri ++ "info")
         (Scenario.request "1") JNull Scenario.start)
    = Throw (Error "godex returned error code 500").
Proof.
  split.
  - destruct (proj1 (call_classifies_every_reply nat (Scenario.backend_status 422))
                (Scenario.request "1") (Godex.uri ++ "info") JNull Scenario.start)
      as (_ & _ & _ & H).
    destruct (H _ eq_refl) as (H422 & _). apply H422. reflexivity.
  - destruct (proj1 (call_classifies_every_reply nat (Scenario.backend_status 500))
                (Scenario.request "1") (Godex.uri ++ "info") JNull Scenario.start)
      as (_ & _ & _ & H).
    destruct (H _ eq_refl) as (_ & H500 & _).
    destruct H500 as [H500 _]; [reflexivity | discriminate |]. exact H500.
Defined.

(** C3 on the scenario: the backend quotes a withdrawal of
    15.1234567890123456789 ETH, one digit more than the 18 decimal places
    of the asset; the order receives 15123456789012345678 units, which is
    not above the converted amount [y] and less than one unit below it. *)
Lemma truncated_scenario :
  exists order y,
    fst (Scenario.quote true "100000000") = Ok order /\
    truncated (Godex.asset_nativeAmount
                 (Godex.toAsset (Godex.savedAction (Godex.spendInfo order)))) y /\
    Scenario.amounts (Ok order) = Some ("100000000", "15123456789012345678") /\
    (inject_Z 15123456789012345678 <= biggystring.value y)%Q /\
    (biggystring.value y < inject_Z 15123456789012345679)%Q.
Proof.
  assert (Hview : Scenario.amounts (fst (Scenario.quote true "100000000"))
                  = Some ("100000000", "15123456789012345678"))
    by (vm_compute; reflexivity).
  destruct (Scenario.quote true "100000000") as [[order | e] s'] eqn:Hrun;
    [|discriminate Hview].
  destruct (quote_amounts_are_truncated nat (Scenario.backend true) Scenario.dateNow
              Scenario.initOptions Scenario.getAddress Scenario.memoType
              Scenario.getCodesWithTranscription (Scenario.request "100000000")
              Scenario.opts Scenario.start order s' Hrun)
    as (url & params & s1 & sendReply & quoteInfo & fromConverted & toConverted
        & x & y & _ & _ & _ & _ & _ & _ & _ & Hy & _).
  exists order, y. split; [reflexivity|]. split; [exact Hy|]. split; [exact Hview|].
  cbn [fst Scenario.amounts] in Hview. injection Hview as _ Htext.
  destruct Hy as (n & _ & Hparse & Hpos & Hneg).
  rewrite Htext in Hparse. vm_compute in Hparse. injection Hparse as <-.
  destruct (Qlt_le_dec 0 (biggystring.value y)) as [Hlt | Hle].
  - destruct (Hpos (Qlt_le_weak _ _ Hlt)) as (_ & Hlow & Hhigh). now split.
  - destruct (Hneg Hle) as (Hn & _). now elim Hn.
Defined.

(** The example of the specification: 1.005 with two decimal places is
    100 native units, not 101. *)
Example toNative_1_005 : AmountConverter.toNative "1.005" 2 = Ok "100".
Proof. reflexivity. Qed.

(** The library's [floor] cuts the fraction off on either side of zero,
    and reads the empty string as zero. *)
Example floor_cuts_toward_zero :
  biggystring.floor0 "1.5" = Ok "1" /\
  biggystring.floor0 "-1.5" = Ok "-1" /\
  biggystring.floor0 "-0.5" = Ok "0" /\
  biggystring.floor0 "" = Ok "0" /\
  biggystring.lt "" "1" = Ok true.
Proof. repeat split; reflexivity. Qed.

(** Against C6 as stated: the backend declares a maximum of 10 BTC, the
    request is for 20 BTC, and the quote is assembled all the same. *)
Lemma maximum_counterexample :
  get_prop (Scenario.info_reply true) "max_amount" = Some (JString "10") /\
  denominationToNative Scenario.btc "10" "BTC" = Ok "1000000000" /\
  biggystring.lt "1000000000" "2000000000" = Ok true /\
  Scenario.is_ok (fst (Scenario.quote true "2000000000")) = true /\
  (forall nativeMax direction,
     fst (Scenario.quote true "2000000000")
     <> Throw (SwapAboveLimitError Godex.swapInfo nativeMax direction)).
Proof.
  assert (Hok : Scenario.is_ok (fst (Scenario.quote true "2000000000")) = true)
    by (vm_compute; reflexivity).
  do 3 (split; [reflexivity|]). split; [exact Hok|].
  intros nativeMax direction Heq. rewrite Heq in Hok. discriminate Hok.
Qed.

(** C6 as amended, on the same request: the order-creation call is sent;
    the reply cleans like the reply without its maximum; the rejection of
    the small request is the plugin's own limit error; and with a backend
    that rejects with an above-limit error, that error is the backend's. *)
Lemma minimum_only_scenario :
  (exists c, is_order_creation c = true /\
     Io.requests (snd (Scenario.quote true "2000000000"))
     = (Io.requests (sent Scenario.start 1%nat (Godex.uri ++ "info")
                       (Godex.quoteParams (Scenario.request "2000000000") "20.00000000"))
        ++ [c])%list) /\
  Godex.asApiInfo (Some (Scenario.info_reply true))
  = Godex.asApiInfo
      (Some (JObject
         [ ("networks_to", JArray [ JObject [ ("network", JString "ETH") ] ]);
           ("networks_from", JArray [ JObject [ ("network", JString "BTC") ] ]);
           ("min_amount", JString "0.001") ])) /\
  (fst (Scenario.quote true "10000")
   = Throw (SwapBelowLimitError Godex.swapInfo "100000" DirFrom) /\
   (plugin_rejection (Scenario.request "10000")
      (SwapBelowLimitError Godex.swapInfo "100000" DirFrom) \/
    raised_outside nat (Scenario.backend true) Scenario.getAddress
      (Scenario.request "10000")
      (SwapBelowLimitError Godex.swapInfo "100000" DirFrom))) /\
  fst (Godex.fetchSwapQuoteInner nat Scenario.backend_refusing Scenario.dateNow
         Scenario.initOptions Scenario.getAddress Scenario.memoType
         Scenario.getCodesWithTranscription (Scenario.request "2000000000")
         Scenario.opts Scenario.start)
  = Throw (SwapAboveLimitError Godex.swapInfo "1000000000" DirFrom) /\
  raised_outside nat Scenario.backend_refusing Scenario.getAddress (Scenario.request "2000000000")
    (SwapAboveLimitError Godex.swapInfo "1000000000" DirFrom).
Proof.
  pose proof (only_the_minimum_is_enforced nat (Scenario.backend true)
    Scenario.dateNow Scenario.initOptions Scenario.getAddress Scenario.memoType
    Scenario.getCodesWithTranscription) as (Hclean & Hsize & Hkinds & _).
  pose proof (only_the_minimum_is_enforced nat Scenario.backend_refusing
    Scenario.dateNow Scenario.initOptions Scenario.getAddress Scenario.memoType
    Scenario.getCodesWithTranscription) as (_ & _ & _ & Habove).
  assert (Hsmall : fst (Scenario.quote true "10000")
                   = Throw (SwapBelowLimitError Godex.swapInfo "100000" DirFrom))
    by (vm_compute; reflexivity).
  assert (Hrefused :
            fst (Godex.fetchSwapQuoteInner nat Scenario.backend_refusing Scenario.dateNow
                   Scenario.initOptions Scenario.getAddress Scenario.memoType
                   Scenario.getCodesWithTranscription (Scenario.request "2000000000")
                   Scenario.opts Scenario.start)
            = Throw (SwapAboveLimitError Godex.swapInfo "1000000000" DirFrom))
    by (vm_compute; reflexivity).
  split; [|split; [|split; [|split]]].
  - apply (Hsize
      (Scenario.request "2000000000") Scenario.opts Scenario.start
      ("bc1qfrom", "0xto") "20.00000000"
      {| Godex.min_amount := "0.001";
         Godex.networks_from := Some [ {| Godex.network := "BTC" |} ];
         Godex.networks_to := Some [ {| Godex.network := "ETH" |} ] |}
      1%nat "100000"
      (biggystring.mkDec 2000000000 0) (biggystring.mkDec 100000 0)).
    + split; [reflexivity|]. split; [reflexivity|].
      exists {| status := 200; json_body := Ok (Scenario.info_reply true) |},
        (Scenario.info_reply true).
      repeat split; reflexivity.
    + reflexivity.
    + reflexivity.
    + reflexivity.
    + vm_compute. discriminate.
    + vm_compute. reflexivity.
  - apply (Hclean
      [ ("min_amount", JString "0.001"); ("max_amount", JString "10");
        ("amount", JString "15.5");
        ("networks_from", JArray [ JObject [ ("network", JString "BTC") ] ]);
        ("networks_to", JArray [ JObject [ ("network", JString "ETH") ] ]) ]
      [ ("networks_to", JArray [ JObject [ ("network", JString "ETH") ] ]);
        ("networks_from", JArray [ JObject [ ("network", JString "BTC") ] ]);
        ("min_amount", JString "0.001") ]); reflexivity.
  - split; [exact Hsmall|].
    exact (Hkinds (Scenario.request "10000") Scenario.opts Scenario.start _ Hsmall).
  - exact Hrefused.
  - exact (Habove (Scenario.request "2000000000") Scenario.opts Scenario.start _ _ _
             Hrefused).
Defined.




(** The scenario's quote is the one [makeTotleSwapPluginQuote] builds. *)
Example totle_quote_built :
  Totle.makeTotleSwapPluginQuote (TotleScenario.request "") "1000" "2000"
    [TotleScenario.approveTx; TotleScenario.swapTx] "0xdestination" false (Some 1000)
  = Ok (TotleScenario.quote "").
Proof. reflexivity. Qed.

(** C5 on the scenario in which the broadcast of the approval is
    rejected: the approval was signed, its broadcast was attempted,
    nothing was done for the swap transaction, and [approve] was rejected
    with the error of the broadcast. *)
Lemma approve_stops_scenario :
  fst (Totle.approve (TotleScenario.quote "0xapprove") (TotleScenario.start "0xapprove"))
    = Throw (Error "transaction underpriced") /\
  map call_step
    (Totle.calls (snd (Totle.approve (TotleScenario.quote "0xapprove")
                         (TotleScenario.start "0xapprove"))))
    = [(0%nat, Signing); (0%nat, Broadcasting)].
Proof.
  destruct (approve_runs_in_order (TotleScenario.quote "0xapprove")
              (TotleScenario.start "0xapprove")) as (new & Hcalls & _ & _ & Hrejected).
  assert (Hnew : new =
    [Totle.SignTx 0 TotleScenario.approveTx (Ok (TotleScenario.signed TotleScenario.approveTx));
     Totle.BroadcastTx 0 (TotleScenario.signed TotleScenario.approveTx)
       (Throw (Error "transaction underpriced"))]).
  { vm_compute in Hcalls. symmetry. exact Hcalls. }
  split.
  - apply (Hrejected
             [Totle.SignTx 0 TotleScenario.approveTx
                (Ok (TotleScenario.signed TotleScenario.approveTx))]
             (Totle.BroadcastTx 0 (TotleScenario.signed TotleScenario.approveTx)
                (Throw (Error "transaction underpriced")))
             [] (Error "transaction underpriced")); [exact Hnew | reflexivity].
  - rewrite Hcalls, Hnew. reflexivity.
Defined.

(** Against C7 as stated: the quote expired at time 1000, execution is
    attempted at time 2000, and [approve] signs and broadcasts both
    transactions and returns the order. *)
Lemma expired_quote_counterexample :
  Totle.expirationDate (TotleScenario.quote "") = Some 1000 /\
  TotleScenario.clock (Totle.world (TotleScenario.start "")) = 2000 /\
  TotleScenario.outcome ""
  = (inl "0xswap",
     [(0%nat, Signing); (0%nat, Broadcasting); (0%nat, Saving);
      (1%nat, Signing); (1%nat, Broadcasting); (1%nat, Saving)],
     ["0xapprove"; "0xswap"]).
Proof. repeat split; vm_compute; reflexivity. Qed.

(** C7 as amended, on the expired quote: the first call signs the
    approval. *)
Lemma expired_quote_scenario :
  exists more,
    Totle.calls (snd (Totle.approve (TotleScenario.quote "") (TotleScenario.start ""))) =
    ([] ++ Totle.SignTx 0 TotleScenario.approveTx
             (Ok (TotleScenario.signed TotleScenario.approveTx)) :: more)%list.
Proof.
  exact (proj1 (approve_ignores_expiration (TotleScenario.quote "") (TotleScenario.start "")
                  TotleScenario.approveTx [TotleScenario.swapTx] eq_refl)).
Defined.


(** The rejection of the scenario's small request, seen from
    [fetchSwapQuote] with a resolver that leaves the request as it is. *)
Lemma fetchSwapQuote_scenario :
  fst (Godex.fetchSwapQuote nat (Scenario.backend true) Scenario.dateNow
         Scenario.initOptions Scenario.getAddress Scenario.memoType
         Scenario.getCodesWithTranscription (fun _ _ _ => Ok tt)
         Godex.EdgeSwapRequestPlugin Godex.SwapOrder (fun r => r)
         (fun _ r _ => ret r) ret (Scenario.request "10000") Scenario.opts Scenario.start)
  = Throw (SwapBelowLimitError Godex.swapInfo "100000" DirFrom).
Proof.
  rewrite (fetchSwapQuote_rejection nat (Scenario.backend true) Scenario.dateNow
             Scenario.initOptions Scenario.getAddress Scenario.memoType
             Scenario.getCodesWithTranscription (fun _ _ _ => Ok tt)
             Godex.EdgeSwapRequestPlugin Godex.SwapOrder (fun r => r)
             (fun _ r _ => ret r) ret (Scenario.request "10000") Scenario.opts
             Scenario.start (Scenario.request "10000") Scenario.start
             (SwapBelowLimitError Godex.swapInfo "100000" DirFrom)
             (snd (Scenario.quote true "10000"))).
  - reflexivity.
  - reflexivity.
  - vm_compute. reflexivity.
  - reflexivity.
  - vm_compute. reflexivity.
Defined.

(** A wallet that refuses to broadcast the swap: the quote is the one
    [makeTotleSwapPluginQuote] builds for the two transactions, the
    approval has gone through, and [approve] is rejected with the
    wallet's error on the fifth call. *)
Lemma approve_failure_scenario :
  Totle.makeTotleSwapPluginQuote (TotleScenario.request "0xswap") "1000" "2000"
    [TotleScenario.approveTx; TotleScenario.swapTx] "0xdestination" false (Some 1000)
  = Ok (TotleScenario.quote "0xswap") /\
  exists s' pre c,
    Totle.approve (TotleScenario.quote "0xswap") (TotleScenario.start "0xswap")
    = (Throw (Error "transaction underpriced"), s') /\
    Totle.calls s' = (pre ++ [c])%list /\
    call_error c = Some (Error "transaction underpriced") /\
    Forall (fun c0 => call_error c0 = None) pre /\
    map call_step (Totle.calls s')
    = [(0, Signing); (0, Broadcasting); (0, Saving); (1, Signing); (1, Broadcasting)]%nat.
Proof.
  split; [reflexivity|].
  assert (Hview : TotleScenario.outcome "0xswap"
                  = (inr (Error "transaction underpriced"),
                     [(0, Signing); (0, Broadcasting); (0, Saving); (1, Signing);
                      (1, Broadcasting)]%nat,
                     ["0xapprove"]))
    by (vm_compute; reflexivity).
  unfold TotleScenario.outcome in Hview. cbv zeta in Hview.
  destruct (Totle.approve (TotleScenario.quote "0xswap") (TotleScenario.start "0xswap"))
    as [[r | e] s'] eqn:Hrun; cbn [fst snd] in Hview; [discriminate Hview|].
  injection Hview as He Hsteps _. subst e.
  destruct (approve_fails_only_with_the_wallet (TotleScenario.request "0xswap") "1000" "2000"
              [TotleScenario.approveTx; TotleScenario.swapTx] "0xdestination" false
              (Some 1000) (TotleScenario.quote "0xswap")
              {| TotleScenario.clock := 2000; TotleScenario.broadcasts := [] |}
              (Error "transaction underpriced") s' eq_refl Hrun)
    as (pre & c & Hcalls & Herr & Hpre).
  exists s', pre, c. split; [reflexivity|]. now repeat split.
Defined.

(* ================================================================== *)
(** * The requests of the current godex plugin                          *)
(* ================================================================== *)

(** The endpoint of the order-creation call. *)
Definition order_url (request : Godex.EdgeSwapRequestPlugin) (opts : Godex.QuoteOpts)
    : string :=
  Godex.uri ++ (if Godex.is_to (Godex.quoteFor request)
                then "transaction-revert" else "transaction") ++
  match Godex.promoCode opts with Some p => "?promo=" ++ p | None => "" end.

(** The conversion of the requested amount to the units of the quoted
    side's wallet. *)
Definition quote_amount (request : Godex.EdgeSwapRequestPlugin) : result string :=
  if Godex.is_from (Godex.quoteFor request)
  then nativeToDenomination (Godex.fromWallet request)
         (Godex.nativeAmount request) (Godex.fromCurrencyCode request)
  else nativeToDenomination (Godex.toWallet request)
         (Godex.nativeAmount request) (Godex.toCurrencyCode request).

(** The request to [info] or [info-revert] for [quoteAmount]. *)
Definition info_call (request : Godex.EdgeSwapRequestPlugin) (quoteAmount : string)
    : FetchCall :=
  Build_FetchCall (info_url request) (post_json (Godex.quoteParams request quoteAmount)).

(** [c] is the order-creation request for [quoteAmount]: a POST to
    [transaction] or [transaction-revert] whose body names the quoted
    amount on the requested side only, the two currencies and their
    networks, the two addresses, and the affiliate when the plugin has an
    API key. *)
Definition order_request_of (initOptions : Godex.InitOptions)
    (request : Godex.EdgeSwapRequestPlugin) (opts : Godex.QuoteOpts)
    (fromAddress toAddress : string) (codes : Godex.MainnetCodes)
    (quoteAmount : string) (c : FetchCall) : Prop :=
  exists params,
    c = Build_FetchCall (order_url request opts) (post_json params) /\
    get_prop params "deposit_amount" =
      match Godex.quoteFor request with
      | QuoteFrom => Some (JString quoteAmount)
      | _ => None
      end /\
    get_prop params "withdrawal_amount" =
      match Godex.quoteFor request with
      | QuoteTo => Some (JString quoteAmount)
      | _ => None
      end /\
    get_prop params "coin_from" = Some (JString (Godex.fromCurrencyCode request)) /\
    get_prop params "coin_to" = Some (JString (Godex.toCurrencyCode request)) /\
    get_prop params "withdrawal" = Some (JString toAddress) /\
    get_prop params "return" = Some (JString fromAddress) /\
    get_prop params "return_extra_id" = Some JNull /\
    get_prop params "withdrawal_extra_id" = Some JNull /\
    get_prop params "affiliate_id" = js_string (Godex.apiKey initOptions) /\
    get_prop params "type" = Some (JString "edge") /\
    get_prop params "isEstimate" = Some (JBool false) /\
    get_prop params "coin_from_network" = Some (JString (Godex.fromMainnetCode codes)) /\
    get_prop params "coin_to_network" = Some (JString (Godex.toMainnetCode codes)).

Lemma order_url_is_order_creation request opts :
  is_order_creation (Build_FetchCall (order_url request opts) (post_json JNull)) = true.
Proof.
  unfold is_order_creation, order_url. cbn [call_url].
  destruct (Godex.is_to (Godex.quoteFor request)), (Godex.promoCode opts);
    vm_compute; reflexivity.
Qed.

Lemma info_url_not_order_creation request quoteAmount :
  is_order_creation (info_call request quoteAmount) = false.
Proof.
  unfold is_order_creation, info_call, info_url. cbn [call_url].
  destruct (Godex.is_from (Godex.quoteFor request)); vm_compute; reflexivity.
Qed.

Section GodexRequests.

Context (W : Type)
  (fetchCors : string -> FetchOptions -> W -> result FetchResponse * W)
  (dateNow : W -> Z)
  (initOptions : Godex.InitOptions)
  (getAddress : EdgeCurrencyWallet -> result string)
  (memoType : string -> string)
  (getCodesWithTranscription :
     Godex.EdgeSwapRequestPlugin -> gmap string string -> Godex.MainnetCodes).

#[local] Abbreviation call := (Godex.call W fetchCors).
#[local] Abbreviation create_order :=
  (Godex.create_order W fetchCors dateNow initOptions memoType).
#[local] Abbreviation fetchSwapQuoteInner :=
  (Godex.fetchSwapQuoteInner W fetchCors dateNow initOptions getAddress memoType
     getCodesWithTranscription).

(** The one request of the second half of [fetchSwapQuoteInner]. *)
Lemma create_order_request request opts fromAddress toAddress codes quoteAmount s :
  exists c,
    Io.requests (snd (create_order request opts fromAddress toAddress codes
                        (if Godex.is_from (Godex.quoteFor request)
                         then Some quoteAmount else None)
                        (if Godex.is_from (Godex.quoteFor request)
                         then None else Some quoteAmount) s))
    = (Io.requests s ++ [c])%list /\
    order_request_of initOptions request opts fromAddress toAddress codes quoteAmount c.
Proof.
  unfold Godex.create_order.
  rewrite bind_snd.
  - rewrite call_run. cbn [snd sent Io.requests].
    eexists. split; [reflexivity|].
    eexists. split; [reflexivity|].
    destruct (Godex.quoteFor request), (Godex.apiKey initOptions);
      cbn [Godex.is_from Godex.is_to js_string];
      repeat split; reflexivity.
  - intros sendReply.
    repeat (apply preserves_bind; [apply preserves_lift | intros ?]).
    apply preserves_bind; [intros s0; reflexivity | intros now].
    apply preserves_ret.
Qed.

(** The requests of a run of [fetchSwapQuoteInner]: none when the
    addresses or the conversion of the amount fail; the info request alone
    when the run is rejected after it; the info request followed by the
    order-creation request otherwise. *)
Lemma inner_requests_shape request opts s :
  let run := fetchSwapQuoteInner request opts s in
  let codes := getCodesWithTranscription request Godex.MAINNET_CODE_TRANSCRIPTION in
  (Io.requests (snd run) = Io.requests s /\ forall order, fst run <> Ok order) \/
  (exists quoteAmount,
     quote_amount request = Ok quoteAmount /\
     Io.requests (snd run) = (Io.requests s ++ [info_call request quoteAmount])%list /\
     forall order, fst run <> Ok order) \/
  (exists quoteAmount addresses c,
     quote_amount request = Ok quoteAmount /\
     Godex.both_addresses getAddress request = Ok addresses /\
     Io.requests (snd run) = (Io.requests s ++ [info_call request quoteAmount; c])%list /\
     order_request_of initOptions request opts (fst addresses) (snd addresses) codes
       quoteAmount c).
Proof.
  intros run codes.
  set (Q := fun res : result Godex.SwapOrder * Io.State W =>
    (Io.requests (snd res) = Io.requests s /\ forall order, fst res <> Ok order) \/
    (exists quoteAmount,
       quote_amount request = Ok quoteAmount /\
       Io.requests (snd res) = (Io.requests s ++ [info_call request quoteAmount])%list /\
       forall order, fst res <> Ok order) \/
    (exists quoteAmount addresses c,
       quote_amount request = Ok quoteAmount /\
       Godex.both_addresses getAddress request = Ok addresses /\
       Io.requests (snd res) = (Io.requests s ++ [info_call request quoteAmount; c])%list /\
       order_request_of initOptions request opts (fst addresses) (snd addresses) codes
         quoteAmount c)).
  change (Q run). subst run. unfold Godex.fetchSwapQuoteInner.
  unfold bind at 1. unfold lift at 1.
  destruct (Godex.both_addresses getAddress request) as [addresses | e] eqn:Haddr.
  2:{ left. cbn. split; [reflexivity | discriminate]. }
  unfold bind at 1. unfold lift at 1. fold (quote_amount request).
  destruct (quote_amount request) as [quoteAmount | e] eqn:Hden.
  2:{ left. cbn. split; [reflexivity | discriminate]. }
  unfold bind at 1. rewrite call_run. fold (info_url request).
  fold codes.
  set (out := fetchCors (info_url request) _ (Io.world s)).
  set (s1 := sent s (snd out) (info_url request) (Godex.quoteParams request quoteAmount)).
  assert (Hs1 : Io.requests s1 = (Io.requests s ++ [info_call request quoteAmount])%list)
    by reflexivity.
  assert (Hstop : forall e : JsError, Q (Throw e, s1)).
  { intros e. right. left. exists quoteAmount. cbn [fst snd].
    split; [reflexivity|]. split; [exact Hs1 | discriminate]. }
  destruct (fst out) as [r | e]; [|apply Hstop].
  destruct (negb (ok r)); [destruct (status r =? 422)%N; apply Hstop|].
  destruct (json_body r) as [response | e]; [|apply Hstop].
  unfold bind at 1. unfold lift at 1.
  destruct (Godex.asApiInfo (Some response)) as [reply | e]; [|apply Hstop].
  unfold bind at 1. unfold lift at 1.
  match goal with
  | |- context [match ?m with Ok _ => _ | Throw _ => _ end] =>
      destruct m as [nativeMin | e]; [|apply Hstop]
  end.
  unfold bind at 1. unfold lift at 1.
  destruct (biggystring.lt _ nativeMin) as [[|] | e]; [apply Hstop | | apply Hstop].
  destruct (_ || _); [apply Hstop|].
  right. right.
  destruct (create_order_request request opts (fst addresses) (snd addresses) codes
              quoteAmount s1) as (c & Hreq & Hc).
  exists quoteAmount, addresses, c.
  split; [reflexivity|]. split; [reflexivity|]. split; [|exact Hc].
  rewrite Hreq, Hs1, <- app_assoc. reflexivity.
Qed.

(** At most one order is created per quote, and never without the info
    request before it: a run of [fetchSwapQuoteInner] sends nothing, or
    the request to [info] / [info-revert], or that request followed by one
    request to [transaction] / [transaction-revert]; a run that returns an
    order has sent both. *)
Theorem inner_request_sequence request opts s :
  let run := fetchSwapQuoteInner request opts s in
  exists new,
    Io.requests (snd run) = (Io.requests s ++ new)%list /\
    (new = [] \/
     (exists c, new = [c] /\ call_url c = info_url request /\
                is_order_creation c = false) \/
     (exists c1 c2, new = [c1; c2] /\
                    call_url c1 = info_url request /\ is_order_creation c1 = false /\
                    call_url c2 = order_url request opts /\ is_order_creation c2 = true)) /\
    (forall order, fst run = Ok order -> length new = 2%nat) /\
    (length (List.filter is_order_creation new) <= 1)%nat.
Proof.
  intros run.
  destruct (inner_requests_shape request opts s)
    as [[Hreq Hno] | [(quoteAmount & _ & Hreq & Hno)
                     | (quoteAmount & addresses & c & _ & _ & Hreq & params & -> & _)]];
    fold run in Hreq.
  - exists []. rewrite app_nil_r. split; [exact Hreq|]. split; [now left|].
    split; [|cbn; lia]. intros order Hok. now apply Hno in Hok.
  - exists [info_call request quoteAmount]. split; [exact Hreq|]. split.
    + right. left. eexists. split; [reflexivity|]. split; [reflexivity|].
      apply info_url_not_order_creation.
    + split.
      * intros order Hok. now apply Hno in Hok.
      * cbn [List.filter]. rewrite info_url_not_order_creation. cbn. lia.
  - eexists [_; _]. split; [exact Hreq|].
    assert (Horder : forall p, is_order_creation
                       (Build_FetchCall (order_url request opts) (post_json p)) = true).
    { intros p. exact (order_url_is_order_creation request opts). }
    split.
    + right. right. eexists _, _. split; [reflexivity|].
      split; [reflexivity|]. split; [apply info_url_not_order_creation|].
      split; [reflexivity | apply Horder].
    + split; [reflexivity|].
      cbn [List.filter]. rewrite info_url_not_order_creation, Horder. cbn. lia.
Qed.

(** What the order-creation request says.  Whenever a run of
    [fetchSwapQuoteInner] has sent an order-creation request, that request
    is the last one; it goes to [transaction-revert] for a quote on the 'to'
    side and to [transaction] otherwise, with the promo code appended when
    there is one; its body carries the converted amount as [deposit_amount]
    for a 'from' quote and as [withdrawal_amount] for a 'to' quote, never
    both, the addresses [getAddress] gave as [return] and [withdrawal], the
    transcribed network codes, and [affiliate_id] exactly when the plugin
    has an API key. *)
Theorem order_request_contents request opts s pre c post :
  let run := fetchSwapQuoteInner request opts s in
  let codes := getCodesWithTranscription request Godex.MAINNET_CODE_TRANSCRIPTION in
  Io.requests (snd run) = (Io.requests s ++ pre ++ c :: post)%list ->
  is_order_creation c = true ->
  exists quoteAmount fromAddress toAddress,
    post = [] /\
    pre = [info_call request quoteAmount] /\
    quote_amount request = Ok quoteAmount /\
    getAddress (Godex.fromWallet request) = Ok fromAddress /\
    getAddress (Godex.toWallet request) = Ok toAddress /\
    order_request_of initOptions request opts fromAddress toAddress codes quoteAmount c.
Proof.
  intros run codes Hreq Horder.
  destruct (inner_requests_shape request opts s)
    as [[Hreq' _] | [(quoteAmount & _ & Hreq' & _)
                    | (quoteAmount & addresses & c' & Hden & Haddr & Hreq' & Hc')]];
    fold run in Hreq'; rewrite Hreq in Hreq'.
  - exfalso. rewrite <- (app_nil_r (Io.requests s)) in Hreq' at 2.
    apply app_inv_head in Hreq'. now destruct pre.
  - exfalso. apply app_inv_head in Hreq'.
    destruct pre as [|c0 pre].
    + injection Hreq' as -> _. rewrite info_url_not_order_creation in Horder. discriminate.
    + injection Hreq' as _ Hreq'. now destruct pre.
  - apply app_inv_head in Hreq'.
    destruct pre as [|c0 pre].
    { exfalso. injection Hreq' as -> _.
      rewrite info_url_not_order_creation in Horder. discriminate. }
    injection Hreq' as -> Hreq'.
    destruct pre as [|c1 pre].
    2:{ exfalso. injection Hreq' as _ Hreq'. now destruct pre. }
    injection Hreq' as -> ->.
    unfold Godex.both_addresses in Haddr.
    destruct (getAddress (Godex.fromWallet request)) as [fromAddress | e]; [|discriminate].
    destruct (getAddress (Godex.toWallet request)) as [toAddress | e]; [|discriminate].
    injection Haddr as <-.
    exists quoteAmount, fromAddress, toAddress.
    do 5 (split; [reflexivity || assumption|]). exact Hc'.
Qed.

End GodexRequests.

(* ================================================================== *)
(** * The swap order the current godex plugin returns                   *)
(* ================================================================== *)

Section GodexOrder.

Context (W : Type)
  (fetchCors : string -> FetchOptions -> W -> result FetchResponse * W)
  (dateNow : W -> Z)
  (initOptions : Godex.InitOptions)
  (getAddress : EdgeCurrencyWallet -> result string)
  (memoType : string -> string)
  (getCodesWithTranscription :
     Godex.EdgeSwapRequestPlugin -> gmap string string -> Godex.MainnetCodes).

#[local] Abbreviation call := (Godex.call W fetchCors).
#[local] Abbreviation fetchSwapQuoteInner :=
  (Godex.fetchSwapQuoteInner W fetchCors dateNow initOptions getAddress memoType
     getCodesWithTranscription).

(** What a returned swap order contains besides its amounts.  [quoteInfo]
    is the cleaned reply of the order-creation call.  The order carries the
    request it was made for and the plugin's [swapInfo]; it expires 60
    seconds after the clock reading taken once the order exists; it spends
    to the backend's deposit address, with one memo holding
    [deposit_extra_id] when the backend gave one and none otherwise, at fee
    level 'high' exactly when the source currency code is BTC in any
    letter case; its saved action names the backend's order id, the order
    page for it, the payout address and wallet, and the refund address,
    the two addresses being the ones [getAddress] gave for the two
    wallets. *)
Theorem swap_order_contents request opts s order s' :
  fetchSwapQuoteInner request opts s = (Ok order, s') ->
  exists fromAddress toAddress quoteInfo url params s1 sendReply,
    getAddress (Godex.fromWallet request) = Ok fromAddress /\
    getAddress (Godex.toWallet request) = Ok toAddress /\
    call url request params s1 = (Ok sendReply, s') /\
    Godex.asQuoteInfo (Some sendReply) = Ok quoteInfo /\
    Godex.request order = request /\
    Godex.order_swapInfo order = Godex.swapInfo /\
    Godex.expirationDate order = dateNow (Io.world s') + 60000 /\
    let spend := Godex.spendInfo order in
    let action := Godex.savedAction spend in
    Godex.tokenId spend = Godex.fromTokenId request /\
    map Godex.target_publicAddress (Godex.spendTargets spend) = [Godex.deposit quoteInfo] /\
    Godex.memos spend =
      match Godex.deposit_extra_id quoteInfo with
      | None => []
      | Some extra =>
          [ {| Godex.memo_type :=
                 memoType (info_pluginId (currencyInfo (Godex.fromWallet request)));
               Godex.memo_value := extra |} ]
      end /\
    Godex.networkFeeOption spend =
      (if String.eqb (toUpperCase (Godex.fromCurrencyCode request)) "BTC"
       then "high" else "standard") /\
    Godex.assetActionType spend = "swap" /\
    Godex.actionType action = "swap" /\
    Godex.action_swapInfo action = Godex.swapInfo /\
    Godex.orderId action = Godex.transaction_id quoteInfo /\
    Godex.action_orderUri action
      = "https://godex.io/exchange/waiting/" ++ Godex.transaction_id quoteInfo /\
    Godex.isEstimate action = false /\
    Godex.payoutAddress action = toAddress /\
    Godex.payoutWalletId action = wallet_id (Godex.toWallet request) /\
    Godex.refundAddress action = fromAddress /\
    Godex.asset_pluginId (Godex.toAsset action)
      = info_pluginId (currencyInfo (Godex.toWallet request)) /\
    Godex.asset_tokenId (Godex.toAsset action) = Godex.toTokenId request /\
    Godex.asset_pluginId (Godex.fromAsset action)
      = info_pluginId (currencyInfo (Godex.fromWallet request)) /\
    Godex.asset_tokenId (Godex.fromAsset action) = Godex.fromTokenId request.
Proof.
  unfold Godex.fetchSwapQuoteInner. intros H.
  apply lift_bind_ok_inv in H as (addresses & Haddr & H).
  apply lift_bind_ok_inv in H as (quoteAmount & _ & H).
  apply bind_ok_inv in H as (response & s1 & _ & H).
  apply lift_bind_ok_inv in H as (reply & _ & H).
  apply lift_bind_ok_inv in H as (nativeMin & _ & H).
  apply lift_bind_ok_inv in H as (below & _ & H).
  destruct below; [discriminate|].
  destruct (_ || _); [discriminate|].
  unfold Godex.create_order in H.
  apply bind_ok_inv in H as (sendReply & s2 & Hcall & H).
  apply lift_bind_ok_inv in H as (quoteInfo & Hclean & H).
  apply lift_bind_ok_inv in H as (fromConverted & _ & H).
  apply lift_bind_ok_inv in H as (fromNative & _ & H).
  apply lift_bind_ok_inv in H as (toConverted & _ & H).
  apply lift_bind_ok_inv in H as (toNative & _ & H).
  unfold bind, Io.Date_now, ret in H. injection H as <- <-.
  unfold Godex.both_addresses in Haddr.
  destruct (getAddress (Godex.fromWallet request)) as [fromAddress | e]; [|discriminate].
  destruct (getAddress (Godex.toWallet request)) as [toAddress | e]; [|discriminate].
  injection Haddr as <-.
  eexists fromAddress, toAddress, quoteInfo, _, _, s1, sendReply.
  split; [reflexivity|]. split; [reflexivity|]. split; [exact Hcall|].
  split; [exact Hclean|].
  cbn. repeat split; reflexivity.
Qed.

End GodexOrder.

(* ================================================================== *)
(** * What the cleaner of the info reply accepts                        *)
(* ================================================================== *)

(** [item] is a well-formed element of a list of networks: an object
    whose member [network] is the string [Godex.network n]. *)
Definition network_entry (item : json) (n : Godex.NetworkEntry) : Prop :=
  exists obj,
    cleaners.asObject_raw (Some item) = Ok obj /\
    get_prop obj "network" = Some (JString (Godex.network n)).

(** [member] is an array of well-formed elements, which name [entries]. *)
Definition network_list (member : option json) (entries : list Godex.NetworkEntry) : Prop :=
  exists items, member = Some (JArray items) /\ Forall2 network_entry items entries.

Lemma asNetworkEntry_spec item n :
  Godex.asNetworkEntry (Some item) = Ok n <-> network_entry item n.
Proof.
  unfold Godex.asNetworkEntry, network_entry, result_bind. split.
  - destruct (cleaners.asObject_raw (Some item)) as [obj | e]; [|discriminate].
    unfold cleaners.asString.
    destruct (get_prop obj "network") as [[| | |text| |]|] eqn:Hn; try discriminate.
    intros [= <-]. exists obj. split; [reflexivity | exact Hn].
  - intros (obj & -> & Hn). unfold cleaners.asString. rewrite Hn. now destruct n.
Qed.

Lemma clean_all_network_entries items : forall entries,
  cleaners.clean_all Godex.asNetworkEntry items = Ok entries <->
  Forall2 network_entry items entries.
Proof.
  induction items as [|item items IH]; intros entries; cbn [cleaners.clean_all].
  - split.
    + intros [= <-]. constructor.
    + intros H. inversion H. reflexivity.
  - split.
    + destruct (Godex.asNetworkEntry (Some item)) as [n | e] eqn:Hn; [|discriminate].
      destruct (cleaners.clean_all Godex.asNetworkEntry items) as [ns | e];
        [|discriminate].
      intros [= <-]. constructor; [now apply asNetworkEntry_spec | now apply IH].
    + intros H. inversion H as [|item' n items' ns Hn Hns]; subst.
      apply asNetworkEntry_spec in Hn. rewrite Hn.
      apply IH in Hns. now rewrite Hns.
Qed.

Lemma asMaybe_network_list member entries :
  cleaners.asMaybe (cleaners.asArray Godex.asNetworkEntry) member = Ok (Some entries) <->
  network_list member entries.
Proof.
  unfold cleaners.asMaybe, cleaners.asArray, network_list. split.
  - destruct member as [[| | | |items|]|]; try discriminate.
    destruct (cleaners.clean_all Godex.asNetworkEntry items) as [ns | e] eqn:Hns;
      [|discriminate].
    intros [= <-]. exists items. split; [reflexivity|].
    now apply clean_all_network_entries.
  - intros (items & -> & Hitems). apply clean_all_network_entries in Hitems.
    now rewrite Hitems.
Qed.

Lemma asMaybe_total {A} (c : cleaners.Cleaner A) member :
  exists o, cleaners.asMaybe c member = Ok o.
Proof. unfold cleaners.asMaybe. destruct (c member); eauto. Qed.

(** The info reply the current godex plugin accepts.  [asApiInfo] accepts
    exactly the objects whose [min_amount] is a string or a number, and
    reads the number as its decimal text; whatever else the reply holds
    does not make it fail.  A list of networks is kept only when the member
    is an array all of whose elements are objects with a string member
    [network]: a missing member, a member of another type, or one
    malformed element leave the whole list undefined.  Every rejection is a
    [TypeError]. *)
Theorem asApiInfo_contract raw :
  match Godex.asApiInfo raw with
  | Ok info =>
      exists obj,
        cleaners.asObject_raw raw = Ok obj /\
        (get_prop obj "min_amount" = Some (JString (Godex.min_amount info)) \/
         get_prop obj "min_amount" = Some (JNumber (Godex.min_amount info))) /\
        (forall entries,
           Godex.networks_from info = Some entries <->
           network_list (get_prop obj "networks_from") entries) /\
        (forall entries,
           Godex.networks_to info = Some entries <->
           network_list (get_prop obj "networks_to") entries)
  | Throw e =>
      (exists msg, e = TypeError msg) /\
      forall obj text,
        cleaners.asObject_raw raw = Ok obj ->
        get_prop obj "min_amount" <> Some (JString text) /\
        get_prop obj "min_amount" <> Some (JNumber text)
  end.
Proof.
  unfold Godex.asApiInfo, result_bind.
  destruct (cleaners.asObject_raw raw) as [obj | e] eqn:Hobj.
  2:{ split; [|intros obj text [=]].
      unfold cleaners.asObject_raw in Hobj.
      destruct raw as [[| | | | |]|]; try discriminate; injection Hobj as <-; eauto. }
  unfold asNumberString, cleaners.asEither, cleaners.asString, cleaners.asNumber.
  destruct (get_prop obj "min_amount") as [[| |number|text| |]|] eqn:Hmin;
    try (split; [eauto | intros obj' text' [= <-]; rewrite Hmin; split; discriminate]).
  - destruct (asMaybe_total (cleaners.asArray Godex.asNetworkEntry)
                (get_prop obj "networks_from")) as (nfrom & Hfrom).
    destruct (asMaybe_total (cleaners.asArray Godex.asNetworkEntry)
                (get_prop obj "networks_to")) as (nto & Hto).
    rewrite Hfrom, Hto. exists obj. cbn [Godex.min_amount Godex.networks_from Godex.networks_to].
    split; [reflexivity|]. split; [right; exact Hmin|]. split; intros entries.
    + rewrite <- asMaybe_network_list, Hfrom. split; congruence.
    + rewrite <- asMaybe_network_list, Hto. split; congruence.
  - destruct (asMaybe_total (cleaners.asArray Godex.asNetworkEntry)
                (get_prop obj "networks_from")) as (nfrom & Hfrom).
    destruct (asMaybe_total (cleaners.asArray Godex.asNetworkEntry)
                (get_prop obj "networks_to")) as (nto & Hto).
    rewrite Hfrom, Hto. exists obj. cbn [Godex.min_amount Godex.networks_from Godex.networks_to].
    split; [reflexivity|]. split; [left; exact Hmin|]. split; intros entries.
    + rewrite <- asMaybe_network_list, Hfrom. split; congruence.
    + rewrite <- asMaybe_network_list, Hto. split; congruence.
Qed.

(* ================================================================== *)
(** * The quote the earlier godex plugin returns                        *)
(* ================================================================== *)

Section LegacyQuote.

Context (W : Type)
  (fetchCors : string -> FetchOptions -> W -> result FetchResponse * W)
  (dateNow : W -> Z)
  (initOptions : GodexLegacy.InitOptions)
  (EdgeTransaction EdgeSwapQuote : Type)
  (makeSpend : EdgeCurrencyWallet -> GodexLegacy.EdgeSpendInfo -> result EdgeTransaction)
  (checkInvalidCodes :
     Godex.InvalidCurrencyCodes -> GodexLegacy.EdgeSwapRequest -> EdgeSwapInfo -> result unit)
  (getCodesWithTranscription :
     GodexLegacy.EdgeSwapRequest -> gmap string string -> Godex.MainnetCodes)
  (makeSwapPluginQuote : GodexLegacy.QuoteArgs EdgeTransaction -> EdgeSwapQuote).

#[local] Abbreviation legacy_call := (GodexLegacy.call W fetchCors).
#[local] Abbreviation calculate_amounts := (GodexLegacy.calculate_amounts W fetchCors).
#[local] Abbreviation legacy_fetchSwapQuote :=
  (GodexLegacy.fetchSwapQuote W fetchCors dateNow initOptions EdgeTransaction
     EdgeSwapQuote makeSpend checkInvalidCodes getCodesWithTranscription
     makeSwapPluginQuote).

(** The backend, in the world [w], answers the POST of [params] to [url]
    with an OK response whose body is [raw], and leaves the world [w']. *)
Definition served (w : W) (url : string) (params raw : json) (w' : W) : Prop :=
  exists r,
    fetchCors url (post_json params) w = (Ok r, w') /\ ok r = true /\ json_body r = Ok raw.




End LegacyQuote.

(* ================================================================== *)
(** * How the totle plugin fetches a quote                              *)
(* ================================================================== *)

(** The request for the list of tokens. *)
Definition tokens_call : TotlePlugin.FetchCall :=
  TotlePlugin.Build_FetchCall TotlePlugin.tokenUri
    {| TotlePlugin.method := "GET"; TotlePlugin.body := None; TotlePlugin.headers := [] |}.

(** The request for a swap: a POST of the JSON text of [body]. *)
Definition swap_call (body : json) : TotlePlugin.FetchCall :=
  TotlePlugin.Build_FetchCall TotlePlugin.swapUri
    {| TotlePlugin.method := "POST"; TotlePlugin.body := Some body;
       TotlePlugin.headers := [("Content-Type", "application/json")] |}.

(** The error a reply that is not OK is turned into. *)
Definition totle_status_error (r : TotlePlugin.Response) : JsError :=
  Error ("Totle returned error code " ++ biggystring.print_N (TotlePlugin.status r)).

(** A computation that sends no request. *)
Definition sends_nothing {W A} (m : M (TotlePlugin.State W) A) : Prop :=
  forall s, TotlePlugin.requests (snd (m s)) = TotlePlugin.requests s.

Lemma sends_nothing_lift {W A} (r : result A) : sends_nothing (W := W) (lift r).
Proof. intros s. reflexivity. Qed.

Lemma sends_nothing_ret {W A} (a : A) : sends_nothing (W := W) (ret a).
Proof. intros s. reflexivity. Qed.

Lemma sends_nothing_throw {W A} (e : JsError) : sends_nothing (W := W) (A := A) (throw e).
Proof. intros s. reflexivity. Qed.

Lemma sends_nothing_bind {W A B} (m : M (TotlePlugin.State W) A)
    (k : A -> M (TotlePlugin.State W) B) :
  sends_nothing m -> (forall a, sends_nothing (k a)) -> sends_nothing (bind m k).
Proof.
  intros Hm Hk s. unfold bind. specialize (Hm s).
  destruct (m s) as [[a | e] s1]; cbn in *; [|exact Hm].
  now rewrite Hk.
Qed.

Lemma sends_nothing_wallet_op {W A} (op : W -> result A * W) :
  sends_nothing (TotlePlugin.wallet_op W op).
Proof. intros s. unfold TotlePlugin.wallet_op. now destruct (op _). Qed.

Lemma find_symbol_none (tokens : list TotlePlugin.Token) code :
  ~ In code (map TotlePlugin.symbol tokens) ->
  find (fun t => String.eqb (TotlePlugin.symbol t) code) tokens = None.
Proof.
  intros Hnot. destruct (find _ tokens) as [t|] eqn:Hfind; [|reflexivity].
  exfalso. apply find_some in Hfind as [Hin Heq]. apply String.eqb_eq in Heq.
  apply Hnot. rewrite <- Heq. now apply in_map.
Qed.

Lemma find_symbol_some (tokens : list TotlePlugin.Token) code t :
  find (fun t => String.eqb (TotlePlugin.symbol t) code) tokens = Some t ->
  TotlePlugin.symbol t = code.
Proof. intros Hfind. apply find_some in Hfind as [_ Heq]. now apply String.eqb_eq. Qed.

Section TotlePluginFacts.

Context (W : Type)
  (fetchCors : string -> TotlePlugin.FetchOptions -> W -> result TotlePlugin.Response * W)
  (dateNow : W -> Z)
  (partnerContract apiKey : option json)
  (getReceiveAddress : Totle.EdgeCurrencyWallet W -> W -> result EdgeReceiveAddress * W)
  (wallet_id : Totle.EdgeCurrencyWallet W -> string)
  (makeSpend : Totle.EdgeCurrencyWallet W -> TotlePlugin.EdgeSpendInfo -> W ->
               result Totle.EdgeTransaction * W)
  (div : string -> string -> nat -> result string)
  (mul : string -> string -> result string)
  (gasPriceGwei : string -> string).

#[local] Abbreviation fetchTokens := (TotlePlugin.fetchTokens W fetchCors).
#[local] Abbreviation fetchSwapReply :=
  (TotlePlugin.fetchSwapReply W fetchCors partnerContract apiKey).
#[local] Abbreviation checkSwapReply := (TotlePlugin.checkSwapReply W).
#[local] Abbreviation spendInfo_of := (TotlePlugin.spendInfo_of W wallet_id gasPriceGwei).
#[local] Abbreviation make_txs := (TotlePlugin.make_txs W wallet_id makeSpend gasPriceGwei).
#[local] Abbreviation adjusted_amounts := (TotlePlugin.adjusted_amounts W div mul).
#[local] Abbreviation quote_of_reply :=
  (TotlePlugin.quote_of_reply W dateNow wallet_id makeSpend div mul gasPriceGwei).
#[local] Abbreviation fetchSwapQuote :=
  (TotlePlugin.fetchSwapQuote W fetchCors dateNow partnerContract apiKey getReceiveAddress
     wallet_id makeSpend div mul gasPriceGwei).

Implicit Types (s : TotlePlugin.State W) (request : Totle.EdgeSwapRequest W).

(** The state after one more request. *)
Definition requested s (w' : W) (c : TotlePlugin.FetchCall) : TotlePlugin.State W :=
  TotlePlugin.Build_State w' (TotlePlugin.requests s ++ [c]).

(** The body [fetchSwapReply] posts for the members [members]. *)
Definition posted_body (members : list (string * option json)) : json :=
  js_object (TotlePlugin.js_set (TotlePlugin.js_set members "partnerContract" partnerContract)
               "apiKey" apiKey).

(** What [fetchTokens] does with the outcome of its request. *)
Lemma fetchTokens_run s :
  fetchTokens s =
  (match fst (fetchCors TotlePlugin.tokenUri (TotlePlugin.call_opts tokens_call)
                (TotlePlugin.world s)) with
   | Throw e => Throw e
   | Ok r =>
       if negb (TotlePlugin.ok r) then Throw (totle_status_error r)
       else match TotlePlugin.json_body r with
            | Ok (TotlePlugin.TokensReply tokens) => Ok (Some tokens)
            | Ok (TotlePlugin.SwapReply _) => Ok None
            | Throw e => Throw e
            end
   end,
   requested s (snd (fetchCors TotlePlugin.tokenUri (TotlePlugin.call_opts tokens_call)
                       (TotlePlugin.world s))) tokens_call).
Proof.
  unfold TotlePlugin.fetchTokens, bind, TotlePlugin.fetch, throw, lift, ret, requested,
    tokens_call, totle_status_error.
  cbn [TotlePlugin.call_opts].
  destruct (fetchCors _ _ _) as [[r | e] w']; cbn [fst snd]; [|reflexivity].
  destruct (negb (TotlePlugin.ok r)); [reflexivity|].
  destruct (TotlePlugin.json_body r) as [[reply | tokens] | e]; reflexivity.
Qed.

(** What [fetchSwapReply] does with the outcome of its request. *)
Lemma fetchSwapReply_run members s :
  fetchSwapReply members s =
  (match fst (fetchCors TotlePlugin.swapUri
                (TotlePlugin.call_opts (swap_call (posted_body members)))
                (TotlePlugin.world s)) with
   | Throw e => Throw e
   | Ok r =>
       if negb (TotlePlugin.ok r) then Throw (totle_status_error r)
       else TotlePlugin.json_body r
   end,
   requested s (snd (fetchCors TotlePlugin.swapUri
                       (TotlePlugin.call_opts (swap_call (posted_body members)))
                       (TotlePlugin.world s)))
     (swap_call (posted_body members))).
Proof.
  unfold TotlePlugin.fetchSwapReply, bind, TotlePlugin.fetch, throw, lift, ret, requested,
    swap_call, posted_body, totle_status_error.
  cbn [TotlePlugin.call_opts].
  destruct (fetchCors _ _ _) as [[r | e] w']; cbn [fst snd]; [|reflexivity].
  destruct (negb (TotlePlugin.ok r)); [reflexivity|].
  destruct (TotlePlugin.json_body r) as [reply | e]; reflexivity.
Qed.

(** The two fetch helpers of the totle plugin.  Each sends exactly one
    request per call, whatever the outcome: [fetchTokens] a GET of the
    token list without body or headers, [fetchSwapReply] a POST to the swap
    endpoint.  A transport failure is passed on.  A reply that is not OK is
    turned into an [Error] whose message ends with the digits of the
    status, for every status: unlike godex's helper there is no special
    case for 422.  An OK reply gives the parsed body: for [fetchTokens] its
    member [tokens], which is [undefined] when the body has none. *)
Theorem totle_fetch_helpers :
  (forall s,
     let out := fetchCors TotlePlugin.tokenUri (TotlePlugin.call_opts tokens_call)
                  (TotlePlugin.world s) in
     let res := fetchTokens s in
     TotlePlugin.requests (snd res) = (TotlePlugin.requests s ++ [tokens_call])%list /\
     TotlePlugin.world (snd res) = snd out /\
     (forall e, fst out = Throw e -> fst res = Throw e) /\
     (forall r, fst out = Ok r ->
        (TotlePlugin.ok r = false ->
         fst res = Throw (Error ("Totle returned error code " ++
                                 biggystring.print_N (TotlePlugin.status r))) /\
         biggystring.digits_acc (biggystring.print_N (TotlePlugin.status r)) 0
         = Some (TotlePlugin.status r)) /\
        (TotlePlugin.ok r = true ->
         fst res =
         match TotlePlugin.json_body r with
         | Ok (TotlePlugin.TokensReply tokens) => Ok (Some tokens)
         | Ok (TotlePlugin.SwapReply _) => Ok None
         | Throw e => Throw e
         end)))
  /\
  (forall members s,
     exists body,
     let out := fetchCors TotlePlugin.swapUri (TotlePlugin.call_opts (swap_call body))
                  (TotlePlugin.world s) in
     let res := fetchSwapReply members s in
     TotlePlugin.requests (snd res) = (TotlePlugin.requests s ++ [swap_call body])%list /\
     TotlePlugin.world (snd res) = snd out /\
     (forall e, fst out = Throw e -> fst res = Throw e) /\
     (forall r, fst out = Ok r ->
        (TotlePlugin.ok r = false ->
         fst res = Throw (Error ("Totle returned error code " ++
                                 biggystring.print_N (TotlePlugin.status r))) /\
         biggystring.digits_acc (biggystring.print_N (TotlePlugin.status r)) 0
         = Some (TotlePlugin.status r)) /\
        (TotlePlugin.ok r = true -> fst res = TotlePlugin.json_body r))).
Proof.
  split.
  - intros s out res. subst res. rewrite fetchTokens_run. fold out.
    cbn [fst snd requested TotlePlugin.requests TotlePlugin.world].
    split; [reflexivity|]. split; [reflexivity|]. split.
    + intros e ->. reflexivity.
    + intros r ->. split.
      * intros Hok. rewrite Hok. cbn [negb].
        split; [reflexivity | apply biggystring.digits_acc_print_N].
      * intros Hok. now rewrite Hok.
  - intros members s. exists (posted_body members). intros out res. subst res.
    rewrite fetchSwapReply_run. fold out.
    cbn [fst snd requested TotlePlugin.requests TotlePlugin.world].
    split; [reflexivity|]. split; [reflexivity|]. split.
    + intros e ->. reflexivity.
    + intros r ->. split.
      * intros Hok. rewrite Hok. cbn [negb].
        split; [reflexivity | apply biggystring.digits_acc_print_N].
      * intros Hok. now rewrite Hok.
Qed.

(** The backend served the list [tokens]: the request for the token list
    was answered with an OK reply whose body has the member [tokens],
    leaving the world in [w1]. *)
Definition tokens_served s (tokens : list TotlePlugin.Token) (w1 : W) : Prop :=
  exists r,
    fetchCors TotlePlugin.tokenUri (TotlePlugin.call_opts tokens_call) (TotlePlugin.world s)
    = (Ok r, w1) /\
    TotlePlugin.ok r = true /\
    TotlePlugin.json_body r = Ok (TotlePlugin.TokensReply tokens).

Lemma fetchTokens_served s tokens w1 :
  tokens_served s tokens w1 ->
  fetchTokens s = (Ok (Some tokens), requested s w1 tokens_call).
Proof.
  intros (r & Hfetch & Hok & Hjson). rewrite fetchTokens_run, Hfetch. cbn [fst snd].
  now rewrite Hok, Hjson.
Qed.

(** A pair the token list does not support is rejected before anything is
    asked of the wallets or of the swap endpoint.  When the list the
    backend served has no token whose symbol is the source currency code,
    or none whose symbol is the destination currency code, or when the two
    codes are the same, [fetchSwapQuote] is rejected with
    [SwapCurrencyError] for the two codes; the request for the token list
    is the only request sent, and the world is as that request left it. *)
Theorem totle_unsupported_pair request s tokens w1 :
  tokens_served s tokens w1 ->
  ~ In (Totle.fromCurrencyCode W request) (map TotlePlugin.symbol tokens) \/
  ~ In (Totle.toCurrencyCode W request) (map TotlePlugin.symbol tokens) \/
  Totle.fromCurrencyCode W request = Totle.toCurrencyCode W request ->
  fetchSwapQuote request s =
  (Throw (SwapCurrencyError Totle.swapInfo
            (Totle.fromCurrencyCode W request) (Totle.toCurrencyCode W request)),
   requested s w1 tokens_call).
Proof.
  intros Hserved Hpair. unfold TotlePlugin.fetchSwapQuote.
  unfold bind at 1. rewrite (fetchTokens_served _ _ _ Hserved).
  destruct (find _ tokens) as [fromToken|] eqn:Hfrom; [|reflexivity].
  destruct (find (fun t => String.eqb (TotlePlugin.symbol t) (Totle.toCurrencyCode W request))
              tokens) as [toToken|] eqn:Hto; [|reflexivity].
  apply find_symbol_some in Hfrom as Hsf. apply find_symbol_some in Hto as Hst.
  destruct Hpair as [Hnot | [Hnot | Hsame]].
  - apply find_symbol_none in Hnot. congruence.
  - apply find_symbol_none in Hnot. congruence.
  - rewrite Hsf, Hst, Hsame, String.eqb_refl. reflexivity.
Qed.

(** The tokens were found and the addresses resolved: the list served
    has [fromToken] as its first token with the source symbol and [toToken]
    as its first token with the destination symbol, the two currency codes
    differ, and the two wallets gave the addresses [fromInfo] and [toInfo],
    the source wallet first, leaving the world in [w3]. *)
Definition addresses_resolved request s (fromToken toToken : TotlePlugin.Token)
    (fromInfo toInfo : EdgeReceiveAddress) (w3 : W) : Prop :=
  exists tokens w1 w2,
    tokens_served s tokens w1 /\
    find (fun t => String.eqb (TotlePlugin.symbol t) (Totle.fromCurrencyCode W request))
      tokens = Some fromToken /\
    find (fun t => String.eqb (TotlePlugin.symbol t) (Totle.toCurrencyCode W request))
      tokens = Some toToken /\
    Totle.fromCurrencyCode W request <> Totle.toCurrencyCode W request /\
    getReceiveAddress (Totle.fromWallet request) w1 = (Ok fromInfo, w2) /\
    getReceiveAddress (Totle.toWallet W request) w2 = (Ok toInfo, w3).

(** [fetchSwapQuote] from the point where the addresses are known. *)
Lemma fetchSwapQuote_after_addresses request s fromToken toToken fromInfo toInfo w3 :
  addresses_resolved request s fromToken toToken fromInfo toInfo w3 ->
  fetchSwapQuote request s =
  bind (fetchSwapReply
          (TotlePlugin.swap_request W request fromToken toToken
             (publicAddress fromInfo) (publicAddress toInfo)))
       (quote_of_reply request fromToken toToken (publicAddress toInfo))
       (TotlePlugin.Build_State w3 (TotlePlugin.requests s ++ [tokens_call])).
Proof.
  intros (tokens & w1 & w2 & Hserved & Hfrom & Hto & Hne & Hfa & Hta).
  unfold TotlePlugin.fetchSwapQuote.
  unfold bind at 1. rewrite (fetchTokens_served _ _ _ Hserved).
  rewrite Hfrom, Hto.
  apply find_symbol_some in Hfrom as Hsf. apply find_symbol_some in Hto as Hst.
  rewrite Hsf, Hst. apply String.eqb_neq in Hne. rewrite Hne.
  unfold bind at 1. unfold TotlePlugin.wallet_op at 1.
  cbn [requested TotlePlugin.world TotlePlugin.requests]. rewrite Hfa.
  unfold bind at 1. unfold TotlePlugin.wallet_op at 1.
  cbn [TotlePlugin.world TotlePlugin.requests]. rewrite Hta.
  reflexivity.
Qed.

Lemma make_txs_sends_nothing request userToAddress toNativeAmount transactions :
  sends_nothing (make_txs request userToAddress toNativeAmount transactions).
Proof.
  induction transactions as [|tx rest IH]; cbn [TotlePlugin.make_txs].
  - apply sends_nothing_ret.
  - apply sends_nothing_bind; [apply sends_nothing_wallet_op | intros transaction].
    apply sends_nothing_bind; [exact IH | intros txs]. apply sends_nothing_ret.
Qed.

(** The second half of [fetchSwapQuote] sends no request. *)
Lemma quote_of_reply_sends_nothing request fromToken toToken userToAddress reply :
  sends_nothing (quote_of_reply request fromToken toToken userToAddress reply).
Proof.
  unfold TotlePlugin.quote_of_reply.
  apply sends_nothing_bind; [apply sends_nothing_lift | intros swapResponse].
  destruct swapResponse as [[details | details] | tokens];
    try apply sends_nothing_throw.
  destruct (TotlePlugin.summary details) as [|first rest]; [apply sends_nothing_throw|].
  apply sends_nothing_bind; [apply sends_nothing_lift | intros amounts].
  apply sends_nothing_bind; [apply make_txs_sends_nothing | intros txs].
  apply sends_nothing_bind; [intros s0; reflexivity | intros now].
  apply sends_nothing_bind; [apply sends_nothing_lift | intros quote].
  apply sends_nothing_ret.
Qed.

(** The swap request.  Once the tokens are found and the addresses
    resolved, [fetchSwapQuote] sends exactly two requests however it ends:
    the request for the token list and one POST to the swap endpoint.  The
    body of the POST names the source wallet's public address as [address],
    asks for transactions, and carries the members [partnerContract] and
    [apiKey] of the plugin's options when they are defined.  Its member
    [swap] names the addresses of the two tokens, the destination wallet's
    public address, and the requested native amount: as [sourceAmount]
    for a request quoted on the 'from' side, as [destinationAmount] for any
    other request ('to' and 'max' alike), never as both. *)
Theorem totle_swap_request request s fromToken toToken fromInfo toInfo w3 :
  addresses_resolved request s fromToken toToken fromInfo toInfo w3 ->
  exists body swap,
    TotlePlugin.requests (snd (fetchSwapQuote request s))
    = (TotlePlugin.requests s ++ [tokens_call; swap_call body])%list /\
    get_prop body "address" = Some (JString (publicAddress fromInfo)) /\
    get_prop body "config" = Some (JObject [ ("transactions", JBool true) ]) /\
    get_prop body "partnerContract" = partnerContract /\
    get_prop body "apiKey" = apiKey /\
    get_prop body "swap" = Some swap /\
    get_prop swap "sourceAsset" = Some (JString (TotlePlugin.address fromToken)) /\
    get_prop swap "destinationAsset" = Some (JString (TotlePlugin.address toToken)) /\
    get_prop swap "sourceAmount" =
      match Totle.quoteFor W request with
      | QuoteFrom => Some (JString (Totle.request_nativeAmount W request))
      | _ => None
      end /\
    get_prop swap "destinationAmount" =
      match Totle.quoteFor W request with
      | QuoteFrom => None
      | _ => Some (JString (Totle.request_nativeAmount W request))
      end /\
    get_prop swap "destinationAddress" = Some (JString (publicAddress toInfo)).
Proof.
  intros Hresolved.
  rewrite (fetchSwapQuote_after_addresses _ _ _ _ _ _ _ Hresolved).
  set (body := posted_body (TotlePlugin.swap_request W request fromToken toToken
                              (publicAddress fromInfo) (publicAddress toInfo))).
  exists body, (match get_prop body "swap" with Some swap => swap | None => JNull end).
  subst body. split.
  - unfold bind. rewrite fetchSwapReply_run.
    destruct (fst (fetchCors _ _ _)) as [r | e].
    + destruct (negb (TotlePlugin.ok r)).
      * cbn [snd requested TotlePlugin.requests]. rewrite <- app_assoc. reflexivity.
      * destruct (TotlePlugin.json_body r) as [reply | e].
        -- rewrite quote_of_reply_sends_nothing.
           cbn [snd requested TotlePlugin.requests]. rewrite <- app_assoc. reflexivity.
        -- cbn [snd requested TotlePlugin.requests]. rewrite <- app_assoc. reflexivity.
    + cbn [snd requested TotlePlugin.requests]. rewrite <- app_assoc. reflexivity.
  - unfold posted_body, TotlePlugin.swap_request.
    destruct partnerContract, apiKey, (Totle.quoteFor W request);
      cbn [Godex.is_from]; repeat split; reflexivity.
Qed.

(** The swap endpoint replied [reply]: the tokens were found, the
    addresses resolved, and the POST to the swap endpoint was answered with
    an OK reply whose body is [reply]; [s2] is the state then. *)
Definition swap_replied request s (fromToken toToken : TotlePlugin.Token)
    (toInfo : EdgeReceiveAddress) (reply : TotlePlugin.Reply) (s2 : TotlePlugin.State W)
    : Prop :=
  exists fromInfo w3 r w4,
    addresses_resolved request s fromToken toToken fromInfo toInfo w3 /\
    let body := posted_body (TotlePlugin.swap_request W request fromToken toToken
                               (publicAddress fromInfo) (publicAddress toInfo)) in
    fetchCors TotlePlugin.swapUri (TotlePlugin.call_opts (swap_call body)) w3 = (Ok r, w4) /\
    TotlePlugin.ok r = true /\
    TotlePlugin.json_body r = Ok reply /\
    s2 = TotlePlugin.Build_State w4
           (TotlePlugin.requests s ++ [tokens_call; swap_call body]).

(** [fetchSwapQuote] from the point where the swap endpoint has replied. *)
Lemma fetchSwapQuote_after_reply request s fromToken toToken toInfo reply s2 :
  swap_replied request s fromToken toToken toInfo reply s2 ->
  fetchSwapQuote request s
  = quote_of_reply request fromToken toToken (publicAddress toInfo) reply s2.
Proof.
  intros (fromInfo & w3 & r & w4 & Hresolved & Hfetch & Hok & Hjson & ->).
  rewrite (fetchSwapQuote_after_addresses _ _ _ _ _ _ _ Hresolved).
  unfold bind at 1. rewrite fetchSwapReply_run.
  cbn [TotlePlugin.world]. rewrite Hfetch. cbn [fst snd]. rewrite Hok, Hjson.
  cbn [negb]. unfold requested. cbn [TotlePlugin.requests].
  rewrite <- app_assoc. reflexivity.
Qed.

(** An error reply of the swap endpoint.  When the endpoint answers with
    a reply whose [success] is [false], [fetchSwapQuote] is rejected
    according to the code of the reply: 1203 with [SwapCurrencyError] for
    the two currency codes, 3100 with [InsufficientFundsError], 1201 with
    [NoAmountSpecifiedError], and every other code with an [Error] whose
    message is ['Totle API Error: '] followed by the message of the reply.
    Nothing is asked of the wallet after the reply: the world and the
    requests are as the reply left them. *)
Theorem totle_backend_error request s fromToken toToken toInfo details s2 :
  swap_replied request s fromToken toToken toInfo
    (TotlePlugin.SwapReply (TotlePlugin.TotleErrorResponse details)) s2 ->
  let res := fetchSwapQuote request s in
  snd res = s2 /\
  (TotlePlugin.code details = 1203 ->
   fst res = Throw (SwapCurrencyError Totle.swapInfo
                      (Totle.fromCurrencyCode W request) (Totle.toCurrencyCode W request))) /\
  (TotlePlugin.code details = 3100 -> fst res = Throw InsufficientFundsError) /\
  (TotlePlugin.code details = 1201 -> fst res = Throw NoAmountSpecifiedError) /\
  (TotlePlugin.code details <> 1203 -> TotlePlugin.code details <> 3100 ->
   TotlePlugin.code details <> 1201 ->
   fst res = Throw (Error ("Totle API Error: " ++ TotlePlugin.message details))).
Proof.
  intros Hreplied res. subst res.
  rewrite (fetchSwapQuote_after_reply _ _ _ _ _ _ _ Hreplied).
  unfold TotlePlugin.quote_of_reply, bind, lift, TotlePlugin.checkSwapReply.
  destruct (Z.eqb_spec (TotlePlugin.code details) 1203) as [H1 | H1].
  { cbn [fst snd]. repeat split; try reflexivity; intros; congruence. }
  destruct (Z.eqb_spec (TotlePlugin.code details) 3100) as [H2 | H2].
  { cbn [fst snd]. repeat split; try reflexivity; intros; congruence. }
  destruct (Z.eqb_spec (TotlePlugin.code details) 1201) as [H3 | H3].
  { cbn [fst snd]. repeat split; try reflexivity; intros; congruence. }
  cbn [fst snd]. repeat split; try reflexivity; intros; congruence.
Qed.

(** The transactions the loop made: one per transaction of the reply, in
    the order of the reply, each made by the source wallet for the spend
    information of that transaction. *)
Definition made_for request (userToAddress toNativeAmount : string)
    (backendTx : TotlePlugin.TotleTransaction) (tx : Totle.EdgeTransaction) : Prop :=
  exists w w',
    makeSpend (Totle.fromWallet request)
      (spendInfo_of request userToAddress toNativeAmount backendTx) w = (Ok tx, w').

Lemma make_txs_ok_inv request userToAddress toNativeAmount :
  forall transactions s txs s',
    make_txs request userToAddress toNativeAmount transactions s = (Ok txs, s') ->
    Forall2 (made_for request userToAddress toNativeAmount) transactions txs.
Proof.
  induction transactions as [|tx rest IH]; intros s txs s' H; cbn [TotlePlugin.make_txs] in H.
  - unfold ret in H. injection H as <- _. constructor.
  - apply bind_ok_inv in H as (transaction & s1 & Hspend & H).
    apply bind_ok_inv in H as (txs' & s2 & Hrest & H).
    unfold ret in H. injection H as <- _.
    constructor; [|exact (IH _ _ _ Hrest)].
    unfold TotlePlugin.wallet_op in Hspend.
    destruct (makeSpend _ _ _) as [r w'] eqn:Hm.
    injection Hspend as -> _. now exists (TotlePlugin.world s), w'.
Qed.

(** What a returned totle quote contains.  Whenever [fetchSwapQuote]
    returns a quote, it has sent exactly two requests, the token list and
    the swap request; both tokens were in the list and the currency codes
    differ; the swap endpoint replied with a successful response
    [details] whose first summary is [first].  On the requested side the
    quote keeps the amount of that summary ([sourceAmount] for a request
    quoted on the 'from' side, [destinationAmount] for any other); the
    other side is the amount recomputed from the guaranteed rate.  The quote
    pays out to the destination wallet's public address, is no estimate,
    and expires 20 minutes after the clock reading taken once all
    transactions were made.  Its transactions are, in the order of the
    reply, the transactions the source wallet made for the transactions of
    the reply, each spending [tx.value] to [tx.to] with the payout amount of
    the quote in its swap data; there is at least one, so that the
    rejection 'No Totle swapTx' of [approve] cannot occur for a fetched
    quote. *)
Theorem totle_quote_contents request s q s' :
  fetchSwapQuote request s = (Ok q, s') ->
  exists fromToken toToken fromInfo toInfo w3 details first body r w w',
    addresses_resolved request s fromToken toToken fromInfo toInfo w3 /\
    TotlePlugin.requests s'
    = (TotlePlugin.requests s ++ [tokens_call; swap_call body])%list /\
    fetchCors TotlePlugin.swapUri (TotlePlugin.call_opts (swap_call body)) w = (Ok r, w') /\
    TotlePlugin.json_body r
    = Ok (TotlePlugin.SwapReply (TotlePlugin.TotleSwapResponse details)) /\
    head (TotlePlugin.summary details) = Some first /\
    adjusted_amounts request fromToken toToken first
    = Ok (Totle.fromNativeAmount q, Totle.toNativeAmount q) /\
    (if Godex.is_from (Totle.quoteFor W request)
     then Totle.fromNativeAmount q = TotlePlugin.sourceAmount first
     else Totle.toNativeAmount q = TotlePlugin.destinationAmount first) /\
    Totle.destinationAddress q = publicAddress toInfo /\
    Totle.quote_pluginId q = "totle" /\
    Totle.isEstimate q = false /\
    Totle.expirationDate q = Some (dateNow (TotlePlugin.world s') + 1200000) /\
    Totle.quote_fromWallet q = Totle.fromWallet request /\
    Forall2 (made_for request (publicAddress toInfo) (Totle.toNativeAmount q))
      (TotlePlugin.transactions details) (Totle.quote_txs q) /\
    Totle.quote_txs q <> [] /\
    Totle.txs_now (Totle.initial_state q w') <> [].
Proof.
  intros H. unfold TotlePlugin.fetchSwapQuote in H.
  apply bind_ok_inv in H as (tokens_opt & s1 & Htokens & H).
  rewrite fetchTokens_run in Htokens.
  destruct (fetchCors TotlePlugin.tokenUri _ _) as [[r0 | e] w1] eqn:Hfetch0;
    cbn [fst snd] in Htokens; [|discriminate].
  destruct (TotlePlugin.ok r0) eqn:Hok0; cbn [negb] in Htokens; [|discriminate].
  destruct (TotlePlugin.json_body r0) as [[reply0 | tokens] | e] eqn:Hjson0;
    [injection Htokens as <- <-; discriminate H | | discriminate Htokens].
  injection Htokens as <- <-.
  destruct (find _ tokens) as [fromToken|] eqn:Hfrom; [|discriminate H].
  destruct (find (fun t => String.eqb (TotlePlugin.symbol t) (Totle.toCurrencyCode W request))
              tokens) as [toToken|] eqn:Hto; [|discriminate H].
  destruct (String.eqb (TotlePlugin.symbol fromToken) (TotlePlugin.symbol toToken)) eqn:Hsame;
    [discriminate H|].
  apply bind_ok_inv in H as (fromInfo & s2 & Hfa & H).
  apply bind_ok_inv in H as (toInfo & s3 & Hta & H).
  apply bind_ok_inv in H as (reply & s4 & Hreply & H).
  unfold TotlePlugin.wallet_op in Hfa, Hta.
  cbn [requested TotlePlugin.world TotlePlugin.requests] in Hfa.
  destruct (getReceiveAddress (Totle.fromWallet request) w1) as [rf w2] eqn:Hgf.
  injection Hfa as -> <-. cbn [TotlePlugin.world TotlePlugin.requests] in Hta.
  destruct (getReceiveAddress (Totle.toWallet W request) w2) as [rt w3] eqn:Hgt.
  injection Hta as -> <-.
  rewrite fetchSwapReply_run in Hreply. cbn [TotlePlugin.world] in Hreply.
  destruct (fetchCors TotlePlugin.swapUri _ w3) as [[r | e] w4] eqn:Hfetch;
    cbn [fst snd] in Hreply; [|discriminate].
  destruct (TotlePlugin.ok r) eqn:Hok; cbn [negb] in Hreply; [|discriminate].
  injection Hreply as Hjson <-.
  unfold TotlePlugin.quote_of_reply in H.
  apply lift_bind_ok_inv in H as (swapResponse & Hcheck & H).
  destruct swapResponse as [[details | details] | tokens'];
    [| discriminate H | discriminate H].
  assert (Hreply : reply = TotlePlugin.SwapReply (TotlePlugin.TotleSwapResponse details)).
  { unfold TotlePlugin.checkSwapReply in Hcheck.
    destruct reply as [[d | d] | t]; try congruence.
    destruct (TotlePlugin.code d =? 1203); [discriminate|].
    destruct (TotlePlugin.code d =? 3100); [discriminate|].
    destruct (TotlePlugin.code d =? 1201); discriminate. }
  subst reply.
  destruct (TotlePlugin.summary details) as [|first rest] eqn:Hsummary; [discriminate H|].
  apply lift_bind_ok_inv in H as (amounts & Hamounts & H).
  apply bind_ok_inv in H as (txs & s5 & Htxs & H).
  pose proof (make_txs_sends_nothing request (publicAddress toInfo) (snd amounts)
                (TotlePlugin.transactions details)
                (requested
                   (TotlePlugin.Build_State w3 (TotlePlugin.requests s ++ [tokens_call])) w4
                   (swap_call (posted_body
                      (TotlePlugin.swap_request W request fromToken toToken
                         (publicAddress fromInfo) (publicAddress toInfo)))))) as Hreq.
  rewrite Htxs in Hreq. cbn [snd requested TotlePlugin.requests] in Hreq.
  apply make_txs_ok_inv in Htxs as Hmade.
  unfold bind at 1 in H. unfold TotlePlugin.Date_now at 1 in H.
  apply lift_bind_ok_inv in H as (quote & Hquote & H).
  unfold ret in H. injection H as <- <-.
  unfold Totle.makeTotleSwapPluginQuote in Hquote.
  destruct (last txs) as [swapTx|] eqn:Hlast; [|discriminate].
  injection Hquote as <-.
  cbn [Totle.fromNativeAmount Totle.toNativeAmount Totle.destinationAddress
       Totle.quote_pluginId Totle.isEstimate Totle.expirationDate Totle.quote_fromWallet
       Totle.quote_txs Totle.initial_state Totle.txs_now].
  assert (Hne : Totle.fromCurrencyCode W request <> Totle.toCurrencyCode W request).
  { apply find_symbol_some in Hfrom. apply find_symbol_some in Hto.
    apply String.eqb_neq in Hsame. congruence. }
  assert (Hnil : txs <> []) by (intros ->; discriminate).
  eexists fromToken, toToken, fromInfo, toInfo, w3, details, first, _, r, w3, w4.
  split.
  { exists tokens, w1, w2. split; [now exists r0|]. now repeat split. }
  split.
  { rewrite Hreq, <- app_assoc. reflexivity. }
  split; [exact Hfetch|]. split; [exact Hjson|].
  split; [now rewrite Hsummary|].
  split; [rewrite Hamounts; now destruct amounts|].
  split.
  { unfold TotlePlugin.adjusted_amounts, result_bind in Hamounts.
    destruct (Godex.is_from (Totle.quoteFor W request)).
    - destruct (div _ _ _) as [a|]; [|discriminate].
      destruct (mul a _) as [b|]; [|discriminate].
      destruct (mul b _) as [c|]; [|discriminate].
      now injection Hamounts as <-.
    - destruct (div _ _ _) as [a|]; [|discriminate].
      destruct (mul a _) as [b|]; [|discriminate].
      destruct (mul b _) as [c|]; [|discriminate].
      now injection Hamounts as <-. }
  do 5 (split; [reflexivity|]).
  split; [exact Hmade|]. split; exact Hnil.
Qed.

(** The transactions [txs] were made for [transactions], one after the
    other, taking the world from [w] to [w']. *)
Inductive spends_made request (userToAddress toNativeAmount : string)
    : list TotlePlugin.TotleTransaction -> W -> list Totle.EdgeTransaction -> W -> Prop :=
| spends_made_nil w :
    spends_made request userToAddress toNativeAmount [] w [] w
| spends_made_cons backendTx rest w tx w1 txs w2 :
    makeSpend (Totle.fromWallet request)
      (spendInfo_of request userToAddress toNativeAmount backendTx) w = (Ok tx, w1) ->
    spends_made request userToAddress toNativeAmount rest w1 txs w2 ->
    spends_made request userToAddress toNativeAmount (backendTx :: rest) w (tx :: txs) w2.

Lemma make_txs_stops request userToAddress toNativeAmount backendTx post e :
  forall pre s txs w w',
    spends_made request userToAddress toNativeAmount pre (TotlePlugin.world s) txs w ->
    makeSpend (Totle.fromWallet request)
      (spendInfo_of request userToAddress toNativeAmount backendTx) w = (Throw e, w') ->
    make_txs request userToAddress toNativeAmount (pre ++ backendTx :: post) s
    = (Throw e, TotlePlugin.Build_State w' (TotlePlugin.requests s)).
Proof.
  induction pre as [|tx0 pre IH]; intros s txs w w' Hmade Hfail.
  - inversion Hmade; subst. cbn [app TotlePlugin.make_txs].
    unfold bind, TotlePlugin.wallet_op. rewrite Hfail. reflexivity.
  - inversion Hmade as [|? ? ? t w1 ts ? Hspend Hrest]; subst.
    cbn [app TotlePlugin.make_txs].
    unfold bind at 1. unfold TotlePlugin.wallet_op at 1. rewrite Hspend.
    unfold bind at 1.
    rewrite (IH (TotlePlugin.Build_State w1 (TotlePlugin.requests s)) ts w w' Hrest Hfail).
    reflexivity.
Qed.

(** A spend the wallet refuses.  When the swap endpoint has replied with
    a successful response and the source wallet refuses to make the
    transaction for one of the transactions of the reply, [fetchSwapQuote]
    is rejected with the wallet's error: the transactions before it were
    made, none is made for the ones after it, no further request is sent,
    and no quote is returned. *)
Theorem totle_spend_refused request s fromToken toToken toInfo details s2
    first amounts pre backendTx post txs w e w' :
  swap_replied request s fromToken toToken toInfo
    (TotlePlugin.SwapReply (TotlePlugin.TotleSwapResponse details)) s2 ->
  head (TotlePlugin.summary details) = Some first ->
  adjusted_amounts request fromToken toToken first = Ok amounts ->
  TotlePlugin.transactions details = (pre ++ backendTx :: post)%list ->
  spends_made request (publicAddress toInfo) (snd amounts) pre (TotlePlugin.world s2) txs w ->
  makeSpend (Totle.fromWallet request)
    (spendInfo_of request (publicAddress toInfo) (snd amounts) backendTx) w
  = (Throw e, w') ->
  fetchSwapQuote request s
  = (Throw e, TotlePlugin.Build_State w' (TotlePlugin.requests s2)).
Proof.
  intros Hreplied Hfirst Hamounts Htxs Hmade Hfail.
  rewrite (fetchSwapQuote_after_reply _ _ _ _ _ _ _ Hreplied).
  unfold TotlePlugin.quote_of_reply.
  unfold bind at 1. unfold lift at 1. cbn [TotlePlugin.checkSwapReply].
  destruct (TotlePlugin.summary details) as [|first' rest]; [discriminate|].
  injection Hfirst as ->.
  unfold bind at 1. unfold lift at 1. rewrite Hamounts, Htxs.
  unfold bind at 1.
  rewrite (make_txs_stops _ _ _ _ _ _ _ _ _ _ _ Hmade Hfail). reflexivity.
Qed.

(** Replies that do not have the declared shape give no quote.  A body
    of the token request without the member [tokens] makes [fetchSwapQuote]
    fail with a [TypeError] after that one request.  Once the swap endpoint
    has replied with an OK response, [fetchSwapQuote] fails with a
    [TypeError], asking nothing of the wallet, when the body has no member
    [response], when its list of summaries is empty, and when its list of
    transactions is empty: without a transaction there is no swap
    transaction to take the network fee from. *)
Theorem totle_malformed_reply :
  (forall request s r w1 reply,
     fetchCors TotlePlugin.tokenUri (TotlePlugin.call_opts tokens_call) (TotlePlugin.world s)
     = (Ok r, w1) ->
     TotlePlugin.ok r = true ->
     TotlePlugin.json_body r = Ok (TotlePlugin.SwapReply reply) ->
     exists msg,
       fetchSwapQuote request s = (Throw (TypeError msg), requested s w1 tokens_call))
  /\
  (forall request s fromToken toToken toInfo reply s2,
     swap_replied request s fromToken toToken toInfo reply s2 ->
     match reply with
     | TotlePlugin.TokensReply _ => True
     | TotlePlugin.SwapReply (TotlePlugin.TotleSwapResponse details) =>
         TotlePlugin.summary details = [] \/
         (exists first amounts,
            head (TotlePlugin.summary details) = Some first /\
            adjusted_amounts request fromToken toToken first = Ok amounts /\
            TotlePlugin.transactions details = [])
     | TotlePlugin.SwapReply (TotlePlugin.TotleErrorResponse _) => False
     end ->
     exists msg, fetchSwapQuote request s = (Throw (TypeError msg), s2)).
Proof.
  split.
  - intros request s r w1 reply Hfetch Hok Hjson.
    unfold TotlePlugin.fetchSwapQuote. unfold bind at 1.
    rewrite fetchTokens_run, Hfetch. cbn [fst snd]. rewrite Hok, Hjson. cbn [negb].
    eexists. reflexivity.
  - intros request s fromToken toToken toInfo reply s2 Hreplied Hshape.
    rewrite (fetchSwapQuote_after_reply _ _ _ _ _ _ _ Hreplied).
    unfold TotlePlugin.quote_of_reply.
    destruct reply as [[details | details] | tokens]; [| contradiction |].
    + unfold bind at 1. unfold lift at 1. cbn [TotlePlugin.checkSwapReply].
      destruct Hshape as [Hsummary | (first & amounts & Hfirst & Hamounts & Htxs)].
      * rewrite Hsummary. eexists. reflexivity.
      * destruct (TotlePlugin.summary details) as [|first' rest]; [discriminate|].
        injection Hfirst as ->.
        unfold bind at 1. unfold lift at 1. rewrite Hamounts, Htxs.
        eexists. reflexivity.
    + eexists. reflexivity.
Qed.

End TotlePluginFacts.

(* ================================================================== *)
(** * An execution of a totle quote that ends well                      *)
(* ================================================================== *)

Section TotleCompletion.

Context {W : Type}.
Implicit Types (q : Totle.EdgeSwapQuote W) (s : Totle.State W).

(** A run of the loop that ends well has made every call of the
    schedule for the transactions it iterated over, and none of them was
    rejected. *)
Lemma approve_loop_ok_schedule q len : forall rest index swapTx s out s',
  Totle.approve_loop q len rest index swapTx s = (Ok out, s') ->
  exists new,
    Totle.calls s' = (Totle.calls s ++ new)%list /\
    map call_step new = schedule index (length rest) /\
    Forall (fun c => call_error c = None) new.
Proof.
  induction rest as [|tx rest IH]; intros index swapTx s out s' Hrun.
  - cbn in Hrun. unfold ret in Hrun. injection Hrun as _ <-.
    exists []. rewrite app_nil_r. repeat split. constructor.
  - rewrite approve_loop_cons in Hrun. cbv zeta in Hrun.
    destruct (Totle.signTx _ tx _) as [[signed | e1] w1]; cbn [fst snd] in Hrun;
      [|discriminate].
    destruct (Totle.broadcastTx _ signed _) as [[swapTx' | e2] w2]; cbn [fst snd] in Hrun;
      [|discriminate].
    destruct (Totle.saveTx _ signed _) as [[[] | e3] w3]; cbn [fst snd] in Hrun;
      [|discriminate].
    apply IH in Hrun as (new & Hcalls & Hsched & Hnone).
    exists (Totle.SignTx index tx (Ok signed) :: Totle.BroadcastTx index signed (Ok swapTx')
            :: Totle.SaveTx index signed (Ok tt) :: new).
    split; [|split].
    + rewrite Hcalls. cbn [logged Totle.calls]. rewrite assigned_calls.
      cbn [logged Totle.calls]. rewrite <- !app_assoc. reflexivity.
    + cbn [map call_step length schedule]. now rewrite Hsched.
    + repeat constructor. exact Hnone.
Qed.

Lemma length_schedule n : forall index, length (schedule index n) = (3 * n)%nat.
Proof.
  induction n as [|n IH]; intros index; [reflexivity|].
  cbn [schedule length]. rewrite IH. lia.
Qed.

(** An execution that ends well is complete.  When [approve] resolves,
    the quote had at least one transaction, and for every transaction of
    the quote, in order, the wallet was asked to sign it, to broadcast it
    and to save it: the calls made are exactly the schedule, three per
    transaction, and none of them was rejected. *)
Theorem approve_completes q s r s' :
  Totle.approve q s = (Ok r, s') ->
  exists new,
    Totle.calls s' = (Totle.calls s ++ new)%list /\
    map call_step new = schedule 0 (length (Totle.txs_now s)) /\
    Forall (fun c => call_error c = None) new /\
    length new = (3 * length (Totle.txs_now s))%nat /\
    (0 < length (Totle.txs_now s))%nat.
Proof.
  intros Hrun. unfold Totle.approve in Hrun.
  apply bind_ok_inv in Hrun as (out & s1 & Hloop & Hret).
  assert (Hs1 : s1 = s').
  { destruct out; unfold ret, throw in Hret; [now injection Hret | discriminate]. }
  subst s1.
  assert (Hpos : (0 < length (Totle.txs_now s))%nat).
  { destruct (Totle.txs_now s) as [|tx rest] eqn:Htxs; [|cbn; lia].
    cbn in Hloop. unfold ret in Hloop. injection Hloop as <- _. discriminate. }
  apply approve_loop_ok_schedule in Hloop as (new & Hcalls & Hsched & Hnone).
  exists new. split; [exact Hcalls|]. split; [exact Hsched|]. split; [exact Hnone|].
  split; [|exact Hpos].
  rewrite <- (length_map call_step new), Hsched. apply length_schedule.
Qed.

End TotleCompletion.

(* ================================================================== *)
(** * The requests of the earlier godex plugin                          *)
(* ================================================================== *)

Section LegacyRequests.

Context (W : Type)
  (fetchCors : string -> FetchOptions -> W -> result FetchResponse * W)
  (dateNow : W -> Z)
  (initOptions : GodexLegacy.InitOptions)
  (EdgeTransaction EdgeSwapQuote : Type)
  (makeSpend : EdgeCurrencyWallet -> GodexLegacy.EdgeSpendInfo -> result EdgeTransaction)
  (checkInvalidCodes :
     Godex.InvalidCurrencyCodes -> GodexLegacy.EdgeSwapRequest -> EdgeSwapInfo -> result unit)
  (getCodesWithTranscription :
     GodexLegacy.EdgeSwapRequest -> gmap string string -> Godex.MainnetCodes)
  (makeSwapPluginQuote : GodexLegacy.QuoteArgs EdgeTransaction -> EdgeSwapQuote).

#[local] Abbreviation legacy_call := (GodexLegacy.call W fetchCors).
#[local] Abbreviation calculate_amounts := (GodexLegacy.calculate_amounts W fetchCors).
#[local] Abbreviation legacy_fetchSwapQuote :=
  (GodexLegacy.fetchSwapQuote W fetchCors dateNow initOptions EdgeTransaction
     EdgeSwapQuote makeSpend checkInvalidCodes getCodesWithTranscription
     makeSwapPluginQuote).

(** The endpoint of the order-creation call of the earlier plugin. *)
Definition legacy_order_url (opts : GodexLegacy.QuoteOpts) : string :=
  GodexLegacy.uri ++ "transaction" ++
  match GodexLegacy.promoCode opts with Some p => "?promo=" ++ p | None => "" end.

(** "Calculate the amounts" sends exactly one request, however it ends. *)
Lemma calculate_amounts_requests request quoteAmount s :
  Io.requests (snd (calculate_amounts request quoteAmount s)) =
  (Io.requests s ++
   [Build_FetchCall (legacy_info_url request)
      (post_json (GodexLegacy.quoteParams request quoteAmount))])%list.
Proof.
  unfold GodexLegacy.calculate_amounts, legacy_info_url.
  destruct (Godex.is_from (GodexLegacy.quoteFor request)).
  - rewrite bind_snd; [now rewrite legacy_call_run|].
    intros response.
    repeat (apply preserves_bind; [apply preserves_lift | intros ?]).
    destruct a1; [intros s0; reflexivity|].
    apply preserves_bind; [apply preserves_lift | intros ?]. apply preserves_ret.
  - rewrite bind_snd; [now rewrite legacy_call_run|].
    intros response.
    repeat (apply preserves_bind; [apply preserves_lift | intros ?]).
    destruct a1; [intros s0; reflexivity|].
    apply preserves_bind; [apply preserves_lift | intros ?]. apply preserves_ret.
Qed.

(** The requests of the earlier plugin.  A run of [fetchSwapQuote]
    sends nothing, or the request to [info] / [info-revert], or that
    request followed by one request to [transaction]: at most one order is
    created, and never without the info request before it.  A run that
    returns a quote has sent both. *)
Theorem legacy_request_sequence request opts s :
  let run := legacy_fetchSwapQuote request opts s in
  exists new,
    Io.requests (snd run) = (Io.requests s ++ new)%list /\
    (new = [] \/
     (exists c, new = [c] /\ call_url c = legacy_info_url request /\
                is_order_creation c = false) \/
     (exists c1 c2, new = [c1; c2] /\
                    call_url c1 = legacy_info_url request /\ is_order_creation c1 = false /\
                    call_url c2 = legacy_order_url opts /\ is_order_creation c2 = true)) /\
    (forall q, fst run = Ok q -> length new = 2%nat).
Proof.
  intros run.
  set (Q := fun res : result EdgeSwapQuote * Io.State W =>
    exists new,
      Io.requests (snd res) = (Io.requests s ++ new)%list /\
      (new = [] \/
       (exists c, new = [c] /\ call_url c = legacy_info_url request /\
                  is_order_creation c = false) \/
       (exists c1 c2, new = [c1; c2] /\
                      call_url c1 = legacy_info_url request /\ is_order_creation c1 = false /\
                      call_url c2 = legacy_order_url opts /\ is_order_creation c2 = true)) /\
      (forall q, fst res = Ok q -> length new = 2%nat)).
  change (Q run). subst run.
  assert (Hnone : forall e : JsError, Q (Throw e, s)).
  { intros e. exists []. cbn [fst snd]. rewrite app_nil_r.
    split; [reflexivity|]. split; [now left | discriminate]. }
  assert (Hinfo : forall quoteAmount,
            is_order_creation
              (Build_FetchCall (legacy_info_url request)
                 (post_json (GodexLegacy.quoteParams request quoteAmount))) = false).
  { intros quoteAmount. unfold is_order_creation, legacy_info_url. cbn [call_url].
    destruct (Godex.is_from (GodexLegacy.quoteFor request)); vm_compute; reflexivity. }
  assert (Horder : forall p,
            is_order_creation (Build_FetchCall (legacy_order_url opts) (post_json p)) = true).
  { intros p. unfold is_order_creation, legacy_order_url. cbn [call_url].
    destruct (GodexLegacy.promoCode opts); vm_compute; reflexivity. }
  unfold GodexLegacy.fetchSwapQuote.
  unfold bind at 1. unfold lift at 1.
  destruct (checkInvalidCodes _ _ _) as [[] | e]; [|apply Hnone].
  unfold bind at 1. unfold lift at 1.
  destruct (GodexLegacy.both_addresses request) as [addresses | e]; [|apply Hnone].
  unfold bind at 1. unfold lift at 1.
  match goal with
  | |- context [match ?m with Ok _ => _ | Throw _ => _ end] =>
      destruct m as [quoteAmount | e]; [|apply Hnone]
  end.
  unfold bind at 1.
  pose proof (calculate_amounts_requests request quoteAmount s) as Hcalc.
  destruct (calculate_amounts request quoteAmount s) as [[amounts | e] s1];
    cbn [snd] in Hcalc.
  2:{ eexists [_]. cbn [fst snd]. split; [exact Hcalc|]. split; [|discriminate].
      right. left. eexists. split; [reflexivity|]. split; [reflexivity | apply Hinfo]. }
  eexists [_; _]. split; [|split; [|reflexivity]].
  - rewrite bind_snd.
    + rewrite legacy_call_run. cbn [snd sent Io.requests].
      rewrite Hcalc, <- app_assoc. reflexivity.
    + intros sendReply.
      repeat (apply preserves_bind; [apply preserves_lift | intros ?]).
      apply preserves_bind; [intros s0; reflexivity | intros now].
      apply preserves_ret.
  - right. right. eexists _, _. split; [reflexivity|].
    split; [reflexivity|]. split; [apply Hinfo|].
    split; [reflexivity | apply Horder].
Qed.

End LegacyRequests.

(* ================================================================== *)
(** * What the cleaner of the order reply accepts                       *)
(* ================================================================== *)

(** The member is a string. *)
Definition is_string (member : option json) : Prop :=
  exists text, member = Some (JString text).

(** The member is a string or [null]; an absent member is neither. *)
Definition is_string_or_null (member : option json) : Prop :=
  member = Some JNull \/ is_string member.

(** The value the cleaner [asEither(asString, asNull)] read. *)
Definition string_or_null (o : option string) : option json :=
  match o with
  | Some text => Some (JString text)
  | None => Some JNull
  end.

Lemma asString_spec member :
  match cleaners.asString member with
  | Ok text => member = Some (JString text)
  | Throw e => (exists msg, e = TypeError msg) /\ ~ is_string member
  end.
Proof.
  unfold cleaners.asString, is_string.
  destruct member as [[| | | text | |]|]; try reflexivity;
    (split; [eauto | intros (text' & [=])]).
Qed.

Lemma asStringOrNull_spec member :
  match cleaners.asStringOrNull member with
  | Ok o => member = string_or_null o
  | Throw e => (exists msg, e = TypeError msg) /\ ~ is_string_or_null member
  end.
Proof.
  unfold cleaners.asStringOrNull, cleaners.asEither, cleaners.asString, cleaners.asNull,
    is_string_or_null, is_string.
  destruct member as [[| | | text | |]|]; try reflexivity;
    (split; [eauto | intros [[=] | (text' & [=])]]).
Qed.

(** The order reply the current godex plugin accepts.  [asQuoteInfo]
    accepts exactly the objects in which [transaction_id], [deposit],
    [deposit_amount], [withdrawal], [withdrawal_amount] and [return] are
    strings and [deposit_extra_id], [withdrawal_extra_id] and
    [return_extra_id] are strings or [null]; it returns these members as
    they are, [null] as absent.  An amount given as a JSON number is
    rejected, and so is an extra id that is missing instead of [null].
    Every rejection is a [TypeError]. *)
Theorem asQuoteInfo_contract raw :
  match Godex.asQuoteInfo raw with
  | Ok info =>
      exists obj,
        cleaners.asObject_raw raw = Ok obj /\
        get_prop obj "transaction_id" = Some (JString (Godex.transaction_id info)) /\
        get_prop obj "deposit" = Some (JString (Godex.deposit info)) /\
        get_prop obj "deposit_extra_id" = string_or_null (Godex.deposit_extra_id info) /\
        get_prop obj "deposit_amount" = Some (JString (Godex.deposit_amount info)) /\
        get_prop obj "withdrawal" = Some (JString (Godex.withdrawal info)) /\
        get_prop obj "withdrawal_extra_id"
          = string_or_null (Godex.withdrawal_extra_id info) /\
        get_prop obj "withdrawal_amount" = Some (JString (Godex.withdrawal_amount info)) /\
        get_prop obj "return" = Some (JString (Godex.return_ info)) /\
        get_prop obj "return_extra_id" = string_or_null (Godex.return_extra_id info)
  | Throw e =>
      (exists msg, e = TypeError msg) /\
      forall obj,
        cleaners.asObject_raw raw = Ok obj ->
        (exists key,
           In key ["transaction_id"; "deposit"; "deposit_amount"; "withdrawal";
                   "withdrawal_amount"; "return"] /\
           ~ is_string (get_prop obj key)) \/
        (exists key,
           In key ["deposit_extra_id"; "withdrawal_extra_id"; "return_extra_id"] /\
           ~ is_string_or_null (get_prop obj key))
  end.
Proof.
  unfold Godex.asQuoteInfo, result_bind.
  destruct (cleaners.asObject_raw raw) as [obj | e] eqn:Hobj.
  2:{ split; [|intros obj [=]].
      unfold cleaners.asObject_raw in Hobj.
      destruct raw as [[| | | | |]|]; try discriminate; injection Hobj as <-; eauto. }
  pose proof (asString_spec (get_prop obj "transaction_id")) as H1.
  destruct (cleaners.asString (get_prop obj "transaction_id")) as [tid | e].
  2:{ destruct H1 as [Hmsg Hbad]. split; [exact Hmsg|]. intros obj' [= <-].
      left. exists "transaction_id". split; [cbn; tauto | exact Hbad]. }
  pose proof (asString_spec (get_prop obj "deposit")) as H2.
  destruct (cleaners.asString (get_prop obj "deposit")) as [dep | e].
  2:{ destruct H2 as [Hmsg Hbad]. split; [exact Hmsg|]. intros obj' [= <-].
      left. exists "deposit". split; [cbn; tauto | exact Hbad]. }
  pose proof (asStringOrNull_spec (get_prop obj "deposit_extra_id")) as H3.
  destruct (cleaners.asStringOrNull (get_prop obj "deposit_extra_id")) as [dep_extra | e].
  2:{ destruct H3 as [Hmsg Hbad]. split; [exact Hmsg|]. intros obj' [= <-].
      right. exists "deposit_extra_id". split; [cbn; tauto | exact Hbad]. }
  pose proof (asString_spec (get_prop obj "deposit_amount")) as H4.
  destruct (cleaners.asString (get_prop obj "deposit_amount")) as [dep_amount | e].
  2:{ destruct H4 as [Hmsg Hbad]. split; [exact Hmsg|]. intros obj' [= <-].
      left. exists "deposit_amount". split; [cbn; tauto | exact Hbad]. }
  pose proof (asString_spec (get_prop obj "withdrawal")) as H5.
  destruct (cleaners.asString (get_prop obj "withdrawal")) as [wd | e].
  2:{ destruct H5 as [Hmsg Hbad]. split; [exact Hmsg|]. intros obj' [= <-].
      left. exists "withdrawal". split; [cbn; tauto | exact Hbad]. }
  pose proof (asStringOrNull_spec (get_prop obj "withdrawal_extra_id")) as H6.
  destruct (cleaners.asStringOrNull (get_prop obj "withdrawal_extra_id")) as [wd_extra | e].
  2:{ destruct H6 as [Hmsg Hbad]. split; [exact Hmsg|]. intros obj' [= <-].
      right. exists "withdrawal_extra_id". split; [cbn; tauto | exact Hbad]. }
  pose proof (asString_spec (get_prop obj "withdrawal_amount")) as H7.
  destruct (cleaners.asString (get_prop obj "withdrawal_amount")) as [wd_amount | e].
  2:{ destruct H7 as [Hmsg Hbad]. split; [exact Hmsg|]. intros obj' [= <-].
      left. exists "withdrawal_amount". split; [cbn; tauto | exact Hbad]. }
  pose proof (asString_spec (get_prop obj "return")) as H8.
  destruct (cleaners.asString (get_prop obj "return")) as [ret_ | e].
  2:{ destruct H8 as [Hmsg Hbad]. split; [exact Hmsg|]. intros obj' [= <-].
      left. exists "return". split; [cbn; tauto | exact Hbad]. }
  pose proof (asStringOrNull_spec (get_prop obj "return_extra_id")) as H9.
  destruct (cleaners.asStringOrNull (get_prop obj "return_extra_id")) as [ret_extra | e].
  2:{ destruct H9 as [Hmsg Hbad]. split; [exact Hmsg|]. intros obj' [= <-].
      right. exists "return_extra_id". split; [cbn; tauto | exact Hbad]. }
  exists obj. cbn. repeat split; assumption.
Qed.

(* ================================================================== *)
(** * The theorems above on the concrete backends                       *)
(* ================================================================== *)

(** The order-creation request of the scenario's quote for 1 BTC: a
    'from' quote, so the amount travels as [deposit_amount]. *)
Lemma order_request_scenario :
  exists c,
    Io.requests (snd (Scenario.quote true "100000000"))
    = [info_call (Scenario.request "100000000") "1.00000000"; c] /\
    order_request_of Scenario.initOptions (Scenario.request "100000000") Scenario.opts
      "bc1qfrom" "0xto"
      (Scenario.getCodesWithTranscription (Scenario.request "100000000")
         Godex.MAINNET_CODE_TRANSCRIPTION)
      "1.00000000" c.
Proof.
  set (sent_ := Io.requests (snd (Scenario.quote true "100000000"))).
  assert (Hsent : sent_ =
            ([] ++ [info_call (Scenario.request "100000000") "1.00000000"]
             ++ nth 1 sent_ (info_call (Scenario.request "100000000") "") :: [])%list)
    by (vm_compute; reflexivity).
  destruct (order_request_contents nat (Scenario.backend true) Scenario.dateNow
              Scenario.initOptions Scenario.getAddress Scenario.memoType
              Scenario.getCodesWithTranscription (Scenario.request "100000000")
              Scenario.opts Scenario.start
              [info_call (Scenario.request "100000000") "1.00000000"]
              (nth 1 sent_ (info_call (Scenario.request "100000000") "")) []
              Hsent ltac:(vm_compute; reflexivity))
    as (quoteAmount & fromAddress & toAddress & _ & _ & Hq & Hf & Ht & Hc).
  assert (quoteAmount = "1.00000000") as -> by (vm_compute in Hq; congruence).
  assert (fromAddress = "bc1qfrom") as -> by (vm_compute in Hf; congruence).
  assert (toAddress = "0xto") as -> by (vm_compute in Ht; congruence).
  exists (nth 1 sent_ (info_call (Scenario.request "100000000") "")).
  split; [exact Hsent | exact Hc].
Defined.

(** The order of the scenario's quote for 1 BTC: it carries the request,
    spends at fee level 'high', pays out to the ETH wallet's address and
    expires a minute after the clock reading. *)
Lemma swap_order_scenario :
  exists order s',
    Scenario.quote true "100000000" = (Ok order, s') /\
    Godex.request order = Scenario.request "100000000" /\
    Godex.expirationDate order = 1700000060000 /\
    Godex.networkFeeOption (Godex.spendInfo order) = "high" /\
    Godex.payoutAddress (Godex.savedAction (Godex.spendInfo order)) = "0xto" /\
    Godex.refundAddress (Godex.savedAction (Godex.spendInfo order)) = "bc1qfrom".
Proof.
  assert (Hok : Scenario.is_ok (fst (Scenario.quote true "100000000")) = true)
    by (vm_compute; reflexivity).
  destruct (Scenario.quote true "100000000") as [[order | e] s'] eqn:Hrun;
    [|discriminate Hok].
  destruct (swap_order_contents nat (Scenario.backend true) Scenario.dateNow
              Scenario.initOptions Scenario.getAddress Scenario.memoType
              Scenario.getCodesWithTranscription (Scenario.request "100000000")
              Scenario.opts Scenario.start order s' Hrun)
    as (fromAddress & toAddress & quoteInfo & url & params & s1 & sendReply
        & Hf & Ht & Hcall & Hclean & Hreq & _ & Hexp & _ & _ & Hmemos & Hfee & _ & _ & _
        & _ & _ & _ & Hpayout & _ & Hrefund & _).
  assert (fromAddress = "bc1qfrom") as -> by (vm_compute in Hf; congruence).
  assert (toAddress = "0xto") as -> by (vm_compute in Ht; congruence).
  exists order, s'. split; [reflexivity|]. split; [exact Hreq|].
  split; [exact Hexp|]. split; [exact Hfee|]. split; assumption.
Defined.


(** A pair the token list does not have: DAI to XYZ. *)
Lemma totle_unsupported_scenario :
  TotlePluginScenario.quote TotlePluginScenario.swapped "XYZ" QuoteFrom =
  (Throw (SwapCurrencyError Totle.swapInfo "DAI" "XYZ"),
   TotlePlugin.Build_State
     {| TotleScenario.clock := 2000; TotleScenario.broadcasts := [] |} [tokens_call]).
Proof.
  apply (totle_unsupported_pair TotleScenario.World
           (TotlePluginScenario.backend TotlePluginScenario.swapped)
           TotlePluginScenario.dateNow TotlePluginScenario.partnerContract
           TotlePluginScenario.apiKey TotlePluginScenario.getReceiveAddress
           TotlePluginScenario.wallet_id TotlePluginScenario.makeSpend
           TotlePluginScenario.div TotlePluginScenario.mul TotlePluginScenario.gasPriceGwei
           (TotlePluginScenario.request "XYZ" QuoteFrom) TotlePluginScenario.start
           TotlePluginScenario.tokens).
  - eexists. repeat split; reflexivity.
  - right. left. cbn. intros [H | [H | []]]; discriminate H.
Defined.

Lemma totle_addresses_scenario reply side :
  addresses_resolved TotleScenario.World (TotlePluginScenario.backend reply)
    TotlePluginScenario.getReceiveAddress (TotlePluginScenario.request "ETH" side)
    TotlePluginScenario.start TotlePluginScenario.dai TotlePluginScenario.eth
    {| publicAddress := "0xuser"; legacyAddress := None |}
    {| publicAddress := "0xuser"; legacyAddress := None |}
    {| TotleScenario.clock := 2000; TotleScenario.broadcasts := [] |}.
Proof.
  exists TotlePluginScenario.tokens,
    {| TotleScenario.clock := 2000; TotleScenario.broadcasts := [] |},
    {| TotleScenario.clock := 2000; TotleScenario.broadcasts := [] |}.
  split; [eexists; repeat split; reflexivity|].
  split; [reflexivity|]. split; [reflexivity|]. split; [discriminate|].
  split; reflexivity.
Qed.

Lemma totle_replied_scenario reply side :
  exists body,
  swap_replied TotleScenario.World (TotlePluginScenario.backend reply)
    TotlePluginScenario.partnerContract TotlePluginScenario.apiKey
    TotlePluginScenario.getReceiveAddress (TotlePluginScenario.request "ETH" side)
    TotlePluginScenario.start TotlePluginScenario.dai TotlePluginScenario.eth
    {| publicAddress := "0xuser"; legacyAddress := None |} reply
    (TotlePlugin.Build_State
       {| TotleScenario.clock := 2000; TotleScenario.broadcasts := [] |}
       [tokens_call; swap_call body]).
Proof.
  eexists.
  exists {| publicAddress := "0xuser"; legacyAddress := None |},
    {| TotleScenario.clock := 2000; TotleScenario.broadcasts := [] |},
    {| TotlePlugin.status := 200; TotlePlugin.json_body := Ok reply |},
    {| TotleScenario.clock := 2000; TotleScenario.broadcasts := [] |}.
  split; [apply totle_addresses_scenario|].
  cbv zeta. split; [reflexivity|]. split; [reflexivity|]. split; reflexivity.
Qed.

(** The swap request for one DAI quoted on the 'to' side: the amount
    travels as [destinationAmount]. *)
Lemma totle_swap_request_scenario :
  exists body swap,
    TotlePlugin.requests
      (snd (TotlePluginScenario.quote TotlePluginScenario.swapped "ETH" QuoteTo))
    = [tokens_call; swap_call body] /\
    get_prop body "partnerContract" = Some (JString "0xpartner") /\
    get_prop body "apiKey" = None /\
    get_prop body "swap" = Some swap /\
    get_prop swap "sourceAmount" = None /\
    get_prop swap "destinationAmount" = Some (JString "1000000000000000000").
Proof.
  destruct (totle_swap_request TotleScenario.World
              (TotlePluginScenario.backend TotlePluginScenario.swapped)
              TotlePluginScenario.dateNow TotlePluginScenario.partnerContract
              TotlePluginScenario.apiKey TotlePluginScenario.getReceiveAddress
              TotlePluginScenario.wallet_id TotlePluginScenario.makeSpend
              TotlePluginScenario.div TotlePluginScenario.mul
              TotlePluginScenario.gasPriceGwei
              (TotlePluginScenario.request "ETH" QuoteTo) TotlePluginScenario.start
              TotlePluginScenario.dai TotlePluginScenario.eth
              {| publicAddress := "0xuser"; legacyAddress := None |}
              {| publicAddress := "0xuser"; legacyAddress := None |}
              {| TotleScenario.clock := 2000; TotleScenario.broadcasts := [] |}
              (totle_addresses_scenario TotlePluginScenario.swapped QuoteTo))
    as (body & swap & Hreq & _ & _ & Hpartner & Hkey & Hswap & _ & _ & Hsource & Hdest & _).
  exists body, swap. repeat split; assumption.
Defined.

(** The swap endpoint answers with error 3100. *)
Lemma totle_backend_error_scenario :
  fst (TotlePluginScenario.quote (TotlePluginScenario.failed 3100) "ETH" QuoteFrom)
  = Throw InsufficientFundsError.
Proof.
  destruct (totle_replied_scenario (TotlePluginScenario.failed 3100) QuoteFrom)
    as (body & Hreplied).
  destruct (totle_backend_error TotleScenario.World
              (TotlePluginScenario.backend (TotlePluginScenario.failed 3100))
              TotlePluginScenario.dateNow TotlePluginScenario.partnerContract
              TotlePluginScenario.apiKey TotlePluginScenario.getReceiveAddress
              TotlePluginScenario.wallet_id TotlePluginScenario.makeSpend
              TotlePluginScenario.div TotlePluginScenario.mul
              TotlePluginScenario.gasPriceGwei
              (TotlePluginScenario.request "ETH" QuoteFrom) TotlePluginScenario.start
              TotlePluginScenario.dai TotlePluginScenario.eth
              {| publicAddress := "0xuser"; legacyAddress := None |}
              _ _ Hreplied)
    as (_ & _ & H3100 & _).
  apply H3100. reflexivity.
Defined.

(** The quote for one DAI: the source amount is the one of the summary,
    the payout is recomputed from the guaranteed rate, and the two
    transactions of the reply were made in order. *)
Lemma totle_quote_scenario :
  exists q s',
    TotlePluginScenario.quote TotlePluginScenario.swapped "ETH" QuoteFrom = (Ok q, s') /\
    TotlePluginScenario.view (Ok q)
    = Some ("1000000000000000000", "1900000000000000", ["0xapprove"; "0xswap"],
            "60000", Some 1202000) /\
    Totle.quote_txs q <> [] /\
    Totle.expirationDate q
    = Some (TotlePluginScenario.dateNow (TotlePlugin.world s') + 1200000).
Proof.
  assert (Hview : TotlePluginScenario.view
                    (fst (TotlePluginScenario.quote TotlePluginScenario.swapped "ETH"
                            QuoteFrom))
                  = Some ("1000000000000000000", "1900000000000000",
                          ["0xapprove"; "0xswap"], "60000", Some 1202000))
    by (vm_compute; reflexivity).
  destruct (TotlePluginScenario.quote TotlePluginScenario.swapped "ETH" QuoteFrom)
    as [[q | e] s'] eqn:Hrun; [|discriminate Hview].
  destruct (totle_quote_contents TotleScenario.World
              (TotlePluginScenario.backend TotlePluginScenario.swapped)
              TotlePluginScenario.dateNow TotlePluginScenario.partnerContract
              TotlePluginScenario.apiKey TotlePluginScenario.getReceiveAddress
              TotlePluginScenario.wallet_id TotlePluginScenario.makeSpend
              TotlePluginScenario.div TotlePluginScenario.mul
              TotlePluginScenario.gasPriceGwei
              (TotlePluginScenario.request "ETH" QuoteFrom) TotlePluginScenario.start
              q s' Hrun)
    as (fromToken & toToken & fromInfo & toInfo & w3 & details & first & body & r & w & w'
        & _ & _ & _ & _ & _ & _ & _ & _ & _ & _ & Hexp & _ & _ & Hnil & _).
  exists q, s'. split; [reflexivity|]. split; [exact Hview|].
  split; [exact Hnil | exact Hexp].
Defined.

(** A successful reply without transactions gives no quote. *)
Lemma totle_malformed_scenario :
  exists msg body,
    TotlePluginScenario.quote
      (TotlePlugin.SwapReply
         (TotlePlugin.TotleSwapResponse (TotlePluginScenario.details [])))
      "ETH" QuoteFrom
    = (Throw (TypeError msg),
       TotlePlugin.Build_State
         {| TotleScenario.clock := 2000; TotleScenario.broadcasts := [] |}
         [tokens_call; swap_call body]).
Proof.
  destruct (totle_replied_scenario
              (TotlePlugin.SwapReply
                 (TotlePlugin.TotleSwapResponse (TotlePluginScenario.details [])))
              QuoteFrom) as (body & Hreplied).
  destruct (proj2 (totle_malformed_reply TotleScenario.World
              (TotlePluginScenario.backend
                 (TotlePlugin.SwapReply
                    (TotlePlugin.TotleSwapResponse (TotlePluginScenario.details []))))
              TotlePluginScenario.dateNow TotlePluginScenario.partnerContract
              TotlePluginScenario.apiKey TotlePluginScenario.getReceiveAddress
              TotlePluginScenario.wallet_id TotlePluginScenario.makeSpend
              TotlePluginScenario.div TotlePluginScenario.mul
              TotlePluginScenario.gasPriceGwei)
              (TotlePluginScenario.request "ETH" QuoteFrom) TotlePluginScenario.start
              TotlePluginScenario.dai TotlePluginScenario.eth
              {| publicAddress := "0xuser"; legacyAddress := None |}
              _ _ Hreplied) as (msg & Hrun).
  - right. eexists _, _. split; [reflexivity|]. split; [vm_compute; reflexivity|].
    reflexivity.
  - exists msg, body. exact Hrun.
Defined.

(** The token endpoint answers 503. *)
Lemma totle_fetch_scenario :
  fst (TotlePlugin.fetchTokens TotleScenario.World (TotlePluginScenario.backend_status 503)
         TotlePluginScenario.start)
  = Throw (Error "Totle returned error code 503").
Proof.
  destruct (proj1 (totle_fetch_helpers TotleScenario.World
                     (TotlePluginScenario.backend_status 503)
                     TotlePluginScenario.partnerContract TotlePluginScenario.apiKey)
              TotlePluginScenario.start) as (_ & _ & _ & H).
  destruct (H _ eq_refl) as [H503 _]. destruct H503 as [H503 _]; [reflexivity|].
  exact H503.
Defined.

(** The execution of the scenario's quote that ends well made the six
    calls of the schedule. *)
Lemma approve_completes_scenario :
  exists r s',
    Totle.approve (TotleScenario.quote "") (TotleScenario.start "") = (Ok r, s') /\
    map call_step (Totle.calls s')
    = [(0%nat, Signing); (0%nat, Broadcasting); (0%nat, Saving);
       (1%nat, Signing); (1%nat, Broadcasting); (1%nat, Saving)].
Proof.
  assert (Hout : fst (fst (TotleScenario.outcome "")) = inl "0xswap")
    by (vm_compute; reflexivity).
  unfold TotleScenario.outcome in Hout. cbv zeta in Hout. cbn [fst] in Hout.
  destruct (Totle.approve (TotleScenario.quote "") (TotleScenario.start ""))
    as [[r | e] s'] eqn:Hrun; [|discriminate Hout].
  destruct (approve_completes _ _ _ _ Hrun) as (new & Hcalls & Hsched & _).
  exists r, s'. split; [reflexivity|].
  rewrite Hcalls. cbn [TotleScenario.start Totle.initial_state Totle.calls app].
  exact Hsched.
Defined.

(* ================================================================== *)
(** * The reply cleaners of the two godex versions                      *)
(* ================================================================== *)

(** The two versions read the same replies.  Every info reply the
    earlier plugin accepts is accepted by the current one, with the same
    minimum; the current one also accepts replies the earlier one rejects,
    for instance a reply without [amount] whose [min_amount] is a JSON
    number.  In the other direction, every order reply the current plugin
    accepts is accepted by the earlier one, which reads the same order id,
    addresses and extra ids from it. *)
Theorem reply_cleaners_compatible :
  (forall raw old,
     GodexLegacy.asApiInfo raw = Ok old ->
     exists new,
       Godex.asApiInfo raw = Ok new /\
       Godex.min_amount new = GodexLegacy.min_amount old)
  /\
  (exists raw new,
     Godex.asApiInfo raw = Ok new /\
     forall old, GodexLegacy.asApiInfo raw <> Ok old)
  /\
  (forall raw new,
     Godex.asQuoteInfo raw = Ok new ->
     GodexLegacy.asQuoteInfo raw =
     Ok {| GodexLegacy.transaction_id := Godex.transaction_id new;
           GodexLegacy.deposit := Godex.deposit new;
           GodexLegacy.deposit_extra_id := Godex.deposit_extra_id new;
           GodexLegacy.withdrawal := Godex.withdrawal new;
           GodexLegacy.withdrawal_extra_id := Godex.withdrawal_extra_id new;
           GodexLegacy.return_ := Godex.return_ new;
           GodexLegacy.return_extra_id := Godex.return_extra_id new |}).
Proof.
  split; [|split].
  - intros raw old. unfold GodexLegacy.asApiInfo, Godex.asApiInfo, result_bind.
    destruct (cleaners.asObject_raw raw) as [obj | e]; [|discriminate].
    destruct (cleaners.asString (get_prop obj "amount")) as [a | e]; [|discriminate].
    unfold asNumberString, cleaners.asEither.
    destruct (cleaners.asString (get_prop obj "min_amount")) as [minimum | e];
      [|discriminate].
    intros [= <-].
    destruct (asMaybe_total (cleaners.asArray Godex.asNetworkEntry)
                (get_prop obj "networks_from")) as (nfrom & ->).
    destruct (asMaybe_total (cleaners.asArray Godex.asNetworkEntry)
                (get_prop obj "networks_to")) as (nto & ->).
    eexists. split; reflexivity.
  - exists (Some (JObject [("min_amount", JNumber "0.001")])). eexists.
    split; [reflexivity|]. intros old. discriminate.
  - intros raw new. unfold GodexLegacy.asQuoteInfo, Godex.asQuoteInfo, result_bind.
    destruct (cleaners.asObject_raw raw) as [obj | e]; [|discriminate].
    destruct (cleaners.asString (get_prop obj "transaction_id")); [|discriminate].
    destruct (cleaners.asString (get_prop obj "deposit")); [|discriminate].
    destruct (cleaners.asStringOrNull (get_prop obj "deposit_extra_id")); [|discriminate].
    destruct (cleaners.asString (get_prop obj "deposit_amount")); [|discriminate].
    destruct (cleaners.asString (get_prop obj "withdrawal")); [|discriminate].
    destruct (cleaners.asStringOrNull (get_prop obj "withdrawal_extra_id")); [|discriminate].
    destruct (cleaners.asString (get_prop obj "withdrawal_amount")); [|discriminate].
    destruct (cleaners.asString (get_prop obj "return")); [|discriminate].
    destruct (cleaners.asStringOrNull (get_prop obj "return_extra_id")); [|discriminate].
    intros [= <-]. reflexivity.
Qed.

(** The info reply of the scenario is read alike by both versions. *)
Lemma reply_cleaners_scenario :
  exists new,
    Godex.asApiInfo (Some (Scenario.info_reply true)) = Ok new /\
    Godex.min_amount new = "0.001".
Proof.
  exact (proj1 reply_cleaners_compatible (Some (Scenario.info_reply true))
           {| GodexLegacy.amount := "15.5"; GodexLegacy.min_amount := "0.001" |} eq_refl).
Defined.

(** The wallet is short of funds for the swap transaction: the approval
    was made, the quote is rejected. *)
Lemma totle_spend_scenario :
  exists body,
    TotlePlugin.fetchSwapQuote TotleScenario.World
      (TotlePluginScenario.backend TotlePluginScenario.swapped)
      TotlePluginScenario.dateNow TotlePluginScenario.partnerContract
      TotlePluginScenario.apiKey TotlePluginScenario.getReceiveAddress
      TotlePluginScenario.wallet_id (TotlePluginScenario.makeSpend_short "0xswap")
      TotlePluginScenario.div TotlePluginScenario.mul TotlePluginScenario.gasPriceGwei
      (TotlePluginScenario.request "ETH" QuoteFrom) TotlePluginScenario.start
    = (Throw InsufficientFundsError,
       TotlePlugin.Build_State
         {| TotleScenario.clock := 2000; TotleScenario.broadcasts := [] |}
         [tokens_call; swap_call body]).
Proof.
  destruct (totle_replied_scenario TotlePluginScenario.swapped QuoteFrom)
    as (body & Hreplied).
  exists body.
  eapply (totle_spend_refused TotleScenario.World
           (TotlePluginScenario.backend TotlePluginScenario.swapped)
           TotlePluginScenario.dateNow TotlePluginScenario.partnerContract
           TotlePluginScenario.apiKey TotlePluginScenario.getReceiveAddress
           TotlePluginScenario.wallet_id (TotlePluginScenario.makeSpend_short "0xswap")
           TotlePluginScenario.div TotlePluginScenario.mul TotlePluginScenario.gasPriceGwei
           (TotlePluginScenario.request "ETH" QuoteFrom) TotlePluginScenario.start
           TotlePluginScenario.dai TotlePluginScenario.eth
           {| publicAddress := "0xuser"; legacyAddress := None |}
           (TotlePluginScenario.details
              [TotlePluginScenario.approveTx; TotlePluginScenario.swapTx])
           (TotlePlugin.Build_State
              {| TotleScenario.clock := 2000; TotleScenario.broadcasts := [] |}
              [tokens_call; swap_call body])
           _ ("1000000000000000000", "1900000000000000")
           [TotlePluginScenario.approveTx] TotlePluginScenario.swapTx []
           _ _ InsufficientFundsError
           {| TotleScenario.clock := 2000; TotleScenario.broadcasts := [] |}).
  - exact Hreplied.
  - reflexivity.
  - vm_compute. reflexivity.
  - reflexivity.
  - econstructor; [reflexivity | constructor].
  - reflexivity.
Defined.
